(** * Mutual-fund portfolio extraction and validation

    A shallow embedding of the two programs of the repository:

    - [Scraper]: the sheet parsing part of [MutualFundPortfolioScraper]
      ([find_reporting_date], [find_header_row], [is_section_header],
      [classify_instrument_type], [extract_holding_from_row],
      [extract_holdings_from_sheet], [parse_excel_portfolios]);
    - [Validator]: [PortfolioDataValidator] of [validate_data.py];
    - [Discovery] and [Output]: the search for the workbook, the download
      and the files written ([fetch_page_content],
      [find_portfolio_file_url], [download_file], [save_to_csv],
      [run_full_automation]);
    - [Profile]: [generate_data_profile] and the script of
      [validate_data.py].

    Conventions of the embedding.

    - Python [str] is [string] (bytes; the text is taken to be ASCII, so
      [str.lower] only moves [A-Z]).
    - A spreadsheet cell is observed by the program through [pd.isna],
      [str(cell)] and [float(cell)] only; a cell is modelled by exactly these
      three observations ([Cell]).
    - A finite Python float is the rational it denotes ([Q]); the program
      only compares floats with constants, which is exact. The one place
      where floats are added is the [sum] of pandas in
      [check_portfolio_percentages]: that summation is a parameter of the
      model ([Validator.Summation]), nothing is assumed about it.
      Infinities are not modelled; NaN is a missing cell.
    - Exceptions are explicit: a computation that can raise returns
      [result A]. [try/except Exception] is a [match] on the result.
    - Calls into pandas that read a file are inputs of the model (an
      [ExcelFile] carries what [pd.read_excel] returns for each sheet), and
      so are the network and the file system written to. *)

From Stdlib Require Import String Ascii List ListDec Bool Arith Lia.
From Stdlib Require Import QArith.
From Stdlib Require Import Floats.PrimFloat Floats.FloatOps Floats.SpecFloat.
From Stdlib Require Import Numbers.Cyclic.Int63.Uint63.
Import ListNotations.

Local Open Scope string_scope.
Local Open Scope list_scope.
Local Open Scope nat_scope.

(* ================================================================== *)
(** ** Python strings *)

Module PyStr.

Definition is_upper (c : ascii) : bool :=
  let n := nat_of_ascii c in (65 <=? n) && (n <=? 90).

Definition is_lower (c : ascii) : bool :=
  let n := nat_of_ascii c in (97 <=? n) && (n <=? 122).

Definition is_digit (c : ascii) : bool :=
  let n := nat_of_ascii c in (48 <=? n) && (n <=? 57).

(** [c.lower()] on one ASCII character. *)
Definition lower_ascii (c : ascii) : ascii :=
  if is_upper c then ascii_of_nat (nat_of_ascii c + 32) else c.

(** [s.lower()] *)
Fixpoint lower (s : string) : string :=
  match s with
  | EmptyString => EmptyString
  | String c s' => String (lower_ascii c) (lower s')
  end.

(** The ASCII characters that [str.strip()] removes: tab, line feed,
    vertical tab, form feed, carriage return, the four separators
    0x1c-0x1f and the space. *)
Definition is_space (c : ascii) : bool :=
  let n := nat_of_ascii c in
  ((9 <=? n) && (n <=? 13)) || ((28 <=? n) && (n <=? 32)).

Fixpoint lstrip (s : string) : string :=
  match s with
  | EmptyString => EmptyString
  | String c s' => if is_space c then lstrip s' else s
  end.

(** [rstrip]: a character is dropped when it is a space and everything
    after it has been dropped. *)
Fixpoint rstrip (s : string) : string :=
  match s with
  | EmptyString => EmptyString
  | String c s' =>
      match rstrip s' with
      | EmptyString => if is_space c then EmptyString else String c EmptyString
      | t => String c t
      end
  end.

(** [s.strip()] *)
Definition strip (s : string) : string := rstrip (lstrip s).

(** [s.startswith(p)] *)
Fixpoint startswith (p s : string) : bool :=
  match p, s with
  | EmptyString, _ => true
  | String a p', String b s' => Ascii.eqb a b && startswith p' s'
  | String _ _, EmptyString => false
  end.

(** [sub in s] *)
Fixpoint contains (sub s : string) : bool :=
  startswith sub s ||
  match s with
  | EmptyString => false
  | String _ s' => contains sub s'
  end.

(** [any(keyword in s for keyword in keywords)] *)
Definition any_in (keywords : list string) (s : string) : bool :=
  existsb (fun keyword => contains keyword s) keywords.

(** [sep.join(parts)] *)
Fixpoint join (sep : string) (parts : list string) : string :=
  match parts with
  | [] => EmptyString
  | [p] => p
  | p :: rest => (p ++ sep ++ join sep rest)%string
  end.

(** [bool(s)]: a string is truthy when it is not empty. *)
Definition truthy (s : string) : bool :=
  match s with EmptyString => false | String _ _ => true end.

End PyStr.

(* ================================================================== *)
(** ** The regular expressions of the source

    The three patterns of the source use literals, character classes,
    bounded repetition, alternation and [.*]. They are embedded as terms
    of [re] and matched with Brzozowski derivatives. *)

Module Regex.

Inductive re : Type :=
| Void : re                          (* matches nothing *)
| Eps : re                           (* matches the empty string *)
| Chr : (ascii -> bool) -> re        (* one character of a class *)
| Cat : re -> re -> re
| Alt : re -> re -> re
| Star : re -> re.

Fixpoint nullable (r : re) : bool :=
  match r with
  | Void => false
  | Eps => true
  | Chr _ => false
  | Cat r1 r2 => nullable r1 && nullable r2
  | Alt r1 r2 => nullable r1 || nullable r2
  | Star _ => true
  end.

Definition cat (r1 r2 : re) : re :=
  match r1, r2 with
  | Void, _ => Void
  | _, Void => Void
  | Eps, _ => r2
  | _, Eps => r1
  | _, _ => Cat r1 r2
  end.

Definition alt (r1 r2 : re) : re :=
  match r1, r2 with
  | Void, _ => r2
  | _, Void => r1
  | _, _ => Alt r1 r2
  end.

Fixpoint deriv (c : ascii) (r : re) : re :=
  match r with
  | Void => Void
  | Eps => Void
  | Chr p => if p c then Eps else Void
  | Cat r1 r2 =>
      if nullable r1
      then alt (cat (deriv c r1) r2) (deriv c r2)
      else cat (deriv c r1) r2
  | Alt r1 r2 => alt (deriv c r1) (deriv c r2)
  | Star r1 => cat (deriv c r1) (Star r1)
  end.

(** The whole of [s] is a word of [r]. *)
Fixpoint fullmatch (r : re) (s : string) : bool :=
  match s with
  | EmptyString => nullable r
  | String c s' => fullmatch (deriv c r) s'
  end.

Definition newline : ascii := ascii_of_nat 10.

Definition any_char : re := Chr (fun _ => true).

(** [.] without DOTALL: any character but the line feed. *)
Definition dot : re := Chr (fun c => negb (Ascii.eqb c newline)).

Fixpoint lit (s : string) : re :=
  match s with
  | EmptyString => Eps
  | String c s' => Cat (Chr (Ascii.eqb c)) (lit s')
  end.

(** [r{n}] *)
Fixpoint rep (n : nat) (r : re) : re :=
  match n with
  | O => Eps
  | S n' => Cat r (rep n' r)
  end.

(** [re.match('^' r '$', s)]: [$] matches at the end of the string and
    also just before a line feed that ends the string. *)
Definition match_anchored (r : re) (s : string) : bool :=
  fullmatch (Cat r (Alt Eps (Chr (Ascii.eqb newline)))) s.

(** [re.search(r, s)]: some substring of [s] is a word of [r]. *)
Definition search (r : re) (s : string) : bool :=
  fullmatch (Cat (Star any_char) (Cat r (Star any_char))) s.

(** [re.search(r, s, re.IGNORECASE)] for a pattern [r] written in lower
    case. *)
Definition search_ignorecase (r : re) (s : string) : bool :=
  search r (PyStr.lower s).

(** [^[A-Z]{2}[A-Z0-9]{9}[0-9]$] *)
Definition isin_pattern : re :=
  Cat (rep 2 (Chr PyStr.is_upper))
      (Cat (rep 9 (Chr (fun c => PyStr.is_upper c || PyStr.is_digit c)))
           (Chr PyStr.is_digit)).

(** [(december|31.*12.*2025|2025.*12.*31)] *)
Definition date_pattern : re :=
  Alt (lit "december")
      (Alt (Cat (lit "31") (Cat (Star dot) (Cat (lit "12") (Cat (Star dot) (lit "2025")))))
           (Cat (lit "2025") (Cat (Star dot) (Cat (lit "12") (Cat (Star dot) (lit "31")))))).

End Regex.

(* ================================================================== *)
(** ** Exceptions *)

Inductive Exn : Type :=
| IndexError
| KeyError
| ValueError
| TypeError
| AttributeError
| OSError
| ReadError (message : string).   (* any exception of a pandas reader *)

Inductive result (A : Type) : Type :=
| Ok (a : A)
| Raise (e : Exn).

Arguments Ok {A} a.
Arguments Raise {A} e.

Definition bind {A B : Type} (m : result A) (k : A -> result B) : result B :=
  match m with
  | Ok a => k a
  | Raise e => Raise e
  end.

Notation "x <- m ;; k" := (bind m (fun x => k))
  (at level 61, m at next level, right associativity).

(** Case analysis on the test of the first conditional of the goal. *)
Ltac case_if :=
  match goal with
  | |- context [if ?b then _ else _] => destruct b eqn:?
  end.

(* ================================================================== *)
(** ** The scraper: [MutualFundPortfolioScraper] *)

Module Scraper.

Import PyStr.

(** *** Cells, rows, sheets *)

(** A cell of a sheet, as the program observes it: [NaN] is a cell for
    which [pd.isna] holds; [Value text num] is any other cell, [text] being
    [str(cell)] and [num] what [float(cell)] returns ([None] when it
    raises). *)
Inductive Cell : Type :=
| NaN
| Value (text : string) (num : option Q).

(** [pd.isna(cell)] and [pd.notna(cell)] *)
Definition isna (c : Cell) : bool :=
  match c with NaN => true | Value _ _ => false end.

Definition notna (c : Cell) : bool := negb (isna c).

(** [str(cell)] *)
Definition str (c : Cell) : string :=
  match c with NaN => "nan" | Value text _ => text end.

(** [float(cell)] inside [try: ... except: None] *)
Definition to_float (c : Cell) : option Q :=
  match c with NaN => None | Value _ num => num end.

(** A sheet read with [header=None]: rows of cells. *)
Definition Grid : Type := list (list Cell).

(** A column label. As read from the header line it is [Some text] for a
    header cell that is text and [None] for one that is not (a number, a
    date). Once the columns are cleaned, [None] is the NaN that
    [.str.strip().str.lower()] leaves in place of such a label; the program
    looks at labels after the cleaning only. *)
Definition Label : Type := option string.

(** Equality of labels in a lookup: NaN finds NaN. *)
Definition label_eqb (a b : Label) : bool :=
  match a, b with
  | Some s, Some t => String.eqb s t
  | None, None => true
  | _, _ => false
  end.

(** [str(col_name)] *)
Definition label_str (l : Label) : string :=
  match l with Some text => text | None => "nan" end.

(** A row of a sheet read with a header: a pandas Series, its index being
    the column labels. *)
Definition Row : Type := list (Label * Cell).

Definition index (row : Row) : list Label := map fst row.
Definition values (row : Row) : list Cell := map snd row.

(** A workbook opened by [pd.ExcelFile]. [read_raw name] is
    [pd.read_excel(xl_file, sheet_name=name, header=None)] and
    [read_header name idx] is
    [pd.read_excel(xl_file, sheet_name=name, header=idx)], its rows listed
    in [iterrows] order; either call can raise ([Raise] stands for any
    exception caught by [except Exception]). *)
Record ExcelFile : Type := {
  sheet_names : list string;
  read_raw : string -> result Grid;
  read_header : string -> nat -> result (list Row)
}.

Inductive InstrumentType : Type :=
| Unknown | Equity | Debt | MoneyMarket | Other.

(** The dictionary built by [extract_holding_from_row]. The four keys set
    at construction are always present; the others are [None] while the
    key is absent. A numeric key that is present holds [None] after a
    failed [float]. *)
Record Holding : Type := {
  amc_name : string;
  scheme_name : string;
  instrument_type : InstrumentType;
  reporting_date : string;
  instrument_name : option string;
  isin : option string;
  industry_rating : option string;
  quantity : option (option Q);
  market_value_lakhs : option (option Q);
  percentage_of_portfolio : option (option Q)
}.

Definition set_instrument_name (v : string) (h : Holding) : Holding :=
  {| amc_name := amc_name h; scheme_name := scheme_name h;
     instrument_type := instrument_type h; reporting_date := reporting_date h;
     instrument_name := Some v; isin := isin h;
     industry_rating := industry_rating h; quantity := quantity h;
     market_value_lakhs := market_value_lakhs h;
     percentage_of_portfolio := percentage_of_portfolio h |}.

Definition set_isin (v : string) (h : Holding) : Holding :=
  {| amc_name := amc_name h; scheme_name := scheme_name h;
     instrument_type := instrument_type h; reporting_date := reporting_date h;
     instrument_name := instrument_name h; isin := Some v;
     industry_rating := industry_rating h; quantity := quantity h;
     market_value_lakhs := market_value_lakhs h;
     percentage_of_portfolio := percentage_of_portfolio h |}.

Definition set_industry_rating (v : string) (h : Holding) : Holding :=
  {| amc_name := amc_name h; scheme_name := scheme_name h;
     instrument_type := instrument_type h; reporting_date := reporting_date h;
     instrument_name := instrument_name h; isin := isin h;
     industry_rating := Some v; quantity := quantity h;
     market_value_lakhs := market_value_lakhs h;
     percentage_of_portfolio := percentage_of_portfolio h |}.

Definition set_quantity (v : option Q) (h : Holding) : Holding :=
  {| amc_name := amc_name h; scheme_name := scheme_name h;
     instrument_type := instrument_type h; reporting_date := reporting_date h;
     instrument_name := instrument_name h; isin := isin h;
     industry_rating := industry_rating h; quantity := Some v;
     market_value_lakhs := market_value_lakhs h;
     percentage_of_portfolio := percentage_of_portfolio h |}.

Definition set_market_value_lakhs (v : option Q) (h : Holding) : Holding :=
  {| amc_name := amc_name h; scheme_name := scheme_name h;
     instrument_type := instrument_type h; reporting_date := reporting_date h;
     instrument_name := instrument_name h; isin := isin h;
     industry_rating := industry_rating h; quantity := quantity h;
     market_value_lakhs := Some v;
     percentage_of_portfolio := percentage_of_portfolio h |}.

Definition set_percentage_of_portfolio (v : option Q) (h : Holding) : Holding :=
  {| amc_name := amc_name h; scheme_name := scheme_name h;
     instrument_type := instrument_type h; reporting_date := reporting_date h;
     instrument_name := instrument_name h; isin := isin h;
     industry_rating := industry_rating h; quantity := quantity h;
     market_value_lakhs := market_value_lakhs h;
     percentage_of_portfolio := Some v |}.

(** *** [find_reporting_date] *)

Definition default_date : string := "2025-12-31".

(** [re.search(r'(december|31.*12.*2025|2025.*12.*31)', str(cell), re.IGNORECASE)] *)
Definition date_match (c : Cell) : bool :=
  Regex.search_ignorecase Regex.date_pattern (str c).

(** The inner loop over the columns of one row: the date returned at the
    first matching cell, if any. *)
Fixpoint scan_date_cells (cells : list Cell) : option string :=
  match cells with
  | [] => None
  | c :: rest => if date_match c then Some "2025-12-31" else scan_date_cells rest
  end.

(** The outer loop over the rows. *)
Fixpoint scan_date_rows (rows : Grid) : option string :=
  match rows with
  | [] => None
  | row :: rest =>
      match scan_date_cells row with
      | Some d => Some d
      | None => scan_date_rows rest
      end
  end.

Definition find_reporting_date (df : Grid) : string :=
  match scan_date_rows (firstn (Nat.min 10 (length df)) df) with
  | Some d => d
  | None => default_date
  end.

(** *** [find_header_row] *)

Definition header_keywords : list string :=
  ["name"; "isin"; "quantity"; "rating"; "industry"; "instrument"].

(** [' '.join([str(cell).lower() for cell in row if pd.notna(cell)])] *)
Definition row_text (row : list Cell) : string :=
  join " " (map (fun cell => lower (str cell)) (filter notna row)).

(** [sum(1 for keyword in header_keywords if keyword in row_text)] *)
Definition keyword_matches (row : list Cell) : nat :=
  length (filter (fun keyword => contains keyword (row_text row)) header_keywords).

(** The loop body, from row number [idx] on. *)
Fixpoint find_header_from (idx : nat) (rows : Grid) : option nat :=
  match rows with
  | [] => None
  | row :: rest =>
      if 2 <=? keyword_matches row then Some idx
      else find_header_from (S idx) rest
  end.

Definition find_header_row (df : Grid) : option nat :=
  find_header_from 0 (firstn (Nat.min 20 (length df)) df).

(** *** [is_section_header] and [classify_instrument_type] *)

(** The lower-cased text of a cell, empty for a missing value. *)
Definition cell_lower (c : Cell) : string :=
  if notna c then lower (str c) else "".

(** [combined = f"{first_cell} {second_cell}"]; [row.iloc[0]] raises
    [IndexError] on a row without cells, and the second cell is read only
    when [len(row) > 1]. *)
Definition combined (row : list Cell) : result string :=
  match row with
  | [] => Raise IndexError
  | c0 :: rest =>
      let first_cell := cell_lower c0 in
      let second_cell := match rest with c1 :: _ => cell_lower c1 | [] => "" end in
      Ok (first_cell ++ " " ++ second_cell)%string
  end.

Definition section_keywords : list string :=
  ["equity"; "debt instruments"; "government securities"; "corporate bonds";
   "money market"; "net current"; "listed"; "unlisted"; "awaiting listing";
   "privately placed"; "reverse repo"; "treps"; "treasury";
   "certificate of deposit"; "commercial paper"].

(** [pd.notna(cell) and re.match(r'^[A-Z]{2}[A-Z0-9]{9}[0-9]$', str(cell))] *)
Definition isin_cell (c : Cell) : bool :=
  notna c && Regex.match_anchored Regex.isin_pattern (str c).

Definition has_isin (row : list Cell) : bool := existsb isin_cell row.

Definition is_section_header (row : list Cell) : result bool :=
  text <- combined row ;;
  if any_in section_keywords text then
    if negb (has_isin row) then Ok true else Ok false
  else Ok false.

Definition equity_keywords : list string := ["equity"; "stock"].
Definition debt_keywords : list string :=
  ["debt instruments"; "government securities"; "bond"; "debenture"].
Definition money_market_keywords : list string :=
  ["money market"; "cash"; "liquid"; "reverse repo"; "treps"; "treasury bill";
   "certificate of deposit"; "commercial paper"].

Definition classify_instrument_type (row : list Cell) : result InstrumentType :=
  text <- combined row ;;
  if any_in equity_keywords text then Ok Equity
  else if any_in debt_keywords text then Ok Debt
  else if any_in money_market_keywords text then Ok MoneyMarket
  else Ok Other.

(** *** [extract_holding_from_row] *)

(** [row[col_name]]. When the label occurs once this is the cell. When it
    occurs several times pandas returns a Series, and the test
    [if pd.isna(value)] that follows raises [ValueError]. *)
Definition getitem (row : Row) (col_name : Label) : result Cell :=
  match filter (fun entry => label_eqb (fst entry) col_name) row with
  | [] => Raise KeyError
  | [(_, value)] => Ok value
  | _ :: _ :: _ => Raise ValueError
  end.

(** The [if]/[elif] chain of the loop body, for a column whose value is
    not missing. *)
Definition assign_field (col_name : string) (value : Cell) (holding : Holding)
  : Holding :=
  let col_lower := lower col_name in
  if any_in ["name of the instrument"; "name"; "security"] col_lower then
    if negb (contains "isin" col_lower)
    then set_instrument_name (strip (str value)) holding
    else holding
  else if contains "isin" col_lower then
    set_isin (strip (str value)) holding
  else if contains "industry" col_lower || contains "rating" col_lower then
    set_industry_rating (strip (str value)) holding
  else if contains "quantity" col_lower then
    set_quantity (to_float value) holding
  else if any_in ["market"; "fair value"; "value"] col_lower then
    if contains "rs" col_lower || contains "lakhs" col_lower
       || contains "amount" col_lower
    then set_market_value_lakhs (to_float value) holding
    else holding
  else if contains "%" col_lower || contains "net assets" col_lower then
    set_percentage_of_portfolio (to_float value) holding
  else holding.

(** [for col_name in row.index: ...]; the chain reads [str(col_name)]. *)
Fixpoint fill_fields (row : Row) (labels : list Label) (holding : Holding)
  : result Holding :=
  match labels with
  | [] => Ok holding
  | col_name :: rest =>
      value <- getitem row col_name ;;
      if isna value then fill_fields row rest holding
      else fill_fields row rest
             (assign_field (label_str col_name) value holding)
  end.

Definition skip_keywords : list string :=
  ["total"; "sub-total"; "subtotal"; "net current"; "grand total";
   "net receivables"; "net payables"; "listed / awaiting";
   "privately placed"; "unlisted"; "benchmark"; "risk-o-meter"].

(** The test that ends [extract_holding_from_row]. *)
Definition keep_holding (holding : Holding) : option Holding :=
  match instrument_name holding with
  | Some name =>
      if truthy name then
        let name_lower := lower name in
        if negb (any_in skip_keywords name_lower) then
          if 3 <? String.length (strip name) then Some holding else None
        else None
      else None
  | None => None
  end.

Definition new_holding (amc : string) (scheme : string)
           (type : InstrumentType) (date : string) : Holding :=
  {| amc_name := amc; scheme_name := scheme; instrument_type := type;
     reporting_date := date; instrument_name := None; isin := None;
     industry_rating := None; quantity := None; market_value_lakhs := None;
     percentage_of_portfolio := None |}.

Definition extract_holding_from_row (amc : string) (row : Row)
           (scheme : string) (type : InstrumentType) (date : string)
  : result (option Holding) :=
  if forallb isna (values row) then Ok None
  else
    holding <- fill_fields row (index row) (new_holding amc scheme type date) ;;
    Ok (keep_holding holding).

(** *** [extract_holdings_from_sheet] *)

(** [df.columns = df.columns.str.strip().str.lower()], seen from a row: a
    text label is stripped and lower-cased, a label that is not text
    becomes NaN. A header line without any text label, on which the [.str]
    accessor raises, is one more way for [read_header] to end in
    [Raise]. *)
Definition clean_columns (row : Row) : Row :=
  map (fun entry =>
         (option_map (fun text => lower (strip text)) (fst entry), snd entry))
      row.

(** [for idx, row in df.iterrows(): ...] with the running section and the
    holdings collected so far. *)
Fixpoint stream_rows (amc sheet_name date : string) (rows : list Row)
         (current_instrument_type : InstrumentType) (holdings : list Holding)
  : result (list Holding) :=
  match rows with
  | [] => Ok holdings
  | row :: rest =>
      header <- is_section_header (values row) ;;
      if header then
        type <- classify_instrument_type (values row) ;;
        stream_rows amc sheet_name date rest type holdings
      else
        holding <- extract_holding_from_row amc row sheet_name
                     current_instrument_type date ;;
        match holding with
        | Some h =>
            stream_rows amc sheet_name date rest current_instrument_type
              (holdings ++ [h])
        | None =>
            stream_rows amc sheet_name date rest current_instrument_type
              holdings
        end
  end.

(** The body of the [try] block. *)
Definition sheet_body (amc : string) (xl : ExcelFile) (sheet_name : string)
  : result (list Holding) :=
  df <- read_raw xl sheet_name ;;
  let date := find_reporting_date df in
  match find_header_row df with
  | None => Ok []
  | Some header_row_idx =>
      df' <- read_header xl sheet_name header_row_idx ;;
      stream_rows amc sheet_name date (map clean_columns df') Unknown []
  end.

(** [try: ... except Exception: return []] *)
Definition extract_holdings_from_sheet (amc : string) (xl : ExcelFile)
           (sheet_name : string) : list Holding :=
  match sheet_body amc xl sheet_name with
  | Ok holdings => holdings
  | Raise _ => []
  end.

(** *** [parse_excel_portfolios] *)

Definition sheet_skip_keywords : list string :=
  ["index"; "summary"; "contents"; "note"; "disclaimer"].

Definition scheme_sheets (xl : ExcelFile) : list string :=
  filter (fun sheet => negb (any_in sheet_skip_keywords (lower sheet)))
         (sheet_names xl).

(** One turn of the loop over the scheme sheets:
    [if holdings: all_holdings.extend(holdings)]. *)
Definition add_sheet (amc : string) (xl : ExcelFile)
           (all_holdings : list Holding) (sheet_name : string) : list Holding :=
  match extract_holdings_from_sheet amc xl sheet_name with
  | [] => all_holdings
  | holdings => all_holdings ++ holdings
  end.

(** [excel] is the outcome of [pd.ExcelFile(excel_path)]; the result is the
    list of records of the returned DataFrame, [None] for the [None] of the
    [except] branch. *)
Definition parse_excel_portfolios (amc : string) (excel : result ExcelFile)
  : option (list Holding) :=
  match excel with
  | Raise _ => None
  | Ok xl => Some (fold_left (add_sheet amc xl) (scheme_sheets xl) [])
  end.

End Scraper.

(* ================================================================== *)
(** ** The validator: [PortfolioDataValidator] *)

Module Validator.

(** *** The DataFrame read from the CSV file *)

(** A column as [pd.read_csv] types it: a numeric column (dtype float64,
    [None] for NaN) or a text column (dtype object, [None] for NaN). *)
Inductive Column : Type :=
| FloatCol (cells : list (option Q))
| ObjectCol (cells : list (option string)).

(** A DataFrame: its columns in order, each with its label. *)
Definition DataFrame : Type := list (string * Column).

Definition columns (df : DataFrame) : list string := map fst df.

(** [name in df.columns] *)
Definition has_column (df : DataFrame) (name : string) : bool :=
  existsb (String.eqb name) (columns df).

(** [df[name]] *)
Fixpoint getitem (df : DataFrame) (name : string) : result Column :=
  match df with
  | [] => Raise KeyError
  | (label, col) :: rest =>
      if String.eqb name label then Ok col else getitem rest name
  end.

(** The messages appended to [self.issues], one constructor per f-string,
    with the values it interpolates. *)
Inductive Issue : Type :=
| MissingRequiredColumns (missing : list string)
    (* "Missing required columns: {missing}" *)
| InvalidIsinCodes (n : nat)
    (* "Found {n} invalid ISIN codes" *)
| InvalidPercentage (n : nat)
    (* "Found {n} holdings with invalid percentage" *)
| NegativeValue (n : nat)
    (* "Found {n} holdings with negative value" *)
| UnusualPortfolioSum (n : nat)
    (* "Found {n} schemes with unusual portfolio sum" *)
| DuplicateHoldings (n : nat).
    (* "Found {n} duplicate holdings" *)

(** The validator object. *)
Record PortfolioDataValidator : Type := {
  csv_path : string;
  df : DataFrame;
  issues : list Issue
}.

(** [__init__], [frame] being what [pd.read_csv(csv_path)] returned. *)
Definition init (path : string) (frame : DataFrame) : PortfolioDataValidator :=
  {| csv_path := path; df := frame; issues := [] |}.

(** [self.issues.append(issue)] *)
Definition append_issue (issue : Issue) (self : PortfolioDataValidator)
  : PortfolioDataValidator :=
  {| csv_path := csv_path self; df := df self;
     issues := issues self ++ [issue] |}.

(** [if len(selection) > 0: self.issues.append(issue(len(selection)))] *)
Definition report (n : nat) (issue : nat -> Issue)
           (self : PortfolioDataValidator) : PortfolioDataValidator :=
  if 0 <? n then append_issue (issue n) self else self.

(** *** [check_required_fields] *)

Definition required_fields : list string :=
  ["amc_name"; "scheme_name"; "instrument_name"; "instrument_type";
   "reporting_date"].

Definition missing_fields (frame : DataFrame) : list string :=
  filter (fun f => negb (has_column frame f)) required_fields.

Definition check_required_fields (self : PortfolioDataValidator)
  : PortfolioDataValidator :=
  match missing_fields (df self) with
  | [] => self
  | missing => append_issue (MissingRequiredColumns missing) self
  end.

(** *** [check_isin_format] *)

(** [self.df['isin'].notna() & ~self.df['isin'].str.match(pattern, na=False)]
    on one cell. *)
Definition invalid_isin (cell : option string) : bool :=
  match cell with
  | None => false
  | Some s => negb (Regex.match_anchored Regex.isin_pattern s)
  end.

(** The [.str] accessor exists only on a text column. *)
Definition check_isin_format (self : PortfolioDataValidator)
  : result PortfolioDataValidator :=
  if negb (has_column (df self) "isin") then Ok self
  else
    col <- getitem (df self) "isin" ;;
    match col with
    | FloatCol _ => Raise AttributeError
    | ObjectCol cells =>
        let invalid_isins := filter invalid_isin cells in
        Ok (report (length invalid_isins) InvalidIsinCodes self)
    end.

(** *** [check_numeric_ranges] *)

Definition Qltb (x y : Q) : bool := negb (Qle_bool y x).

(** The cells of a column compared with a number: a text cell makes the
    comparison raise [TypeError]. *)
Definition numeric (col : Column) : result (list (option Q)) :=
  match col with
  | FloatCol cells => Ok cells
  | ObjectCol cells =>
      if existsb (fun c => match c with Some _ => true | None => false end) cells
      then Raise TypeError
      else Ok (map (fun _ => None) cells)
  end.

(** [(x < 0) | (x > 100)]; a comparison with NaN is false. *)
Definition out_of_range (cell : option Q) : bool :=
  match cell with
  | None => false
  | Some x => Qltb x 0 || Qltb 100 x
  end.

(** [x < 0] *)
Definition negative (cell : option Q) : bool :=
  match cell with
  | None => false
  | Some x => Qltb x 0
  end.

(** The block on [percentage_of_portfolio]. *)
Definition check_percentage_range (self : PortfolioDataValidator)
  : result PortfolioDataValidator :=
  if has_column (df self) "percentage_of_portfolio" then
    col <- getitem (df self) "percentage_of_portfolio" ;;
    cells <- numeric col ;;
    Ok (report (length (filter out_of_range cells)) InvalidPercentage self)
  else Ok self.

(** The block on [market_value_lakhs]. *)
Definition check_market_value (self : PortfolioDataValidator)
  : result PortfolioDataValidator :=
  if has_column (df self) "market_value_lakhs" then
    col <- getitem (df self) "market_value_lakhs" ;;
    cells <- numeric col ;;
    Ok (report (length (filter negative cells)) NegativeValue self)
  else Ok self.

Definition check_numeric_ranges (self : PortfolioDataValidator)
  : result PortfolioDataValidator :=
  self1 <- check_percentage_range self ;;
  check_market_value self1.

(** *** [check_portfolio_percentages] *)

(** A group key: a value of the grouping column that is not NaN. *)
Inductive Key : Type :=
| KNum (q : Q)
| KStr (s : string).

Definition key_eqb (a b : Key) : bool :=
  match a, b with
  | KNum x, KNum y => Qeq_bool x y
  | KStr s, KStr t => String.eqb s t
  | _, _ => false
  end.

(** The cells of a column as keys, [None] for NaN. *)
Definition keys (col : Column) : list (option Key) :=
  match col with
  | FloatCol cells => map (option_map KNum) cells
  | ObjectCol cells => map (option_map KStr) cells
  end.

(** The order in which [groupby] sorts the keys of a column: numbers by
    value, text by code point. A column holds keys of one kind. *)
Definition key_leb (a b : Key) : bool :=
  match a, b with
  | KNum x, KNum y => Qle_bool x y
  | KStr s, KStr t => String.leb s t
  | KNum _, KStr _ => true
  | KStr _, KNum _ => false
  end.

(** The keys that are not NaN: rows whose key is NaN belong to no group. *)
Fixpoint present (cells : list (option Key)) : list Key :=
  match cells with
  | [] => []
  | Some k :: rest => k :: present rest
  | None :: rest => present rest
  end.

(** One key for each group: a key met before is not taken again. *)
Fixpoint distinct (ks : list Key) : list Key :=
  match ks with
  | [] => []
  | k :: rest => k :: filter (fun k' => negb (key_eqb k' k)) (distinct rest)
  end.

Fixpoint insert (k : Key) (sorted : list Key) : list Key :=
  match sorted with
  | [] => [k]
  | k' :: rest =>
      if key_leb k k' then k :: sorted else k' :: insert k rest
  end.

(** The group keys of [groupby(key)], sorted as [sort=True] does. *)
Definition group_keys (cells : list (option Key)) : list Key :=
  fold_right insert [] (distinct (present cells)).

(** The values of the group [k]: the cells of its rows, in row order, NaN
    cells included. *)
Definition group_cells (rows : list (option Key * option Q)) (k : Key)
  : list (option Q) :=
  map snd
      (filter (fun row => match fst row with
                          | Some k' => key_eqb k' k
                          | None => false
                          end)
              rows).

(** [.sum()] on the values of one group. The cells are binary64 numbers,
    each of them a rational; in which order and with which rounding or
    compensation pandas adds them is the library's matter, and so is the
    skipping of NaN. The model takes the library's summation as given and
    fixes nothing about its result. *)
Definition Summation : Type := list (option Q) -> Q.

(** [groupby(key)[value].sum()]: one sum per group. *)
Definition groupby_sum (series_sum : Summation)
           (rows : list (option Key * option Q)) : list (Key * Q) :=
  map (fun k => (k, series_sum (group_cells rows k)))
      (group_keys (map fst rows)).

(** [(scheme_sums < 95) | (scheme_sums > 105)] on one sum. *)
Definition unusual (total : Q) : bool := Qltb total 95 || Qltb 105 total.

(** [self.df.groupby('scheme_name')['percentage_of_portfolio'].sum()] *)
Definition scheme_sums (series_sum : Summation) (frame : DataFrame)
  : result (list (Key * Q)) :=
  scheme <- getitem frame "scheme_name" ;;
  col <- getitem frame "percentage_of_portfolio" ;;
  cells <- numeric col ;;
  Ok (groupby_sum series_sum (combine (keys scheme) cells)).

Definition outlier_schemes (sums : list (Key * Q)) : list (Key * Q) :=
  filter (fun group => unusual (snd group)) sums.

Definition check_portfolio_percentages (series_sum : Summation)
           (self : PortfolioDataValidator) : result PortfolioDataValidator :=
  if negb (has_column (df self) "percentage_of_portfolio") then Ok self
  else
    sums <- scheme_sums series_sum (df self) ;;
    Ok (report (length (outlier_schemes sums)) UnusualPortfolioSum self).

(** *** [check_duplicates] *)

(** Equality of two cells for [duplicated]: NaN equals NaN. *)
Definition cell_eqb (a b : option Key) : bool :=
  match a, b with
  | None, None => true
  | Some x, Some y => key_eqb x y
  | _, _ => false
  end.

Definition pair_eqb (a b : option Key * option Key) : bool :=
  cell_eqb (fst a) (fst b) && cell_eqb (snd a) (snd b).

(** [df.duplicated(subset=[...], keep=False)]: the rows whose pair occurs
    more than once. *)
Definition duplicated (rows : list (option Key * option Key))
  : list (option Key * option Key) :=
  filter (fun row => 1 <? length (filter (pair_eqb row) rows)) rows.

Definition check_duplicates (self : PortfolioDataValidator)
  : result PortfolioDataValidator :=
  scheme <- getitem (df self) "scheme_name" ;;
  instrument <- getitem (df self) "instrument_name" ;;
  let duplicates := duplicated (combine (keys scheme) (keys instrument)) in
  Ok (report (length duplicates) DuplicateHoldings self).

(** *** [check_missing_values], [print_summary], [run_all_checks] *)

(** The missing-value report prints and changes nothing. *)
Definition check_missing_values (self : PortfolioDataValidator)
  : PortfolioDataValidator := self.

Inductive Verdict : Type :=
| PASSED          (* "All validation checks passed!" *)
| NEEDS_REVIEW.   (* "Data quality: NEEDS REVIEW" *)

(** [print_summary]: the branch taken on [len(self.issues) == 0]. *)
Definition print_summary (self : PortfolioDataValidator) : Verdict :=
  if length (issues self) =? 0 then PASSED else NEEDS_REVIEW.

(** [run_all_checks]: the validator after the six checks and the verdict
    printed by [print_summary]; [series_sum] is the summation of pandas
    that [check_portfolio_percentages] calls. *)
Definition run_all_checks (series_sum : Summation)
           (self : PortfolioDataValidator)
  : result (PortfolioDataValidator * Verdict) :=
  let self1 := check_required_fields self in
  self2 <- check_isin_format self1 ;;
  self3 <- check_numeric_ranges self2 ;;
  self4 <- check_portfolio_percentages series_sum self3 ;;
  self5 <- check_duplicates self4 ;;
  let self6 := check_missing_values self5 in
  Ok (self6, print_summary self6).

End Validator.

(* ================================================================== *)
(** ** Two summations in binary64

    Two ways of adding the cells of a group with the rounding of Python
    floats, to run the validator on: one addition after the other, and the
    compensated (Kahan) summation. They are instances of
    [Validator.Summation]; no statement about the validator depends on
    them. *)

Module Binary64.

Definition of_Z (z : Z) : float :=
  match z with
  | Z0 => PrimFloat.zero
  | Zpos _ => PrimFloat.of_uint63 (Uint63.of_Z z)
  | Zneg p => PrimFloat.opp (PrimFloat.of_uint63 (Uint63.of_Z (Zpos p)))
  end.

(** The float nearest to a rational whose numerator and denominator are
    below 2^53: the rounded quotient of two integers that are floats. *)
Definition of_Q (q : Q) : float :=
  PrimFloat.div (of_Z (Qnum q)) (of_Z (Zpos (Qden q))).

(** The rational a finite float denotes. *)
Definition to_Q (f : float) : Q :=
  match Prim2SF f with
  | S754_finite s m e =>
      let z := if s then Zneg m else Zpos m in
      if (0 <=? e)%Z then inject_Z (z * 2 ^ e)
      else (z # (2 ^ Z.to_pos (- e)))%Q
  | _ => 0%Q
  end.

(** The cells that are not NaN, as floats. *)
Fixpoint floats (cells : list (option Q)) : list float :=
  match cells with
  | [] => []
  | Some x :: rest => of_Q x :: floats rest
  | None :: rest => floats rest
  end.

(** [total = 0.0; for x in cells: total += x] *)
Definition left_to_right : Validator.Summation :=
  fun cells => to_Q (fold_left PrimFloat.add (floats cells) PrimFloat.zero).

(** One step of the compensated summation: [y = x - c; t = s + y;
    c = (t - s) - y; s = t]. *)
Definition kahan_step (state : float * float) (x : float) : float * float :=
  let y := PrimFloat.sub x (snd state) in
  let t := PrimFloat.add (fst state) y in
  (t, PrimFloat.sub (PrimFloat.sub t (fst state)) y).

Definition compensated : Validator.Summation :=
  fun cells =>
    to_Q (fst (fold_left kahan_step (floats cells)
                         (PrimFloat.zero, PrimFloat.zero))).

End Binary64.

(* ================================================================== *)
(** ** Predicates used in the statements *)

Module Statements.

Import PyStr.

(** The text [k] occurs in the text [t]. *)
Definition occurs (k t : string) : Prop :=
  exists pre post, t = (pre ++ k ++ post)%string.

(** The case-folded texts of the cells of a row that are not empty. *)
Fixpoint folded_cells (row : list Scraper.Cell) : list string :=
  match row with
  | [] => []
  | Scraper.NaN :: rest => folded_cells rest
  | Scraper.Value text _ :: rest => lower text :: folded_cells rest
  end.

(** The text blob of a row: those texts, one space between two of them. *)
Definition blob (row : list Scraper.Cell) : string :=
  String.concat " " (folded_cells row).

(** The header keywords of the specification. *)
Definition header_words : list string :=
  ["name"; "isin"; "quantity"; "rating"; "industry"; "instrument"].

(** The blob of the row holds two different header keywords. *)
Definition two_header_keywords (row : list Scraper.Cell) : Prop :=
  exists k1 k2,
    k1 <> k2 /\ In k1 header_words /\ In k2 header_words /\
    occurs k1 (blob row) /\ occurs k2 (blob row).

(** The column name holds a keyword that opens one of the branches tried
    before the market-value branch of [Scraper.assign_field]. *)
Definition opens_earlier_branch (c : string) : bool :=
  any_in ["name of the instrument"; "name"; "security"] c
  || contains "isin" c || contains "industry" c || contains "rating" c
  || contains "quantity" c.

(** The column name reaches the percentage branch of
    [Scraper.assign_field] and is taken by it. *)
Definition reaches_percentage (c : string) : bool :=
  negb (opens_earlier_branch c)
  && negb (any_in ["market"; "fair value"; "value"] c)
  && (contains "%" c || contains "net assets" c).

(** An instrument name that passes the test ending
    [Scraper.extract_holding_from_row]. *)
Definition clean_name (instrument_name : option string) : Prop :=
  exists name,
    instrument_name = Some name /\
    name <> "" /\
    3 < String.length (strip name) /\
    forall keyword, In keyword Scraper.skip_keywords ->
                    contains keyword (lower name) = false.

(** A record of the sheet [sheet_name] that passes that test. *)
Definition valid_record (sheet_name : string) (h : Scraper.Holding) : Prop :=
  Scraper.scheme_name h = sheet_name /\ clean_name (Scraper.instrument_name h).

(** Two workbooks read the sheet [name] alike. *)
Definition same_sheet (xl xl' : Scraper.ExcelFile) (name : string) : Prop :=
  Scraper.read_raw xl name = Scraper.read_raw xl' name /\
  forall idx, Scraper.read_header xl name idx = Scraper.read_header xl' name idx.

(** The precedence list of the row extractor, as the specification words
    it: each rule is a complete condition on the lower-cased column name,
    and a column is given to the first rule that holds.
    [claimed_percentage_rule] is the reading compared with
    [Scraper.assign_field]. *)

Definition name_rule (c : string) : bool :=
  any_in ["name of the instrument"; "name"; "security"] c
  && negb (contains "isin" c).

Definition isin_rule (c : string) : bool := contains "isin" c.

Definition industry_rating_rule (c : string) : bool :=
  contains "industry" c || contains "rating" c.

Definition quantity_rule (c : string) : bool := contains "quantity" c.

Definition market_value_rule (c : string) : bool :=
  any_in ["market"; "fair value"; "value"] c
  && (contains "rs" c || contains "lakhs" c || contains "amount" c).

Definition percentage_rule (c : string) : bool :=
  contains "%" c || contains "net assets" c.

Definition earlier_rule (c : string) : bool :=
  name_rule c || isin_rule c || industry_rating_rule c || quantity_rule c
  || market_value_rule c.

(** A column that no earlier rule takes and that the percentage rule takes
    is parsed into [percentage_of_portfolio]. *)
Definition claimed_percentage_rule : Prop :=
  forall (col_name : string) (value : Scraper.Cell) (holding : Scraper.Holding),
    Scraper.notna value = true ->
    earlier_rule (lower col_name) = false ->
    percentage_rule (lower col_name) = true ->
    Scraper.percentage_of_portfolio
      (Scraper.assign_field col_name value holding)
    = Some (Scraper.to_float value).

(** *** The validator *)






(** The scheme [k] has a group. *)
Definition has_key (groups : list (Validator.Key * Q)) (k : Validator.Key)
  : bool :=
  existsb (fun group => Validator.key_eqb k (fst group)) groups.



(** The validator [self] seen from another object: another path, and
    issues [before] already on the list. *)
Definition rebase (path : string) (before : list Validator.Issue)
           (self : Validator.PortfolioDataValidator)
  : Validator.PortfolioDataValidator :=
  {| Validator.csv_path := path;
     Validator.df := Validator.df self;
     Validator.issues := before ++ Validator.issues self |}.

Definition map_result {A B : Type} (f : A -> B) (r : result A) : result B :=
  match r with
  | Ok a => Ok (f a)
  | Raise e => Raise e
  end.

(** The checks of a run, without the report and the summary. *)
Definition checks (series_sum : Validator.Summation)
           (self : Validator.PortfolioDataValidator)
  : result Validator.PortfolioDataValidator :=
  self2 <- Validator.check_isin_format (Validator.check_required_fields self) ;;
  self3 <- Validator.check_numeric_ranges self2 ;;
  self4 <- Validator.check_portfolio_percentages series_sum self3 ;;
  Validator.check_duplicates self4.

(** The check [f] does on the rebased object what it does on the object. *)
Definition commutes (path : string) (before : list Validator.Issue)
           (f : Validator.PortfolioDataValidator ->
                result Validator.PortfolioDataValidator) : Prop :=
  forall self,
    f (rebase path before self) = map_result (rebase path before) (f self).

End Statements.

(* ================================================================== *)
(** ** A sample workbook *)

Module Samples.

Import Scraper.

Definition text (s : string) : Cell := Value s None.
Definition number (s : string) (q : Q) : Cell := Value s (Some q).

(** A scheme sheet read without header: a title line, the header line, a
    banner, one holding and the total line. *)
Definition sample_grid : Grid :=
  [ [text "Axis Bluechip Fund"; NaN; NaN; NaN; NaN];
    [text "Name of the Instrument"; text "ISIN"; text "Quantity";
     text "Market Value (Rs Lakhs)"; text "% to Net Assets"];
    [text "Equity & Equity related"; NaN; NaN; NaN; NaN];
    [text "Reliance Industries Ltd"; text "INE002A01018";
     number "100" (100 # 1); number "5000" (5000 # 1); number "4.2" (42 # 10)];
    [text "Total"; NaN; NaN; number "5000" (5000 # 1); number "4.2" (42 # 10)] ].

Definition sample_labels : list Label :=
  [Some "Name of the Instrument"; Some "ISIN"; Some "Quantity";
   Some "Market Value (Rs Lakhs)"; Some "% to Net Assets"].

(** The same sheet read with line [idx] as header. *)
Definition sample_rows (idx : nat) : list Row :=
  map (combine sample_labels) (skipn (S idx) sample_grid).

(** A workbook with an index sheet, two scheme sheets that hold the sample
    and one sheet that cannot be read. *)
Definition sample_workbook : ExcelFile :=
  {| sheet_names := ["Index"; "Axis Bluechip Fund"; "Broken"; "Axis Midcap Fund"];
     read_raw := fun name =>
       if String.eqb name "Broken" then Raise (ReadError "bad sheet")
       else Ok sample_grid;
     read_header := fun name idx => Ok (sample_rows idx) |}.

Definition reliance (scheme : string) : Holding :=
  {| amc_name := "Axis Mutual Fund"; scheme_name := scheme;
     instrument_type := Equity; reporting_date := "2025-12-31";
     instrument_name := Some "Reliance Industries Ltd";
     isin := Some "INE002A01018"; industry_rating := None;
     quantity := Some (Some (100 # 1));
     market_value_lakhs := Some (Some (5000 # 1));
     percentage_of_portfolio := Some (Some (42 # 10)) |}.

(** Two schemes whose percentages sum to 99.8 and to 110. *)
Definition two_schemes : Validator.DataFrame :=
  [ ("scheme_name",
     Validator.ObjectCol [Some "Axis Bluechip Fund"; Some "Axis Midcap Fund";
                          Some "Axis Bluechip Fund"; Some "Axis Midcap Fund"]);
    ("percentage_of_portfolio",
     Validator.FloatCol [Some (60 # 1); Some (70 # 1);
                         Some (398 # 10); Some (40 # 1)]) ].

(** A summation to run the samples: NaN is skipped and the values are
    added without rounding. *)
Definition plain_sum : Validator.Summation :=
  fun cells =>
    fold_left
      (fun total cell =>
         match cell with Some x => (total + x)%Q | None => total end)
      cells 0%Q.

(** One scheme whose percentages are 13.0, 39.6, 35.5, 5.1 and 1.8: the
    numbers written sum to 95, and 39.6, 5.1 and 1.8 are not binary64
    numbers. *)
Definition at_the_bound : Validator.DataFrame :=
  [ ("scheme_name",
     Validator.ObjectCol [Some "Axis Bluechip Fund"; Some "Axis Bluechip Fund";
                          Some "Axis Bluechip Fund"; Some "Axis Bluechip Fund";
                          Some "Axis Bluechip Fund"]);
    ("percentage_of_portfolio",
     Validator.FloatCol [Some (13 # 1); Some (396 # 10); Some (355 # 10);
                         Some (51 # 10); Some (18 # 10)]) ].

(** A dataset with the five required columns and nothing else. *)
Definition five_columns : Validator.DataFrame :=
  [ ("amc_name", Validator.ObjectCol [Some "Axis Mutual Fund"]);
    ("scheme_name", Validator.ObjectCol [Some "Axis Bluechip Fund"]);
    ("instrument_name", Validator.ObjectCol [Some "Reliance Industries Ltd"]);
    ("instrument_type", Validator.ObjectCol [Some "Equity"]);
    ("reporting_date", Validator.ObjectCol [Some "2025-12-31"]) ].

(** A dataset with an ill-formed ISIN, a repeated holding and a scheme
    whose percentages sum to 110; two required columns are missing. *)
Definition flawed : Validator.DataFrame :=
  [ ("scheme_name",
     Validator.ObjectCol [Some "Axis Midcap Fund"; Some "Axis Midcap Fund";
                          Some "Axis Midcap Fund"]);
    ("instrument_name",
     Validator.ObjectCol [Some "Reliance Industries Ltd"; Some "Infosys Ltd";
                          Some "Reliance Industries Ltd"]);
    ("instrument_type",
     Validator.ObjectCol [Some "Equity"; Some "Equity"; Some "Equity"]);
    ("isin",
     Validator.ObjectCol [Some "INE002A01018"; Some "INVALIDISIN"; None]);
    ("percentage_of_portfolio",
     Validator.FloatCol [Some (60 # 1); Some (30 # 1); Some (20 # 1)]) ].

(** A sheet whose header line has the columns "Name" and "name ", which
    are one column name once cleaned. *)
Definition repeated_grid : Grid :=
  [ [text "Name"; text "ISIN"; text "name "];
    [text "Reliance Industries Ltd"; text "INE002A01018"; text "Reliance"];
    [text "Infosys Ltd"; text "INE009A01021"; text "Infosys"] ].

Definition repeated_rows (idx : nat) : list Row :=
  map (combine [Some "Name"; Some "ISIN"; Some "name "])
      (skipn (S idx) repeated_grid).

Definition repeated_workbook : ExcelFile :=
  {| sheet_names := ["Axis Bluechip Fund"];
     read_raw := fun _ => Ok repeated_grid;
     read_header := fun _ idx => Ok (repeated_rows idx) |}.

End Samples.

(* ================================================================== *)
(** ** Finding and downloading the workbook

    [fetch_page_content], [find_portfolio_file_url] and [download_file].
    The network and the HTML parser are inputs of the model ([Web]), and
    so is the file system ([Disk]); a file written by the program is
    recorded as a pair of its path and its content. *)

Module Discovery.

Import PyStr.

(** The scraper object, as [__init__] builds it. *)
Record Self : Type := {
  amc_name : string;
  base_url : string;
  statutory_url : string;
  download_folder : string;
  output_folder : string
}.

Definition init (amc : string) : Self :=
  {| amc_name := amc;
     base_url := "https://www.axismf.com";
     statutory_url := "https://www.axismf.com" ++ "/statutory-disclosures";
     download_folder := "/home/claude/downloads";
     output_folder := "/home/claude/output" |}.

(** An [a] element that has an [href]: [link.get('href', '')] and
    [link.get_text(strip=True)]. *)
Record Link : Type := {
  href : string;
  get_text : string
}.

(** The answer to [requests.get(url, timeout=60)] after
    [raise_for_status]: the [content-disposition] header, if there is one,
    and the body. *)
Record Response : Type := {
  content_disposition : option string;
  content : string
}.

(** The outside of the program. [page url] is the text of
    [requests.get(url, headers=..., timeout=30)] after [raise_for_status];
    [anchors html] is
    [BeautifulSoup(html, 'html.parser').find_all('a', href=True)];
    [urljoin] is [urllib.parse.urljoin]; [download url] is the answer to
    the GET of [download_file]. [Raise] stands for a
    [requests.RequestException]. *)
Record Web : Type := {
  page : string -> result string;
  anchors : string -> list Link;
  urljoin : string -> string -> string;
  download : string -> result Response
}.

(** The file system, for writing: [disk path] is what opening [path] for
    writing and writing a content to it does. [Raise] stands for the
    [OSError] of a path that cannot be written: a directory (as [..] and
    [/] are), a missing folder, a refused permission. No file is recorded
    for a write that raised. *)
Definition Disk : Type := string -> result unit.

(** What a file written by the program holds: the bytes of a download, or
    a table written by [to_csv(index=False)], given by its header and its
    records. *)
Inductive FileContent : Type :=
| Bytes (body : string)
| Csv (header : list string) (rows : list Scraper.Holding).

Definition Write : Type := (string * FileContent)%type.

(** *** [fetch_page_content] *)

Definition fetch_page_content (web : Web) (url : string) : option string :=
  match page web url with
  | Ok text => Some text
  | Raise _ => None
  end.

(** *** [find_portfolio_file_url] *)

(** [a.*b.*c...] *)
Fixpoint sequence (parts : list string) : Regex.re :=
  match parts with
  | [] => Regex.Eps
  | [p] => Regex.lit p
  | p :: rest => Regex.Cat (Regex.lit p) (Regex.Cat (Regex.Star Regex.dot) (sequence rest))
  end.

(** [month] and [year] are pasted into the patterns, so they are read as
    regular expressions. The model covers the texts for which that is the
    text itself: letters and digits, as the "December" and "2025" of the
    only caller. *)
Definition plain_text (s : string) : bool :=
  forallb (fun c => is_lower c || is_upper c || is_digit c) (list_ascii_of_string s).

(** The four patterns, for [month] and [year] that are [plain_text]; under
    [re.IGNORECASE] their letters match in either case, which is matching
    their lower-case form against the lower-cased subject. *)
Definition search_patterns (month year : string) : list Regex.re :=
  let m := lower month in
  let y := lower year in
  [ sequence [m; y; "consolidated"];
    sequence ["consolidated"; m; y];
    sequence ["monthly"; "portfolio"; m; y];
    sequence [m; y; "portfolio"] ].

(** [any(ext in href.lower() for ext in ['.xlsx', '.xls'])] *)
Definition is_excel (l : Link) : bool :=
  any_in [".xlsx"; ".xls"] (lower (href l)).

(** [combined_text = f"{link_text} {href}".lower()] with
    [link_text = link.get_text(strip=True).lower()] *)
Definition combined_text (l : Link) : string :=
  lower (lower (get_text l) ++ " " ++ href l)%string.

(** Some pattern is found in the combined text of the link. *)
Definition matches (patterns : list Regex.re) (l : Link) : bool :=
  existsb (fun pattern => Regex.search_ignorecase pattern (combined_text l))
          patterns.

(** [for link in all_links: ...] *)
Fixpoint scan_links (self : Self) (web : Web) (patterns : list Regex.re)
         (all_links : list Link) : option string :=
  match all_links with
  | [] => None
  | link :: rest =>
      if is_excel link && matches patterns link
      then Some (urljoin web (base_url self) (href link))
      else scan_links self web patterns rest
  end.

Definition find_portfolio_file_url (self : Self) (web : Web)
           (month year : string) : option string :=
  match fetch_page_content web (statutory_url self) with
  | None => None
  | Some html_content =>
      if truthy html_content
      then scan_links self web (search_patterns month year)
                      (anchors web html_content)
      else None
  end.

(** *** [download_file] *)

Definition quote : ascii := ascii_of_nat 34.
Definition slash : ascii := ascii_of_nat 47.

(** The longest prefix without a double quote: what the greedy group of
    the pattern takes. *)
Fixpoint until_quote (s : string) : string :=
  match s with
  | EmptyString => EmptyString
  | String c s' =>
      if Ascii.eqb c quote then EmptyString else String c (until_quote s')
  end.

(** [s] without its first [n] characters. *)
Fixpoint drop (n : nat) (s : string) : string :=
  match n, s with
  | O, _ => s
  | S n', String _ s' => drop n' s'
  | S _, EmptyString => EmptyString
  end.

(** The pattern of [re.findall] in [download_file] is the text
    [filename=], an optional double quote, a group of one or more
    characters that are not a double quote, and an optional double quote.
    [filename_here s] is the group when the pattern matches at the start of
    [s]. *)
Definition filename_here (s : string) : option string :=
  if startswith "filename=" s then
    let rest := drop 9 s in
    let rest' := match rest with
                 | String c r => if Ascii.eqb c quote then r else rest
                 | EmptyString => rest
                 end in
    let name := until_quote rest' in
    if truthy name then Some name else None
  else None.

(** The first element of [re.findall(pattern, cd)], [None] when the list
    is empty: the group of the leftmost match. *)
Fixpoint first_filename (cd : string) : option string :=
  match filename_here cd with
  | Some name => Some name
  | None =>
      match cd with
      | EmptyString => None
      | String _ cd' => first_filename cd'
      end
  end.

(** [url.split('/')[-1]] *)
Fixpoint last_segment (s : string) : string :=
  match s with
  | EmptyString => EmptyString
  | String c s' =>
      if contains "/" s' then last_segment s'
      else if Ascii.eqb c slash then s' else s
  end.

(** [os.path.join(a, b)] on POSIX. *)
Definition path_join (a b : string) : string :=
  if startswith "/" b then b
  else if negb (truthy a) || String.eqb (drop (String.length a - 1) a) "/"
       then (a ++ b)%string
       else (a ++ "/" ++ b)%string.

(** [x or default] on strings *)
Definition or_default (x default : string) : string :=
  if truthy x then x else default.

(** The name taken from the answer: the header [content-disposition] when
    there is one, the end of the URL otherwise. *)
Definition response_name (url : string) (response : Response) : string :=
  match content_disposition response with
  | Some cd =>
      match first_filename cd with
      | Some found => found
      | None => "portfolio_data.xlsx"
      end
  | None => or_default (last_segment url) "portfolio_data.xlsx"
  end.

(** The name under which the download is saved: [filename] unless it is
    [None] or empty. *)
Definition download_name (url : string) (filename : option string)
           (response : Response) : string :=
  match filename with
  | Some name => if truthy name then name else response_name url response
  | None => response_name url response
  end.

(** [download_file]: the file written and the path returned. The
    [except] clause catches the [requests.RequestException] of the GET; the
    [OSError] of [open(filepath, 'wb')] is not one and leaves the
    function. *)
Definition download_file (self : Self) (web : Web) (disk : Disk)
           (url : option string) (filename : option string)
  : list Write * result (option string) :=
  match url with
  | None => ([], Ok None)
  | Some u =>
      if truthy u then
        match download web u with
        | Raise _ => ([], Ok None)
        | Ok response =>
            let filepath :=
              path_join (download_folder self)
                        (download_name u filename response) in
            match disk filepath with
            | Ok _ => ([(filepath, Bytes (content response))],
                       Ok (Some filepath))
            | Raise e => ([], Raise e)
            end
        end
      else ([], Ok None)
  end.

End Discovery.

(* ================================================================== *)
(** ** Writing the dataset

    [save_to_csv] and [run_full_automation]. *)

Module Output.

Import PyStr Scraper Discovery.

(** The DataFrame built from the holdings: its columns and its records.
    The program only tests whether a label is among [df.columns]; their
    order is not modelled. *)
Record Frame : Type := {
  columns : list string;
  records : list Holding
}.

Definition column_order : list string :=
  ["amc_name"; "scheme_name"; "instrument_name"; "instrument_type"; "isin";
   "industry_rating"; "quantity"; "market_value_lakhs";
   "percentage_of_portfolio"; "reporting_date"].

Definition is_some {A : Type} (o : option A) : bool :=
  match o with Some _ => true | None => false end.

(** [key in holding] for the keys of [column_order]. *)
Definition has_key (h : Holding) (key : string) : bool :=
  if String.eqb key "amc_name" then true
  else if String.eqb key "scheme_name" then true
  else if String.eqb key "instrument_type" then true
  else if String.eqb key "reporting_date" then true
  else if String.eqb key "instrument_name" then is_some (instrument_name h)
  else if String.eqb key "isin" then is_some (isin h)
  else if String.eqb key "industry_rating" then is_some (industry_rating h)
  else if String.eqb key "quantity" then is_some (quantity h)
  else if String.eqb key "market_value_lakhs" then is_some (market_value_lakhs h)
  else if String.eqb key "percentage_of_portfolio"
       then is_some (percentage_of_portfolio h)
  else false.

(** [pd.DataFrame(all_holdings)]: a column for every key that some record
    has. *)
Definition DataFrame (all_holdings : list Holding) : Frame :=
  {| columns := filter (fun key => existsb (fun h => has_key h key) all_holdings)
                       column_order;
     records := all_holdings |}.

(** [df.empty]: no row or no column. *)
Definition empty (df : Frame) : bool :=
  match columns df, records df with
  | [], _ => true
  | _, [] => true
  | _, _ => false
  end.

(** [col in df.columns] *)
Definition in_columns (df : Frame) (col : string) : bool :=
  existsb (String.eqb col) (columns df).

(** [save_to_csv]: the files written and the value returned. [to_csv]
    raises when the file cannot be written. The summary printed after the
    file is written reads the columns [scheme_name] and [instrument_type]
    of the reordered frame. *)
Definition save_to_csv (self : Self) (disk : Disk) (df : option Frame)
           (filename : string) : list Write * result (option string) :=
  match df with
  | None => ([], Ok None)
  | Some frame =>
      if empty frame then ([], Ok None)
      else
        let output_path := path_join (output_folder self) filename in
        let cols := filter (in_columns frame) column_order in
        let written := [(output_path, Csv cols (records frame))] in
        match disk output_path with
        | Raise e => ([], Raise e)
        | Ok _ =>
            if existsb (String.eqb "scheme_name") cols then
              if existsb (String.eqb "instrument_type") cols
              then (written, Ok (Some output_path))
              else (written, Raise KeyError)
            else (written, Raise KeyError)
        end
  end.

(** The values of the [instrument_type] column. *)
Definition type_name (t : InstrumentType) : string :=
  match t with
  | Unknown => "Unknown"
  | Equity => "Equity"
  | Debt => "Debt"
  | MoneyMarket => "Money Market"
  | Other => "Other"
  end.

Definition type_eqb (a b : InstrumentType) : bool :=
  String.eqb (type_name a) (type_name b).

(** [s.replace(a, b)] for one-character [a] and [b]. *)
Fixpoint replace (a b : ascii) (s : string) : string :=
  match s with
  | EmptyString => EmptyString
  | String c s' => String (if Ascii.eqb c a then b else c) (replace a b s')
  end.

(** [f"portfolio_{instrument_type.lower().replace(' ', '_')}.csv"] *)
Definition type_filename (t : InstrumentType) : string :=
  ("portfolio_" ++ replace " " "_" (lower (type_name t)) ++ ".csv")%string.

(** [Series.unique()]: the values in the order of their first
    appearance, [seen] being the values met so far. *)
Fixpoint unique_from (seen : list InstrumentType) (l : list InstrumentType)
  : list InstrumentType :=
  match l with
  | [] => []
  | t :: rest =>
      if existsb (type_eqb t) seen then unique_from seen rest
      else t :: unique_from (t :: seen) rest
  end.

Definition unique (l : list InstrumentType) : list InstrumentType :=
  unique_from [] l.

(** [df[df['instrument_type'] == instrument_type]] *)
Definition select (df : Frame) (t : InstrumentType) : Frame :=
  {| columns := columns df;
     records := filter (fun h => type_eqb (instrument_type h) t) (records df) |}.

(** Step 4: one file for each instrument type but Unknown. *)
Fixpoint save_types (self : Self) (disk : Disk) (df : Frame)
         (types : list InstrumentType) : list Write * result unit :=
  match types with
  | [] => ([], Ok tt)
  | t :: rest =>
      if negb (type_eqb t Unknown) then
        match save_to_csv self disk (Some (select df t)) (type_filename t) with
        | (written, Raise e) => (written, Raise e)
        | (written, Ok _) =>
            let (written', outcome) := save_types self disk df rest in
            (written ++ written', outcome)
        end
      else save_types self disk df rest
  end.

(** Steps 3 and 4. *)
Definition save_all (self : Self) (disk : Disk) (df : Frame)
  : list Write * result (option string) :=
  match save_to_csv self disk (Some df) "consolidated_portfolio.csv" with
  | (written, Raise e) => (written, Raise e)
  | (written, Ok output_path) =>
      match save_types self disk df
                       (unique (map instrument_type (records df))) with
      | (written', Raise e) => (written ++ written', Raise e)
      | (written', Ok _) => (written ++ written', Ok output_path)
      end
  end.

(** The machine the program runs on. [path_exists] is [os.path.exists]
    before the run writes anything; [write_file] is its file system for
    writing; [ExcelFile path body] is [pd.ExcelFile(path)], [body] being
    what the run has written at [path] ([None] for a file the run has not
    written). *)
Record World : Type := {
  web : Web;
  path_exists : string -> bool;
  write_file : Disk;
  ExcelFile : string -> option string -> result Scraper.ExcelFile
}.

(** The bytes the run has written at [path]. *)
Fixpoint written_at (writes : list Write) (path : string) : option string :=
  match writes with
  | [] => None
  | (p, Bytes body) :: rest =>
      if String.eqb p path then Some body else written_at rest path
  | (_, Csv _ _) :: rest => written_at rest path
  end.

(** [os.path.exists(path)] once [writes] are done. *)
Definition exists_now (w : World) (writes : list Write) (path : string)
  : bool :=
  is_some (written_at writes path) || path_exists w path.

(** From the test on [excel_path] to the end. *)
Definition process (self : Self) (w : World) (excel_path : option string)
           (writes : list Write) : list Write * result (option string) :=
  match excel_path with
  | None => (writes, Ok None)
  | Some path =>
      if truthy path && exists_now w writes path then
        match parse_excel_portfolios (amc_name self)
                (ExcelFile w path (written_at writes path)) with
        | None => (writes, Ok None)
        | Some all_holdings =>
            let df := DataFrame all_holdings in
            if empty df then (writes, Ok None)
            else
              let (written, outcome) := save_all self (write_file w) df in
              (writes ++ written, outcome)
        end
      else (writes, Ok None)
  end.

(** [run_full_automation]: the files written, in order, and the value
    returned. *)
Definition run_full_automation (self : Self) (w : World)
           (manual_file_path : option string)
  : list Write * result (option string) :=
  let manual :=
    match manual_file_path with
    | Some path => truthy path && path_exists w path
    | None => false
    end in
  if manual then process self w manual_file_path []
  else
    match find_portfolio_file_url self (web w) "December" "2025" with
    | Some file_url =>
        if truthy file_url then
          match download_file self (web w) (write_file w)
                              (Some file_url) None with
          | (writes, Ok excel_path) => process self w excel_path writes
          | (writes, Raise e) => (writes, Raise e)
          end
        else ([], Ok None)
    | None => ([], Ok None)
    end.

End Output.

(* ================================================================== *)
(** ** The data profile: [generate_data_profile] and the script *)

Module Profile.

Import Validator.

(** [f"{df[column].sum():,.2f}"] and the three lines after it: the sum of
    a text column is the concatenated text, which the format refuses with
    [ValueError]; when NaN is among the text the sum itself raises
    [TypeError]. *)
Definition statistics (col : Column) : result unit :=
  match col with
  | FloatCol _ => Ok tt
  | ObjectCol cells =>
      if forallb (fun c => match c with Some _ => false | None => true end) cells
      then Ok tt
      else if forallb (fun c => match c with Some _ => true | None => false end)
                      cells
           then Raise ValueError
           else Raise TypeError
  end.

(** [df.nlargest(5, column)] refuses a column of dtype object. *)
Definition nlargest (col : Column) : result unit :=
  match col with
  | FloatCol _ => Ok tt
  | ObjectCol _ => Raise TypeError
  end.

(** [generate_data_profile], [frame] being what [pd.read_csv(csv_path)]
    returned: what is printed is left out, what can raise is kept in the
    order of the source. *)
Definition generate_data_profile (frame : DataFrame) : result unit :=
  _ <- getitem frame "scheme_name" ;;
  _ <- getitem frame "reporting_date" ;;
  _ <- getitem frame "instrument_type" ;;
  _ <- (if has_column frame "market_value_lakhs"
        then col <- getitem frame "market_value_lakhs" ;; statistics col
        else Ok tt) ;;
  (* df.nlargest(5, 'market_value_lakhs')[[...]] *)
  col <- getitem frame "market_value_lakhs" ;;
  _ <- nlargest col ;;
  _ <- getitem frame "instrument_name" ;;
  _ <- getitem frame "scheme_name" ;;
  _ <- getitem frame "percentage_of_portfolio" ;;
  Ok tt.

(** The script: [PortfolioDataValidator(csv_file).run_all_checks()], then
    [generate_data_profile(csv_file)]; the verdict printed, when the script
    ends without exception. *)
Definition main (series_sum : Summation) (csv_file : string)
           (frame : DataFrame) : result Verdict :=
  run <- run_all_checks series_sum (init csv_file frame) ;;
  _ <- generate_data_profile frame ;;
  Ok (snd run).

End Profile.

(* ================================================================== *)
(** ** Further predicates used in the statements *)

Module MoreStatements.

Import PyStr.

(** How many entries of the row carry the label [col]. *)
Definition occurrences (row : Scraper.Row) (col : Scraper.Label) : nat :=
  length (filter (fun entry => Scraper.label_eqb (fst entry) col) row).

(** A text without white space at either end. *)
Definition stripped (s : string) : Prop := strip s = s.

(** The text fields of the record are stripped. *)
Definition stripped_record (h : Scraper.Holding) : Prop :=
  (forall s, Scraper.instrument_name h = Some s -> stripped s) /\
  (forall s, Scraper.isin h = Some s -> stripped s) /\
  (forall s, Scraper.industry_rating h = Some s -> stripped s).

(** A text that is empty or starts with a character that is not white
    space. *)
Definition starts_clean (s : string) : bool :=
  match s with
  | EmptyString => true
  | String c _ => negb (is_space c)
  end.

(** The record carries the context it was made in. *)
Definition in_context (amc scheme : string) (type : Scraper.InstrumentType)
           (date : string) (h : Scraper.Holding) : Prop :=
  Scraper.amc_name h = amc /\ Scraper.scheme_name h = scheme /\
  Scraper.instrument_type h = type /\ Scraper.reporting_date h = date.

(** A row that has a value somewhere. *)
Definition has_value (row : Scraper.Row) : bool :=
  negb (forallb Scraper.isna (Scraper.values row)).

(** The workbook [xl] with the sheet list [names]. *)
Definition with_sheets (xl : Scraper.ExcelFile) (names : list string)
  : Scraper.ExcelFile :=
  {| Scraper.sheet_names := names;
     Scraper.read_raw := Scraper.read_raw xl;
     Scraper.read_header := Scraper.read_header xl |}.

(** The link passes the two tests of [Discovery.find_portfolio_file_url]. *)
Definition qualifies (month year : string) (l : Discovery.Link) : bool :=
  Discovery.is_excel l
  && Discovery.matches (Discovery.search_patterns month year) l.

(** The text made of one double quote. *)
Definition quote_text : string := String Discovery.quote EmptyString.

(** The header [attachment; filename=] followed by [name] between double
    quotes. *)
Definition attachment (name : string) : string :=
  ("attachment; filename=" ++ quote_text ++ name ++ quote_text)%string.

(** *** The validator *)

(** The characters of [s] are, one after the other, in the classes; what
    is left of [s] after them. *)
Fixpoint consume (classes : list (ascii -> bool)) (s : string)
  : option string :=
  match classes with
  | [] => Some s
  | class :: rest =>
      match s with
      | EmptyString => None
      | String c s' => if class c then consume rest s' else None
      end
  end.

Definition upper_or_digit (c : ascii) : bool := is_upper c || is_digit c.

(** Two capital letters, nine capital letters or digits, one digit. *)
Definition isin_classes : list (ascii -> bool) :=
  [is_upper; is_upper;
   upper_or_digit; upper_or_digit; upper_or_digit; upper_or_digit;
   upper_or_digit; upper_or_digit; upper_or_digit; upper_or_digit;
   upper_or_digit;
   is_digit].

(** The text is an ISIN: twelve characters of these classes, and nothing
    after them but, at most, one line feed. *)
Definition isin_text (s : string) : bool :=
  match consume isin_classes s with
  | Some rest =>
      String.eqb rest EmptyString
      || String.eqb rest (String Regex.newline EmptyString)
  | None => false
  end.

(** A cell of the [isin] column that is not missing and is not an ISIN. *)
Definition not_isin (cell : option string) : bool :=
  match cell with
  | Some s => negb (isin_text s)
  | None => false
  end.

(** *** Section banners *)

(** The case-folded text of the cell at position [n] of a row; the empty
    text when the row has no such cell or the cell is empty. *)
Definition folded_at (n : nat) (row : list Scraper.Cell) : string :=
  match nth_error row n with
  | Some (Scraper.Value text _) => lower text
  | _ => ""
  end.

(** The first two cells of a row, case-folded, a space between them. *)
Definition first_two (row : list Scraper.Cell) : string :=
  (folded_at 0 row ++ " " ++ folded_at 1 row)%string.

(** The banner keywords of the specification. *)
Definition banner_words : list string :=
  ["equity"; "debt instruments"; "government securities"; "corporate bonds";
   "money market"; "net current"; "listed"; "unlisted"; "awaiting listing";
   "privately placed"; "reverse repo"; "treps"; "treasury";
   "certificate of deposit"; "commercial paper"].

(** The first two cells of the row hold a banner keyword. *)
Definition banner_keyword (row : list Scraper.Cell) : Prop :=
  exists k, In k banner_words /\ Statements.occurs k (first_two row).

(** Some cell of the row is an ISIN. *)
Definition isin_in_row (row : list Scraper.Cell) : Prop :=
  exists text num, In (Scraper.Value text num) row /\ isin_text text = true.

(** No two rows are equal for [Validator.duplicated]. *)
Fixpoint distinct_rows
         (rows : list (option Validator.Key * option Validator.Key)) : Prop :=
  match rows with
  | [] => True
  | row :: rest =>
      existsb (Validator.pair_eqb row) rest = false /\ distinct_rows rest
  end.

(** The column [name] is absent or is a text column. *)
Definition text_or_absent (frame : Validator.DataFrame) (name : string)
  : bool :=
  match Validator.getitem frame name with
  | Ok (Validator.ObjectCol _) => true
  | Ok (Validator.FloatCol _) => false
  | Raise _ => true
  end.

(** The column [name] is absent or can be compared with a number. *)
Definition numeric_or_absent (frame : Validator.DataFrame) (name : string)
  : bool :=
  match Validator.getitem frame name with
  | Ok col => match Validator.numeric col with Ok _ => true | Raise _ => false end
  | Raise _ => true
  end.

(** The computation ended without exception. *)
Definition is_ok {A : Type} (r : result A) : bool :=
  match r with Ok _ => true | Raise _ => false end.

(** The dataset on which every check can run. *)
Definition checkable (frame : Validator.DataFrame) : bool :=
  text_or_absent frame "isin"
  && numeric_or_absent frame "percentage_of_portfolio"
  && numeric_or_absent frame "market_value_lakhs"
  && Validator.has_column frame "scheme_name"
  && Validator.has_column frame "instrument_name".

(** The columns [Profile.generate_data_profile] reads. *)
Definition profile_columns : list string :=
  ["scheme_name"; "reporting_date"; "instrument_type"; "market_value_lakhs";
   "instrument_name"; "percentage_of_portfolio"].

(** *** The files written by a run *)

Definition consolidated_path (self : Discovery.Self) : string :=
  Discovery.path_join (Discovery.output_folder self)
                      "consolidated_portfolio.csv".

Definition type_path (self : Discovery.Self) (t : Scraper.InstrumentType)
  : string :=
  Discovery.path_join (Discovery.output_folder self) (Output.type_filename t).

(** The records of type [t]. *)
Definition of_type (t : Scraper.InstrumentType) (hs : list Scraper.Holding)
  : list Scraper.Holding :=
  filter (fun h => Output.type_eqb (Scraper.instrument_type h) t) hs.

(** The header of the files written for the dataset [hs]. *)
Definition header (hs : list Scraper.Holding) : list string :=
  Output.columns (Output.DataFrame hs).

(** The file of the type [t]. *)
Definition type_write (self : Discovery.Self) (hs : list Scraper.Holding)
           (t : Scraper.InstrumentType) : Discovery.Write :=
  (type_path self t, Discovery.Csv (header hs) (of_type t hs)).

Definition known (t : Scraper.InstrumentType) : bool :=
  negb (Output.type_eqb t Scraper.Unknown).

(** The types of the dataset that get a file, in the order of their first
    record. *)
Definition file_types (hs : list Scraper.Holding)
  : list Scraper.InstrumentType :=
  filter known (Output.unique (map Scraper.instrument_type hs)).

(** The files written for the dataset [hs]: the consolidated file, then
    one file for each type. *)
Definition outputs (self : Discovery.Self) (hs : list Scraper.Holding)
  : list Discovery.Write :=
  (consolidated_path self, Discovery.Csv (header hs) hs)
    :: map (type_write self hs) (file_types hs).

Definition is_csv (w : Discovery.Write) : bool :=
  match snd w with
  | Discovery.Csv _ _ => true
  | Discovery.Bytes _ => false
  end.

(** The files of a list written one after the other, up to the first that
    the file system refuses. *)
Fixpoint attempt (disk : Discovery.Disk) (files : list Discovery.Write)
  : list Discovery.Write * result unit :=
  match files with
  | [] => ([], Ok tt)
  | file :: rest =>
      match disk (fst file) with
      | Raise e => ([], Raise e)
      | Ok _ =>
          (file :: fst (attempt disk rest), snd (attempt disk rest))
      end
  end.

(** What steps 3 and 4 end in for the dataset [hs]: its files written up
    to the first refused one; the path of the consolidated file when none
    is refused, the exception of the refused one otherwise. *)
Definition saved (self : Discovery.Self) (disk : Discovery.Disk)
           (hs : list Scraper.Holding)
  : list Discovery.Write * result (option string) :=
  (fst (attempt disk (outputs self hs)),
   match snd (attempt disk (outputs self hs)) with
   | Ok _ => Ok (Some (consolidated_path self))
   | Raise e => Raise e
   end).

(** What a run can end in once the workbook is at hand, [downloads] being
    what it has downloaded: no table written and [None] returned, or the
    files of the dataset read from the workbook [excel], which is not
    empty. *)
Definition run_result (self : Discovery.Self) (disk : Discovery.Disk)
           (downloads : list Discovery.Write)
           (excel : result Scraper.ExcelFile)
           (result : list Discovery.Write * result (option string)) : Prop :=
  result = (downloads, Ok None) \/
  exists hs,
    Scraper.parse_excel_portfolios (Discovery.amc_name self) excel = Some hs /\
    hs <> [] /\
    result = (downloads ++ fst (saved self disk hs), snd (saved self disk hs)).

(** Where the workbook of a run comes from: the manual file, when one is
    given and exists, with nothing downloaded; otherwise the answer to the
    GET of the URL found on the site, written under the name the answer
    gives. *)
Definition workbook_source (self : Discovery.Self) (w : Output.World)
           (manual_file_path : option string)
           (excel_path : string) (downloads : list Discovery.Write) : Prop :=
  (manual_file_path = Some excel_path /\
   truthy excel_path = true /\
   Output.path_exists w excel_path = true /\
   downloads = []) \/
  (~ (exists path, manual_file_path = Some path /\ truthy path = true /\
                   Output.path_exists w path = true) /\
   exists url response,
     Discovery.find_portfolio_file_url self (Output.web w) "December" "2025"
     = Some url /\
     Discovery.download (Output.web w) url = Ok response /\
     excel_path = Discovery.path_join (Discovery.download_folder self)
                                      (Discovery.response_name url response) /\
     downloads = [(excel_path, Discovery.Bytes (Discovery.content response))]).

End MoreStatements.

(* ================================================================== *)
(** ** A sample site *)

Module MoreSamples.

Import PyStr Discovery.

Definition sample_links : list Link :=
  [ {| href := "/docs/factsheet-december-2025.pdf";
       get_text := "Factsheet December 2025" |};
    {| href := "/docs/Monthly-Portfolio-November-2025.xlsx";
       get_text := "Monthly Portfolio November 2025" |};
    {| href := "/docs/Consolidated_Dec.xlsx";
       get_text := "December 2025 - Consolidated" |};
    {| href := "/docs/december-2025-portfolio.xls";
       get_text := "Scheme portfolio" |} ].

Definition sample_response : Response :=
  {| content_disposition := None; content := "PK" |}.

Definition sample_web : Web :=
  {| page := fun _ => Ok "<html>";
     anchors := fun _ => sample_links;
     urljoin := fun base url => (base ++ url)%string;
     download := fun _ => Ok sample_response |}.

(** An answer whose header names an absolute path. *)
Definition hostile_web : Web :=
  {| page := fun _ => Ok "<html>";
     anchors := fun _ => sample_links;
     urljoin := fun base url => (base ++ url)%string;
     download := fun _ =>
       Ok {| content_disposition :=
               Some (MoreStatements.attachment "/home/claude/.profile");
             content := "x" |} |}.

(** A machine on which the workbook of the samples lies at
    [/data/portfolio.xlsx]. *)
Definition sample_world : Output.World :=
  {| Output.web := sample_web;
     Output.path_exists := fun path => String.eqb path "/data/portfolio.xlsx";
     Output.write_file := fun _ => Ok tt;
     Output.ExcelFile := fun path _ =>
       if String.eqb path "/data/portfolio.xlsx"
       then Ok Samples.sample_workbook
       else Raise (ReadError "not a workbook") |}.

(** A file system on which a directory cannot be opened for writing. *)
Definition no_directory : Disk :=
  fun path =>
    if String.eqb path "/" || String.eqb path "/home/claude/downloads/.."
    then Raise OSError
    else Ok tt.

(** A site whose link to the workbook ends in [/..], on a machine without
    a workbook. *)
Definition dot_dot_world : Output.World :=
  {| Output.web :=
       {| page := fun _ => Ok "<html>";
          anchors := fun _ =>
            [ {| href := "/docs/december-2025-portfolio.xlsx?next=/..";
                 get_text := "Monthly portfolio" |} ];
          urljoin := fun base url => (base ++ url)%string;
          download := fun _ => Ok sample_response |};
     Output.path_exists := fun _ => false;
     Output.write_file := no_directory;
     Output.ExcelFile := fun _ _ => Raise (ReadError "not a workbook") |}.

(** The sample machine with an output folder that cannot be written. *)
Definition read_only_world : Output.World :=
  {| Output.web := sample_web;
     Output.path_exists := fun path => String.eqb path "/data/portfolio.xlsx";
     Output.write_file := fun path =>
       if startswith "/home/claude/output/portfolio_" path
       then Raise OSError else Ok tt;
     Output.ExcelFile := fun path _ =>
       if String.eqb path "/data/portfolio.xlsx"
       then Ok Samples.sample_workbook
       else Raise (ReadError "not a workbook") |}.

(** Percentages at the two bounds and a market value of zero. *)
Definition bounds : Validator.DataFrame :=
  [ ("percentage_of_portfolio",
     Validator.FloatCol [Some (0 # 1); Some (100 # 1); None]);
    ("market_value_lakhs",
     Validator.FloatCol [Some (0 # 1); None; Some (5 # 2)]) ].

End MoreSamples.

(* ================================================================== *)
(** ** Texts: occurrence, joining, the ISIN pattern *)

Module TextProofs.

Import PyStr Statements MoreStatements.

Lemma startswith_prefix (p : string) : forall s,
  startswith p s = true <-> exists post, s = (p ++ post)%string.
Proof.
  induction p as [|a p IH]; intros s; cbn [startswith].
  - split; [intros _; exists s; reflexivity | reflexivity].
  - destruct s as [|b s].
    + split; [discriminate | intros [post H]; discriminate H].
    + rewrite andb_true_iff, Ascii.eqb_eq, IH. split.
      * intros [-> [post ->]]. exists post. reflexivity.
      * intros [post H]. injection H as -> ->. split; [reflexivity | eauto].
Qed.

(** [sub in s] is the occurrence of [sub] in [s]. *)
Lemma contains_occurs (k : string) : forall t,
  contains k t = true <-> occurs k t.
Proof.
  unfold occurs.
  induction t as [|c t IH]; cbn [contains]; rewrite orb_true_iff.
  - split.
    + intros [H|H]; [|discriminate].
      apply startswith_prefix in H. destruct H as [post H].
      exists EmptyString, post. exact H.
    + intros (pre & post & H). left. apply startswith_prefix.
      destruct pre; [exists post; exact H | discriminate H].
  - rewrite IH, startswith_prefix. split.
    + intros [[post H]|(pre & post & H)].
      * exists EmptyString, post. exact H.
      * exists (String c pre), post. rewrite H. reflexivity.
    + intros (pre & post & H). destruct pre as [|c' pre].
      * left. exists post. exact H.
      * right. injection H as _ H. exists pre, post. exact H.
Qed.

Lemma contains_not_occurs (k t : string) :
  contains k t = false -> ~ occurs k t.
Proof. intros H Ho. apply contains_occurs in Ho. congruence. Qed.

Lemma any_in_occurs (keywords : list string) (t : string) :
  any_in keywords t = true <-> exists k, In k keywords /\ occurs k t.
Proof.
  unfold any_in. rewrite existsb_exists. split; intros (k & Hin & Hk);
    exists k; (split; [exact Hin | apply contains_occurs; exact Hk]).
Qed.

Lemma join_concat (sep : string) : forall parts,
  join sep parts = String.concat sep parts.
Proof.
  induction parts as [|x [|y rest] IH]; [reflexivity | reflexivity |].
  change (join sep (x :: y :: rest)) with (x ++ sep ++ join sep (y :: rest))%string.
  rewrite IH. reflexivity.
Qed.

(** The row text of [find_header_row] is the blob of the row. *)
Lemma row_text_blob (row : list Scraper.Cell) :
  Scraper.row_text row = blob row.
Proof.
  unfold Scraper.row_text, blob. rewrite join_concat. f_equal.
  induction row as [|[|text num] rest IH]; cbn; [reflexivity | exact IH |].
  rewrite IH. reflexivity.
Qed.

(** The text examined by [is_section_header] is that of the first two
    cells. *)
Lemma combined_first_two (row : list Scraper.Cell) :
  row <> [] -> Scraper.combined row = Ok (first_two row).
Proof.
  destruct row as [|[|t0 n0] [|[|t1 n1] rest]]; [congruence | | | | | |];
    intros _; reflexivity.
Qed.

(** *** The ISIN pattern, character by character *)

Lemma fullmatch_Void (s : string) : Regex.fullmatch Regex.Void s = false.
Proof. induction s as [|c s IH]; [reflexivity | exact IH]. Qed.

Ltac isin_step :=
  match goal with
  | |- Regex.fullmatch _ ?s = _ =>
      destruct s as [|? s]; [reflexivity|];
      cbn [consume Regex.fullmatch Regex.deriv Regex.nullable Regex.rep
           andb orb];
      match goal with
      | |- context [if ?b then Regex.Eps else Regex.Void] =>
          destruct b; cbn [Regex.cat Regex.alt];
          [|rewrite fullmatch_Void; reflexivity]
      end
  end.

(** The pattern of the source accepts exactly the texts of [isin_text]. *)
Lemma isin_pattern_text (s : string) :
  Regex.match_anchored Regex.isin_pattern s = isin_text s.
Proof.
  unfold Regex.match_anchored, Regex.isin_pattern, isin_text, isin_classes,
    upper_or_digit.
  do 12 isin_step.
  destruct s as [|c s]; [reflexivity|].
  cbn [Regex.fullmatch Regex.deriv Regex.alt String.eqb orb].
  rewrite (Ascii.eqb_sym c).
  destruct (Ascii.eqb Regex.newline c); cbn [Regex.alt andb];
    [|apply fullmatch_Void].
  destruct s; [reflexivity | apply fullmatch_Void].
Qed.

(** A cell matches the ISIN pattern when it is not empty and its text is
    an ISIN. *)
Lemma has_isin_in_row (row : list Scraper.Cell) :
  Scraper.has_isin row = true <-> isin_in_row row.
Proof.
  unfold Scraper.has_isin, isin_in_row. rewrite existsb_exists. split.
  - intros ([|text num] & Hin & Hc); [discriminate Hc|].
    unfold Scraper.isin_cell in Hc.
    cbn [Scraper.notna Scraper.isna Scraper.str negb andb] in Hc.
    rewrite isin_pattern_text in Hc. eauto.
  - intros (text & num & Hin & Hc). exists (Scraper.Value text num).
    split; [exact Hin|]. unfold Scraper.isin_cell.
    cbn [Scraper.notna Scraper.isna Scraper.str negb andb].
    rewrite isin_pattern_text. exact Hc.
Qed.

End TextProofs.

(* ================================================================== *)
(** ** Properties of the cell classifier *)

Module ClassifierProofs.

Import PyStr Scraper.

Example lower_example :
  lower "Name of the Instrument" = "name of the instrument".
Proof. reflexivity. Qed.

Example strip_example : strip "  Total  " = "Total".
Proof. reflexivity. Qed.

Example isin_example :
  Regex.match_anchored Regex.isin_pattern "INE002A01018" = true /\
  Regex.match_anchored Regex.isin_pattern "INVALIDISIN" = false /\
  Regex.match_anchored Regex.isin_pattern "ine002a01018" = false.
Proof. repeat split; vm_compute; reflexivity. Qed.

Example date_example :
  Regex.search_ignorecase Regex.date_pattern "Portfolio as on December 31, 2025" = true /\
  Regex.search_ignorecase Regex.date_pattern "as on 31/12/2025" = true /\
  Regex.search_ignorecase Regex.date_pattern "Axis Bluechip Fund" = false.
Proof. repeat split; vm_compute; reflexivity. Qed.

(** *** Counting keywords *)

Section CountDistinct.

Context {A : Type} (f : A -> bool).

Lemma two_members (l : list A) (a b : A) :
  a <> b -> In a l -> In b l -> 2 <= length l.
Proof.
  intros Hab Ha Hb.
  destruct l as [|x [|y l']]; simpl in *; try lia.
  destruct Ha as [Ha|[]], Hb as [Hb|[]]. congruence.
Qed.

Lemma filter_two (l : list A) :
  NoDup l ->
  (2 <= length (filter f l) <->
   exists a b, a <> b /\ In a l /\ In b l /\ f a = true /\ f b = true).
Proof.
  intros Hnd. split.
  - intros Hlen.
    assert (Hnd' : NoDup (filter f l)) by (apply NoDup_filter; exact Hnd).
    destruct (filter f l) as [|a [|b rest]] eqn:E; simpl in Hlen; try lia.
    assert (Ha : In a (filter f l)) by (rewrite E; simpl; auto).
    assert (Hb : In b (filter f l)) by (rewrite E; simpl; auto).
    apply filter_In in Ha, Hb.
    exists a, b. repeat split; try tauto.
    inversion Hnd' as [|? ? Hnotin _]; subst.
    intros ->. apply Hnotin. simpl; auto.
  - intros (a & b & Hab & Ha & Hb & Hfa & Hfb).
    apply (two_members _ a b Hab); apply filter_In; auto.
Qed.

End CountDistinct.

Lemma header_keywords_distinct : NoDup header_keywords.
Proof.
  unfold header_keywords.
  repeat (constructor; [simpl; intuition discriminate|]).
  constructor.
Qed.

Lemma keyword_matches_two (row : list Cell) :
  2 <= keyword_matches row <-> Statements.two_header_keywords row.
Proof.
  unfold keyword_matches, Statements.two_header_keywords.
  rewrite (filter_two (fun keyword => contains keyword (row_text row))
                      header_keywords header_keywords_distinct).
  rewrite TextProofs.row_text_blob.
  change header_keywords with Statements.header_words.
  split; intros (k1 & k2 & Hne & H1 & H2 & Hc1 & Hc2); exists k1, k2;
    repeat split; try assumption; apply TextProofs.contains_occurs; assumption.
Qed.

(** *** The scan for the header row *)

Lemma find_header_from_some (rows : Grid) : forall idx i,
  find_header_from idx rows = Some i <->
  exists j, i = idx + j /\ j < length rows /\
            2 <= keyword_matches (nth j rows []) /\
            forall k, k < j -> keyword_matches (nth k rows []) < 2.
Proof.
  induction rows as [|row rest IH]; intros idx i; cbn [find_header_from length].
  - split; [discriminate | intros (j & _ & Hj & _); lia].
  - destruct (Nat.leb_spec 2 (keyword_matches row)) as [Hrow|Hrow].
    + split.
      * intros [= <-]. exists 0. repeat split; try lia. exact Hrow.
      * intros (j & -> & _ & _ & Hmin).
        destruct j as [|j]; [f_equal; lia|].
        specialize (Hmin 0 ltac:(lia)). simpl in Hmin. lia.
    + rewrite IH. split.
      * intros (j & -> & Hj & Hkm & Hmin).
        exists (S j). repeat split; try lia; try exact Hkm.
        intros [|k] Hk; simpl; [exact Hrow | apply Hmin; lia].
      * intros (j & -> & Hj & Hkm & Hmin).
        destruct j as [|j]; simpl in Hkm; [lia|].
        exists j. repeat split; try lia; try exact Hkm.
        intros k Hk. apply (Hmin (S k)). lia.
Qed.

Lemma find_header_from_none (rows : Grid) : forall idx,
  find_header_from idx rows = None <->
  forall j, j < length rows -> keyword_matches (nth j rows []) < 2.
Proof.
  induction rows as [|row rest IH]; intros idx; cbn [find_header_from length].
  - split; [intros _ j Hj; lia | reflexivity].
  - destruct (Nat.leb_spec 2 (keyword_matches row)) as [Hrow|Hrow].
    + split; [discriminate|].
      intros H. specialize (H 0 ltac:(lia)). simpl in H. lia.
    + rewrite IH. split.
      * intros H [|j] Hj; [exact Hrow | apply H; lia].
      * intros H j Hj. apply (H (S j)). lia.
Qed.

Lemma nth_firstn {A : Type} (l : list A) (d : A) : forall n j,
  j < n -> nth j (firstn n l) d = nth j l d.
Proof.
  induction l as [|x l IH]; intros n j Hj.
  - rewrite firstn_nil. reflexivity.
  - destruct n as [|n]; [lia|]. destruct j as [|j]; simpl; [reflexivity|].
    apply IH. lia.
Qed.

Lemma length_window {A : Type} (n : nat) (l : list A) :
  length (firstn (Nat.min n (length l)) l) = Nat.min n (length l).
Proof. rewrite length_firstn. lia. Qed.

(** C2. [find_header_row] returns the smallest index [i] below
    [min(20, len(df))] such that the blob of row [i] (its non-empty cells,
    case-folded and joined by a space) holds at least two different
    keywords among name, isin, quantity, rating, industry and instrument;
    it returns [None] exactly when no row of that window does. *)
Theorem find_header_row_spec (df : Grid) :
  (forall i,
      find_header_row df = Some i <->
      i < Nat.min 20 (length df) /\
      Statements.two_header_keywords (nth i df []) /\
      forall j, j < i -> ~ Statements.two_header_keywords (nth j df [])) /\
  (find_header_row df = None <->
   forall i, i < Nat.min 20 (length df) -> ~ Statements.two_header_keywords (nth i df [])).
Proof.
  unfold find_header_row. split.
  - intros i. rewrite find_header_from_some, length_window. split.
    + intros (j & -> & Hj & Hkm & Hmin). simpl.
      rewrite nth_firstn in Hkm by exact Hj.
      repeat split; [exact Hj | apply keyword_matches_two; exact Hkm |].
      intros k Hk Htwo. apply keyword_matches_two in Htwo.
      specialize (Hmin k Hk). rewrite nth_firstn in Hmin by lia. lia.
    + intros (Hi & Htwo & Hmin). exists i.
      repeat split; try exact Hi.
      * rewrite nth_firstn by exact Hi. apply keyword_matches_two; exact Htwo.
      * intros k Hk. rewrite nth_firstn by lia.
        destruct (Nat.lt_ge_cases (keyword_matches (nth k df [])) 2) as [H|H];
          [exact H|].
        exfalso. apply (Hmin k Hk). apply keyword_matches_two; exact H.
  - rewrite find_header_from_none, length_window. split.
    + intros H i Hi Htwo. apply keyword_matches_two in Htwo.
      specialize (H i Hi). rewrite nth_firstn in H by exact Hi. lia.
    + intros H j Hj. rewrite nth_firstn by exact Hj.
      destruct (Nat.lt_ge_cases (keyword_matches (nth j df [])) 2) as [H'|H'];
        [exact H'|].
      exfalso. apply (H j Hj). apply keyword_matches_two; exact H'.
Qed.

Lemma one_keyword_only (row : list Cell) :
  (keyword_matches row <? 2) = true -> ~ Statements.two_header_keywords row.
Proof.
  intros H Htwo. apply keyword_matches_two in Htwo.
  apply Nat.ltb_lt in H. lia.
Qed.

(** The header line of the sample is found under the title line: its cells
    are joined and case-folded before the keywords are looked for. A grid
    whose rows hold one keyword each has no header line. *)
Lemma find_header_row_spec_witness :
  find_header_row Samples.sample_grid = Some 1 /\
  find_header_row
    [[Value "Axis Bluechip Fund" None]; [NaN; Value "Name" None];
     [Value "Rating" None; NaN]]
  = None.
Proof.
  split.
  - apply (proj1 (find_header_row_spec Samples.sample_grid) 1).
    split; [vm_compute; lia|]. split.
    + exists "name", "isin". split; [discriminate|].
      split; [simpl; auto|]. split; [simpl; auto|]. split.
      * exists "",
          " of the instrument isin quantity market value (rs lakhs) % to net assets".
        reflexivity.
      * exists "name of the instrument ",
          " quantity market value (rs lakhs) % to net assets".
        reflexivity.
    + intros j Hj. assert (j = 0) as -> by lia.
      apply one_keyword_only. vm_compute. reflexivity.
  - apply (proj2 (find_header_row_spec _)).
    intros i Hi. apply one_keyword_only.
    destruct i as [|[|[|i]]]; [vm_compute; reflexivity .. |].
    vm_compute in Hi. lia.
Defined.

Example two_cells_one_header :
  find_header_row [[NaN; Value "Scheme NAME" None; NaN; Value "Isin" None]]
  = Some 0.
Proof. vm_compute. reflexivity. Qed.

(** *** The reporting date *)

Lemma scan_date_cells_some (cells : list Cell) (d : string) :
  scan_date_cells cells = Some d -> d = "2025-12-31".
Proof.
  induction cells as [|c rest IH]; simpl; [discriminate|].
  destruct (date_match c); [intros [= <-]; reflexivity | exact IH].
Qed.

Lemma scan_date_rows_some (rows : Grid) (d : string) :
  scan_date_rows rows = Some d -> d = "2025-12-31".
Proof.
  induction rows as [|row rest IH]; simpl; [discriminate|].
  destruct (scan_date_cells row) as [d'|] eqn:E; [|exact IH].
  intros [= <-]. apply (scan_date_cells_some row). exact E.
Qed.

(** The first-match branch is taken exactly when some cell of the scanned
    rows matches the date pattern. *)
Lemma scan_date_rows_found (rows : Grid) :
  scan_date_rows rows <> None <->
  exists row c, In row rows /\ In c row /\ date_match c = true.
Proof.
  assert (Hcells : forall cells,
             scan_date_cells cells <> None <->
             exists c, In c cells /\ date_match c = true).
  { induction cells as [|c rest IH]; simpl.
    - split; [congruence | intros (c & [] & _)].
    - destruct (date_match c) eqn:E.
      + split; [intros _; exists c; auto | discriminate].
      + rewrite IH. split.
        * intros (c' & Hin & Hm). exists c'; auto.
        * intros (c' & [<-|Hin] & Hm); [congruence | exists c'; auto]. }
  induction rows as [|row rest IH]; simpl.
  - split; [congruence | intros (row & c & [] & _)].
  - destruct (scan_date_cells row) as [d|] eqn:E.
    + split; [intros _ | discriminate].
      destruct (proj1 (Hcells row)) as (c & Hin & Hm); [congruence|].
      exists row, c. auto.
    + rewrite IH. split.
      * intros (row' & c & Hin & Hc & Hm). exists row', c. auto.
      * intros (row' & c & [<-|Hin] & Hc & Hm).
        -- exfalso. apply (proj2 (Hcells row)); [exists c; auto | exact E].
        -- exists row', c. auto.
Qed.

(** C6. [find_reporting_date] is a constant function: whether or not a
    cell of the first ten rows matches the date pattern, the result is the
    string "2025-12-31". *)
Theorem find_reporting_date_constant (df : Grid) :
  find_reporting_date df = "2025-12-31".
Proof.
  unfold find_reporting_date.
  destruct (scan_date_rows _) as [d|] eqn:E; [|reflexivity].
  apply (scan_date_rows_some _ _ E).
Qed.

Example reporting_date_first_match :
  scan_date_rows [[NaN; Value "Portfolio as on December 31, 2025" None]]
  = Some "2025-12-31".
Proof. vm_compute. reflexivity. Qed.

Example reporting_date_fallback :
  scan_date_rows [[Value "Axis Bluechip Fund" None]] = None.
Proof. vm_compute. reflexivity. Qed.

(** *** Section banners *)

Lemma existsb_false {A : Type} (f : A -> bool) (l : list A) :
  existsb f l = false <-> forall x, In x l -> f x = false.
Proof.
  induction l as [|a l IH]; simpl.
  - split; [intros _ x [] | reflexivity].
  - rewrite orb_false_iff, IH. split.
    + intros [Ha Hl] x [<-|Hx]; auto.
    + intros H. split; [apply H; auto | intros x Hx; apply H; auto].
Qed.

Lemma any_in_true (keywords : list string) (text : string) :
  any_in keywords text = true <->
  exists k, In k keywords /\ contains k text = true.
Proof. unfold any_in. apply existsb_exists. Qed.


Lemma section_keywords_banner_words :
  section_keywords = MoreStatements.banner_words.
Proof. reflexivity. Qed.

(** C3. [is_section_header] returns [True] exactly when the first two cells
    of the row, case-folded and joined by a space, hold a banner keyword
    (one of the fifteen of the specification) and no cell of the row is an
    ISIN; it returns a boolean on every row that has a cell; it returns
    [False] on every row that holds an ISIN; so an ISIN, put anywhere into
    a row for which it returns [True], makes it return [False]. *)
Theorem is_section_header_spec :
  (forall row,
      is_section_header row = Ok true <->
      MoreStatements.banner_keyword row /\ ~ MoreStatements.isin_in_row row) /\
  (forall row,
      row <> [] ->
      is_section_header row = Ok true \/ is_section_header row = Ok false) /\
  (forall row,
      MoreStatements.isin_in_row row -> is_section_header row = Ok false) /\
  (forall pre post text num,
      MoreStatements.isin_text text = true ->
      is_section_header (pre ++ post) = Ok true ->
      is_section_header (pre ++ Value text num :: post) = Ok false).
Proof.
  assert (Hisin : forall row,
             MoreStatements.isin_in_row row ->
             is_section_header row = Ok false).
  { intros row Hin. unfold is_section_header.
    assert (Hrow : row <> []).
    { destruct Hin as (text & num & Hin & _). destruct row;
        [contradiction | discriminate]. }
    rewrite (TextProofs.combined_first_two row Hrow). cbn [bind].
    apply TextProofs.has_isin_in_row in Hin. rewrite Hin. cbn [negb].
    destruct (any_in _ _); reflexivity. }
  split; [|split; [|split; [exact Hisin|]]].
  - intros row. unfold is_section_header, MoreStatements.banner_keyword.
    rewrite <- TextProofs.any_in_occurs, <- TextProofs.has_isin_in_row,
      <- section_keywords_banner_words.
    destruct row as [|c0 rest].
    + cbn [combined bind]. split; [discriminate|].
      intros [H _]. vm_compute in H. discriminate H.
    + rewrite (TextProofs.combined_first_two (c0 :: rest)) by discriminate.
      cbn [bind].
      destruct (any_in section_keywords _);
        destruct (has_isin (c0 :: rest)); cbn [negb]; split;
        try discriminate; try reflexivity.
      * intros [_ H]. exfalso. apply H. reflexivity.
      * intros _. split; [reflexivity | discriminate].
      * intros [H _]. discriminate H.
      * intros [H _]. discriminate H.
  - intros row Hrow. unfold is_section_header.
    rewrite (TextProofs.combined_first_two row Hrow). cbn [bind].
    destruct (any_in _ _); [destruct (has_isin row)|]; cbn [negb]; auto.
  - intros pre post text num Hc _. apply Hisin.
    exists text, num. split; [|exact Hc].
    apply in_or_app. right. left. reflexivity.
Qed.

(** A banner whose keyword stands in the second cell, in capitals, is
    recognised; the same row with an ISIN put into it is not. *)
Lemma is_section_header_spec_witness :
  is_section_header [NaN; Value "UNLISTED Securities" None; NaN] = Ok true /\
  is_section_header
    [NaN; Value "UNLISTED Securities" None; Value "INE002A01018" None; NaN]
  = Ok false.
Proof.
  assert (H : is_section_header [NaN; Value "UNLISTED Securities" None; NaN]
              = Ok true).
  { apply (proj1 is_section_header_spec). split.
    - exists "unlisted". split; [simpl; tauto|].
      exists " ", " securities". reflexivity.
    - intros (text & num & Hin & Htext).
      destruct Hin as [Hin|[Hin|[Hin|[]]]]; try discriminate Hin.
      injection Hin as <- _. vm_compute in Htext. discriminate Htext. }
  split; [exact H|].
  apply (proj2 (proj2 (proj2 is_section_header_spec))
           [NaN; Value "UNLISTED Securities" None] [NaN]
           "INE002A01018" None).
  - vm_compute. reflexivity.
  - exact H.
Defined.

Example third_cell_not_read :
  is_section_header [NaN; NaN; Value "Equity" None] = Ok false.
Proof. vm_compute. reflexivity. Qed.


(** In [extract_holdings_from_sheet] the classification follows a banner
    test that succeeded, so it never raises there. *)
Lemma classify_after_banner (row : list Cell) :
  is_section_header row = Ok true ->
  exists type, classify_instrument_type row = Ok type /\ type <> Unknown.
Proof.
  intros H. unfold is_section_header in H.
  unfold classify_instrument_type.
  destruct (combined row) as [text|e]; cbn [bind] in *; [|discriminate].
  repeat case_if; eexists; (split; [reflexivity | discriminate]).
Qed.


End ClassifierProofs.

(* ================================================================== *)
(** ** Properties of the row extractor, the sheet processor and the
       consolidator *)

Module ExtractorProofs.

Import PyStr Scraper.

(** *** The column rules *)

(** C5, as the code has it. A column whose value is present is parsed into
    [percentage_of_portfolio] when its name holds "%" or "net assets" and
    holds no keyword that opens an earlier branch (name, security, isin,
    industry, rating, quantity, market, fair value, value); any other column
    leaves [percentage_of_portfolio] as it was; and a column that holds
    "market", "fair value" or "value" but none of "rs", "lakhs", "amount"
    (and no keyword of the branches before) changes nothing, whether or not
    it holds "%" or "net assets". *)
Theorem assign_field_percentage
        (col_name : string) (value : Cell) (holding : Holding) :
  (Statements.reaches_percentage (lower col_name) = true ->
   assign_field col_name value holding
   = set_percentage_of_portfolio (to_float value) holding) /\
  (Statements.reaches_percentage (lower col_name) = false ->
   percentage_of_portfolio (assign_field col_name value holding)
   = percentage_of_portfolio holding) /\
  (Statements.opens_earlier_branch (lower col_name) = false ->
   any_in ["market"; "fair value"; "value"] (lower col_name) = true ->
   contains "rs" (lower col_name) || contains "lakhs" (lower col_name)
   || contains "amount" (lower col_name) = false ->
   assign_field col_name value holding = holding).
Proof.
  unfold Statements.reaches_percentage, Statements.opens_earlier_branch,
    assign_field.
  set (c := lower col_name).
  destruct (any_in ["name of the instrument"; "name"; "security"] c) eqn:K1;
  destruct (contains "isin" c) eqn:K2;
  destruct (contains "industry" c) eqn:K3;
  destruct (contains "rating" c) eqn:K4;
  destruct (contains "quantity" c) eqn:K5;
  destruct (any_in ["market"; "fair value"; "value"] c) eqn:K6;
  cbn [negb andb orb];
  repeat split; intros; try discriminate; try reflexivity;
  repeat case_if; try discriminate; reflexivity.
Qed.

Lemma assign_field_percentage_witness :
  assign_field "% to Net Assets" (Value "4.2" (Some (42 # 10)))
               (new_holding "Axis Mutual Fund" "Axis Bluechip Fund" Equity "2025-12-31")
  = set_percentage_of_portfolio (Some (42 # 10))
      (new_holding "Axis Mutual Fund" "Axis Bluechip Fund" Equity "2025-12-31").
Proof.
  apply (proj1 (assign_field_percentage "% to Net Assets"
                  (Value "4.2" (Some (42 # 10)))
                  (new_holding "Axis Mutual Fund" "Axis Bluechip Fund" Equity
                               "2025-12-31"))).
  vm_compute. reflexivity.
Defined.

(** C5, as the specification has it, fails: the column
    "value (% to net assets)" is taken by no earlier rule (it holds "value"
    but none of "rs", "lakhs", "amount") and holds "%"; the code enters the
    market-value branch, sets nothing, and never reaches the percentage
    branch. *)
Lemma value_percentage_column_ignored : ~ Statements.claimed_percentage_rule.
Proof.
  intros H.
  specialize (H "value (% to net assets)" (Value "4.2" (Some (42 # 10)))
                (new_holding "Axis Mutual Fund" "Axis Bluechip Fund" Equity
                             "2025-12-31")).
  assert (Hn : notna (Value "4.2" (Some (42 # 10))) = true) by reflexivity.
  assert (He : Statements.earlier_rule (lower "value (% to net assets)") = false)
    by (vm_compute; reflexivity).
  assert (Hp : Statements.percentage_rule (lower "value (% to net assets)") = true)
    by (vm_compute; reflexivity).
  specialize (H Hn He Hp). vm_compute in H. discriminate H.
Qed.

(** The same column inside a row: the record is produced without a
    percentage. *)
Example value_percentage_row :
  option_map percentage_of_portfolio
    (match extract_holding_from_row "Axis Mutual Fund"
             [(Some "name of the instrument", Value "Reliance Industries Ltd" None);
              (Some "value (% to net assets)", Value "4.2" (Some (42 # 10)))]
             "Axis Bluechip Fund" Equity "2025-12-31"
     with Ok h => h | Raise _ => None end)
  = Some None.
Proof. vm_compute. reflexivity. Qed.

(** *** Records that leave the extractor *)

Lemma assign_field_scheme_name (col_name : string) (value : Cell) (h : Holding) :
  scheme_name (assign_field col_name value h) = scheme_name h.
Proof. unfold assign_field. repeat case_if; reflexivity. Qed.

Lemma fill_fields_scheme_name (row : Row) : forall labels h h',
  fill_fields row labels h = Ok h' -> scheme_name h' = scheme_name h.
Proof.
  induction labels as [|col_name rest IH]; intros h h'; cbn [fill_fields].
  - intros [= <-]. reflexivity.
  - destruct (getitem row col_name) as [value|e]; cbn [bind]; [|discriminate].
    destruct (isna value); intros H; apply IH in H; [exact H|].
    rewrite H. apply assign_field_scheme_name.
Qed.

Lemma truthy_nonempty (s : string) : truthy s = true -> s <> "".
Proof. destruct s; [discriminate | intros _; discriminate]. Qed.

Lemma keep_holding_some (h h' : Holding) :
  keep_holding h = Some h' ->
  h' = h /\ Statements.clean_name (instrument_name h).
Proof.
  unfold keep_holding, Statements.clean_name.
  destruct (instrument_name h) as [name|]; [|discriminate].
  destruct (truthy name) eqn:T; [|discriminate].
  destruct (any_in skip_keywords (lower name)) eqn:K; [discriminate|].
  cbn [negb].
  destruct (Nat.ltb_spec 3 (String.length (strip name))) as [L|L];
    [|discriminate].
  intros [= <-]. split; [reflexivity|]. exists name.
  repeat split; [apply truthy_nonempty; exact T | exact L |].
  intros k Hk. unfold any_in in K.
  apply (proj1 (ClassifierProofs.existsb_false _ _) K k Hk).
Qed.

Lemma extract_holding_from_row_valid
      (amc : string) (row : Row) (scheme : string) (type : InstrumentType)
      (date : string) (h : Holding) :
  extract_holding_from_row amc row scheme type date = Ok (Some h) ->
  Statements.valid_record scheme h.
Proof.
  unfold extract_holding_from_row.
  destruct (forallb isna (values row)); [discriminate|].
  destruct (fill_fields _ _ _) as [h0|e] eqn:F; cbn [bind]; [|discriminate].
  intros [= K]. apply keep_holding_some in K. destruct K as [-> Hname].
  split; [|exact Hname].
  apply fill_fields_scheme_name in F. exact F.
Qed.

Lemma stream_rows_valid (amc sheet_name date : string) : forall rows type acc hs,
  Forall (Statements.valid_record sheet_name) acc ->
  stream_rows amc sheet_name date rows type acc = Ok hs ->
  Forall (Statements.valid_record sheet_name) hs.
Proof.
  induction rows as [|row rest IH]; intros type acc hs Hacc; cbn [stream_rows].
  - intros [= <-]. exact Hacc.
  - destruct (is_section_header (values row)) as [[|]|e]; cbn [bind];
      [| |discriminate].
    + destruct (classify_instrument_type (values row)) as [type'|e];
        cbn [bind]; [|discriminate].
      apply IH. exact Hacc.
    + destruct (extract_holding_from_row _ _ _ _ _) as [[h|]|e] eqn:E;
        cbn [bind]; [| |discriminate].
      * apply IH. apply Forall_app. split; [exact Hacc|].
        constructor; [|constructor].
        apply (extract_holding_from_row_valid _ _ _ _ _ _ E).
      * apply IH. exact Hacc.
Qed.

Lemma extract_holdings_from_sheet_valid
      (amc : string) (xl : ExcelFile) (sheet_name : string) :
  Forall (Statements.valid_record sheet_name)
         (extract_holdings_from_sheet amc xl sheet_name).
Proof.
  unfold extract_holdings_from_sheet, sheet_body.
  destruct (read_raw xl sheet_name) as [df|e]; cbn [bind]; [|constructor].
  destruct (find_header_row df) as [idx|]; [|constructor].
  destruct (read_header xl sheet_name idx) as [df'|e]; cbn [bind];
    [|constructor].
  destruct (stream_rows _ _ _ _ _ _) as [hs|e] eqn:S; [|constructor].
  apply (stream_rows_valid _ _ _ _ _ _ _ (Forall_nil _) S).
Qed.

(** *** The consolidated dataset *)

Lemma add_sheet_app (amc : string) (xl : ExcelFile)
      (all_holdings : list Holding) (sheet_name : string) :
  add_sheet amc xl all_holdings sheet_name
  = all_holdings ++ extract_holdings_from_sheet amc xl sheet_name.
Proof.
  unfold add_sheet.
  destruct (extract_holdings_from_sheet amc xl sheet_name);
    [rewrite app_nil_r|]; reflexivity.
Qed.

Lemma fold_add_sheet (amc : string) (xl : ExcelFile) : forall sheets acc,
  fold_left (add_sheet amc xl) sheets acc
  = acc ++ flat_map (extract_holdings_from_sheet amc xl) sheets.
Proof.
  induction sheets as [|sheet rest IH]; intros acc; cbn [fold_left flat_map].
  - rewrite app_nil_r. reflexivity.
  - rewrite IH, add_sheet_app, app_assoc. reflexivity.
Qed.

Lemma parse_excel_portfolios_flat (amc : string) (xl : ExcelFile) :
  parse_excel_portfolios amc (Ok xl)
  = Some (flat_map (extract_holdings_from_sheet amc xl) (scheme_sheets xl)).
Proof.
  unfold parse_excel_portfolios. rewrite fold_add_sheet. reflexivity.
Qed.

(** C1. Every record of the dataset returned by [parse_excel_portfolios]
    carries as [scheme_name] the name of one of the scheme sheets of the
    workbook, and an [instrument_name] that is present, not empty, longer
    than 3 characters once stripped, and whose lower-cased text holds none
    of the noise keywords. *)
Theorem consolidated_records_valid
        (amc : string) (excel : result ExcelFile)
        (dataset : list Holding) (h : Holding) :
  parse_excel_portfolios amc excel = Some dataset ->
  In h dataset ->
  (exists xl, excel = Ok xl /\ In (scheme_name h) (scheme_sheets xl)) /\
  exists name,
    instrument_name h = Some name /\
    name <> "" /\
    3 < String.length (strip name) /\
    forall keyword, In keyword skip_keywords ->
                    contains keyword (lower name) = false.
Proof.
  destruct excel as [xl|e]; [|discriminate].
  rewrite parse_excel_portfolios_flat. intros [= <-] Hin.
  apply in_flat_map in Hin. destruct Hin as (sheet & Hsheet & Hin).
  pose proof (extract_holdings_from_sheet_valid amc xl sheet) as Hall.
  rewrite Forall_forall in Hall. destruct (Hall h Hin) as [Hs Hname].
  split; [exists xl; split; [reflexivity | rewrite Hs; exact Hsheet]|].
  exact Hname.
Qed.
Example sample_sheet :
  extract_holdings_from_sheet "Axis Mutual Fund" Samples.sample_workbook
    "Axis Bluechip Fund"
  = [Samples.reliance "Axis Bluechip Fund"].
Proof. vm_compute. reflexivity. Qed.

Example sample_dataset :
  parse_excel_portfolios "Axis Mutual Fund" (Ok Samples.sample_workbook)
  = Some [Samples.reliance "Axis Bluechip Fund";
          Samples.reliance "Axis Midcap Fund"].
Proof. vm_compute. reflexivity. Qed.

Lemma consolidated_records_valid_witness :
  (exists xl, Ok Samples.sample_workbook = Ok xl /\
              In (scheme_name (Samples.reliance "Axis Midcap Fund"))
                 (scheme_sheets xl)) /\
  exists name,
    instrument_name (Samples.reliance "Axis Midcap Fund") = Some name /\
    name <> "" /\
    3 < String.length (strip name) /\
    forall keyword, In keyword skip_keywords ->
                    contains keyword (lower name) = false.
Proof.
  apply (consolidated_records_valid "Axis Mutual Fund"
           (Ok Samples.sample_workbook)
           [Samples.reliance "Axis Bluechip Fund";
            Samples.reliance "Axis Midcap Fund"]).
  - vm_compute. reflexivity.
  - right. left. reflexivity.
Defined.

(** *** Failure of one sheet *)

Lemma sheet_body_read_error (amc : string) (xl : ExcelFile)
      (sheet_name : string) (e : Exn) :
  read_raw xl sheet_name = Raise e -> sheet_body amc xl sheet_name = Raise e.
Proof. intros H. unfold sheet_body. rewrite H. reflexivity. Qed.

Lemma sheet_body_reread_error (amc : string) (xl : ExcelFile)
      (sheet_name : string) (df : Grid) (idx : nat) (e : Exn) :
  read_raw xl sheet_name = Ok df ->
  find_header_row df = Some idx ->
  read_header xl sheet_name idx = Raise e ->
  sheet_body amc xl sheet_name = Raise e.
Proof.
  intros H1 H2 H3. unfold sheet_body. rewrite H1. cbn [bind].
  rewrite H2, H3. reflexivity.
Qed.

(** What a sheet yields depends on the two reads of that sheet only. *)
Lemma extract_holdings_from_sheet_local
      (amc : string) (xl xl' : ExcelFile) (sheet_name : string) :
  read_raw xl sheet_name = read_raw xl' sheet_name ->
  (forall idx, read_header xl sheet_name idx = read_header xl' sheet_name idx) ->
  extract_holdings_from_sheet amc xl sheet_name
  = extract_holdings_from_sheet amc xl' sheet_name.
Proof.
  intros Hraw Hhdr. unfold extract_holdings_from_sheet, sheet_body.
  rewrite Hraw. destruct (read_raw xl' sheet_name) as [df|e]; cbn [bind];
    [|reflexivity].
  destruct (find_header_row df) as [idx|]; [|reflexivity].
  rewrite Hhdr. reflexivity.
Qed.

Lemma flat_map_local (amc : string) (xl xl' : ExcelFile) (sheets : list string) :
  Forall (Statements.same_sheet xl xl') sheets ->
  flat_map (extract_holdings_from_sheet amc xl) sheets
  = flat_map (extract_holdings_from_sheet amc xl') sheets.
Proof.
  induction 1 as [|sheet rest [Hraw Hhdr] _ IH]; cbn [flat_map];
    [reflexivity|].
  rewrite IH, (extract_holdings_from_sheet_local amc xl xl' sheet Hraw Hhdr).
  reflexivity.
Qed.

(** C7. When the processing of one scheme sheet raises an exception, or
    finds no header row, that sheet yields no record, and the dataset is
    made of the records of the sheets before it followed by those of the
    sheets after it; these are the records the same sheets yield in any
    workbook that reads them alike, whatever the failing sheet holds. *)
Theorem sheet_failure_isolated
        (amc : string) (xl : ExcelFile) (pre post : list string)
        (sheet : string) :
  scheme_sheets xl = pre ++ sheet :: post ->
  ((exists e, sheet_body amc xl sheet = Raise e) \/
   (exists df, read_raw xl sheet = Ok df /\ find_header_row df = None)) ->
  extract_holdings_from_sheet amc xl sheet = [] /\
  parse_excel_portfolios amc (Ok xl)
  = Some (flat_map (extract_holdings_from_sheet amc xl) pre
          ++ flat_map (extract_holdings_from_sheet amc xl) post) /\
  forall xl',
    Forall (Statements.same_sheet xl xl') (pre ++ post) ->
    parse_excel_portfolios amc (Ok xl)
    = Some (flat_map (extract_holdings_from_sheet amc xl') pre
            ++ flat_map (extract_holdings_from_sheet amc xl') post).
Proof.
  intros Hsheets Hfail.
  assert (Hnil : extract_holdings_from_sheet amc xl sheet = []).
  { unfold extract_holdings_from_sheet.
    destruct Hfail as [[e He]|(df & Hraw & Hnone)].
    - rewrite He. reflexivity.
    - unfold sheet_body. rewrite Hraw. cbn [bind]. rewrite Hnone. reflexivity. }
  assert (Hall : parse_excel_portfolios amc (Ok xl)
                 = Some (flat_map (extract_holdings_from_sheet amc xl) pre
                         ++ flat_map (extract_holdings_from_sheet amc xl) post)).
  { rewrite parse_excel_portfolios_flat, Hsheets, flat_map_app.
    cbn [flat_map]. rewrite Hnil. reflexivity. }
  split; [exact Hnil|]. split; [exact Hall|].
  intros xl' Hsame. apply Forall_app in Hsame. destruct Hsame as [Hpre Hpost].
  rewrite Hall, (flat_map_local amc xl xl' pre Hpre),
    (flat_map_local amc xl xl' post Hpost).
  reflexivity.
Qed.

Lemma sheet_failure_isolated_witness :
  extract_holdings_from_sheet "Axis Mutual Fund" Samples.sample_workbook "Broken"
  = [] /\
  parse_excel_portfolios "Axis Mutual Fund" (Ok Samples.sample_workbook)
  = Some (flat_map (extract_holdings_from_sheet "Axis Mutual Fund"
                      Samples.sample_workbook) ["Axis Bluechip Fund"]
          ++ flat_map (extract_holdings_from_sheet "Axis Mutual Fund"
                         Samples.sample_workbook) ["Axis Midcap Fund"]).
Proof.
  destruct (sheet_failure_isolated "Axis Mutual Fund" Samples.sample_workbook
              ["Axis Bluechip Fund"] ["Axis Midcap Fund"] "Broken")
    as (Hnil & Hall & _).
  - vm_compute. reflexivity.
  - left. exists (ReadError "bad sheet"). vm_compute. reflexivity.
  - split; [exact Hnil | exact Hall].
Defined.

End ExtractorProofs.

(* ================================================================== *)
(** ** Properties of the validator *)

Module ValidatorProofs.

Import Validator Statements.

(** *** Group keys *)

Lemma key_eqb_refl (k : Key) : key_eqb k k = true.
Proof.
  destruct k; simpl.
  - apply Qeq_bool_iff. reflexivity.
  - apply String.eqb_refl.
Qed.

Lemma key_eqb_sym (a b : Key) : key_eqb a b = key_eqb b a.
Proof.
  destruct a, b; simpl; try reflexivity.
  - apply eq_iff_eq_true. rewrite !Qeq_bool_iff. split; intros H; symmetry; exact H.
  - apply String.eqb_sym.
Qed.

Lemma key_eqb_trans (a b c : Key) :
  key_eqb a b = true -> key_eqb b c = true -> key_eqb a c = true.
Proof.
  destruct a, b, c; simpl; try discriminate.
  - rewrite !Qeq_bool_iff. intros H1 H2. rewrite H1. exact H2.
  - rewrite !String.eqb_eq. congruence.
Qed.


(** *** Grouping *)

















(** *** The tolerance band *)

Lemma Qltb_lt (x y : Q) : Qltb x y = true <-> (x < y)%Q.
Proof.
  unfold Qltb. rewrite negb_true_iff. split.
  - intros H. apply Qnot_le_lt. intros Hle.
    apply Qle_bool_iff in Hle. congruence.
  - intros H. destruct (Qle_bool y x) eqn:E; [|reflexivity].
    apply Qle_bool_iff in E. exfalso. apply (Qlt_not_le x y H E).
Qed.

Lemma unusual_spec (total : Q) :
  unusual total = true <-> (total < 95 \/ 105 < total)%Q.
Proof. unfold unusual. rewrite orb_true_iff, !Qltb_lt. reflexivity. Qed.

Lemma unusual_compat (a b : Q) : (a == b)%Q -> unusual a = unusual b.
Proof.
  intros H. apply eq_iff_eq_true. rewrite !unusual_spec, H. reflexivity.
Qed.



Lemma getitem_has_column (frame : DataFrame) (name : string) (col : Column) :
  getitem frame name = Ok col -> has_column frame name = true.
Proof.
  unfold has_column, columns.
  induction frame as [|[label c] rest IH]; cbn [getitem map existsb fst];
    [discriminate|].
  destruct (String.eqb name label); [reflexivity|]. exact IH.
Qed.

Lemma has_column_getitem (frame : DataFrame) (name : string) :
  has_column frame name = false -> getitem frame name = Raise KeyError.
Proof.
  unfold has_column, columns.
  induction frame as [|[label c] rest IH]; cbn [getitem map existsb fst];
    [reflexivity|].
  destruct (String.eqb name label); [discriminate|]. exact IH.
Qed.



Example two_schemes_outliers :
  map_result outlier_schemes (scheme_sums Samples.plain_sum Samples.two_schemes)
  = Ok [(KStr "Axis Midcap Fund", (0 + (70 # 1)) + (40 # 1))%Q].
Proof. vm_compute. reflexivity. Qed.

Example two_schemes_issue :
  map_result issues
    (check_portfolio_percentages
       Samples.plain_sum (init "consolidated.csv" Samples.two_schemes))
  = Ok [UnusualPortfolioSum 1].
Proof. vm_compute. reflexivity. Qed.

(** The example of the specification under the two binary64 summations:
    99.8 is inside the band, 110 is not. *)
Example two_schemes_binary64 :
  map_result (fun sums => map fst (outlier_schemes sums))
             (scheme_sums Binary64.left_to_right Samples.two_schemes)
  = Ok [KStr "Axis Midcap Fund"] /\
  map_result (fun sums => map fst (outlier_schemes sums))
             (scheme_sums Binary64.compensated Samples.two_schemes)
  = Ok [KStr "Axis Midcap Fund"].
Proof. split; vm_compute; reflexivity. Qed.

(** The groups come out sorted by key, whatever the order of the rows. *)
Example groups_sorted :
  map fst
      (groupby_sum Samples.plain_sum
         [(Some (KStr "Axis Midcap Fund"), Some (70 # 1));
          (None, Some (5 # 1));
          (Some (KStr "Axis Bluechip Fund"), None);
          (Some (KStr "Axis Midcap Fund"), Some (40 # 1))])
  = [KStr "Axis Bluechip Fund"; KStr "Axis Midcap Fund"].
Proof. vm_compute. reflexivity. Qed.

(** On a scheme whose percentages sum to 95, the outcome is the
    summation's: added one after the other in binary64 they give
    94.99999999999999 and the scheme is an outlier; the compensated
    summation gives 95.0, as the exact sum, and it is not. *)
Example at_the_bound_sums :
  map_result (map (fun group => Qred (snd group)))
             (scheme_sums Binary64.left_to_right Samples.at_the_bound)
  = Ok [(6685030696878079 # 70368744177664)%Q] /\
  map_result (map (fun group => Qred (snd group)))
             (scheme_sums Binary64.compensated Samples.at_the_bound)
  = Ok [inject_Z 95] /\
  map_result (map (fun group => Qred (snd group)))
             (scheme_sums Samples.plain_sum Samples.at_the_bound)
  = Ok [inject_Z 95].
Proof. repeat split; vm_compute; reflexivity. Qed.

Example at_the_bound_issues :
  map_result issues
    (check_portfolio_percentages
       Binary64.left_to_right (init "consolidated.csv" Samples.at_the_bound))
  = Ok [UnusualPortfolioSum 1] /\
  map_result issues
    (check_portfolio_percentages
       Binary64.compensated (init "consolidated.csv" Samples.at_the_bound))
  = Ok [].
Proof. split; vm_compute; reflexivity. Qed.


(** *** Runs of the validator *)

Lemma run_all_checks_checks (series_sum : Summation)
      (self : PortfolioDataValidator) :
  run_all_checks series_sum self
  = map_result (fun r => (r, print_summary r)) (checks series_sum self).
Proof.
  unfold run_all_checks, checks, check_missing_values.
  destruct (check_isin_format _) as [s2|e]; cbn [bind]; [|reflexivity].
  destruct (check_numeric_ranges _) as [s3|e]; cbn [bind]; [|reflexivity].
  destruct (check_portfolio_percentages _ _) as [s4|e]; cbn [bind];
    [|reflexivity].
  destruct (check_duplicates _) as [s5|e]; reflexivity.
Qed.

Section Rebase.

Variables (series_sum : Summation) (path : string) (before : list Issue).

Lemma append_issue_rebase (issue : Issue) (self : PortfolioDataValidator) :
  append_issue issue ((rebase path before) self) = (rebase path before) (append_issue issue self).
Proof. unfold append_issue, rebase. simpl. rewrite app_assoc. reflexivity. Qed.

Lemma report_rebase (n : nat) (issue : nat -> Issue)
      (self : PortfolioDataValidator) :
  report n issue ((rebase path before) self) = (rebase path before) (report n issue self).
Proof.
  unfold report. destruct (0 <? n); [apply append_issue_rebase | reflexivity].
Qed.

Lemma check_required_fields_rebase (self : PortfolioDataValidator) :
  check_required_fields ((rebase path before) self) = (rebase path before) (check_required_fields self).
Proof.
  unfold check_required_fields. cbn [rebase df].
  destruct (missing_fields (df self));
    [reflexivity | apply append_issue_rebase].
Qed.

Lemma check_isin_format_rebase : commutes path before check_isin_format.
Proof.
  intros self. unfold check_isin_format. cbn [rebase df].
  destruct (negb (has_column (df self) "isin")); [reflexivity|].
  destruct (getitem (df self) "isin") as [[cells|cells]|e]; cbn [bind map_result];
    [reflexivity | | reflexivity].
  rewrite report_rebase. reflexivity.
Qed.

Lemma check_percentage_range_rebase : commutes path before check_percentage_range.
Proof.
  intros self. unfold check_percentage_range. cbn [rebase df].
  destruct (has_column (df self) "percentage_of_portfolio"); [|reflexivity].
  destruct (getitem (df self) "percentage_of_portfolio") as [col|e];
    cbn [bind map_result]; [|reflexivity].
  destruct (numeric col) as [cells|e]; cbn [bind map_result]; [|reflexivity].
  rewrite report_rebase. reflexivity.
Qed.

Lemma check_market_value_rebase : commutes path before check_market_value.
Proof.
  intros self. unfold check_market_value. cbn [rebase df].
  destruct (has_column (df self) "market_value_lakhs"); [|reflexivity].
  destruct (getitem (df self) "market_value_lakhs") as [col|e];
    cbn [bind map_result]; [|reflexivity].
  destruct (numeric col) as [cells|e]; cbn [bind map_result]; [|reflexivity].
  rewrite report_rebase. reflexivity.
Qed.

Lemma bind_commutes
      (f g : PortfolioDataValidator -> result PortfolioDataValidator) :
  commutes path before f -> commutes path before g -> commutes path before (fun self => bind (f self) g).
Proof.
  intros Hf Hg self. rewrite Hf.
  destruct (f self) as [self1|e]; cbn [bind map_result];
    [apply Hg | reflexivity].
Qed.

Lemma check_numeric_ranges_rebase : commutes path before check_numeric_ranges.
Proof.
  apply (bind_commutes _ _ check_percentage_range_rebase
                       check_market_value_rebase).
Qed.

Lemma check_portfolio_percentages_rebase :
  commutes path before (check_portfolio_percentages series_sum).
Proof.
  intros self. unfold check_portfolio_percentages. cbn [rebase df].
  destruct (negb (has_column (df self) "percentage_of_portfolio"));
    [reflexivity|].
  destruct (scheme_sums series_sum (df self)) as [sums|e]; cbn [bind map_result];
    [|reflexivity].
  rewrite report_rebase. reflexivity.
Qed.

Lemma check_duplicates_rebase : commutes path before check_duplicates.
Proof.
  intros self. unfold check_duplicates. cbn [rebase df].
  destruct (getitem (df self) "scheme_name") as [scheme|e];
    cbn [bind map_result]; [|reflexivity].
  destruct (getitem (df self) "instrument_name") as [instrument|e];
    cbn [bind map_result]; [|reflexivity].
  rewrite report_rebase. reflexivity.
Qed.

Lemma checks_rebase : commutes path before (checks series_sum).
Proof.
  intros self. unfold checks. rewrite check_required_fields_rebase.
  apply (bind_commutes check_isin_format _ check_isin_format_rebase).
  apply (bind_commutes check_numeric_ranges _ check_numeric_ranges_rebase).
  apply (bind_commutes (check_portfolio_percentages series_sum) _
                       check_portfolio_percentages_rebase).
  exact check_duplicates_rebase.
Qed.

(** A run on the rebased object finds what the run on the object finds,
    and puts it after the issues already there. *)
Lemma run_all_checks_rebase (self : PortfolioDataValidator) :
  map_result fst (run_all_checks series_sum (rebase path before self))
  = map_result (fun r => rebase path before (fst r)) (run_all_checks series_sum self).
Proof.
  rewrite !run_all_checks_checks, checks_rebase.
  destruct (checks series_sum self); reflexivity.
Qed.

End Rebase.

Lemma run_all_checks_verdict (series_sum : Summation)
      (self r : PortfolioDataValidator) (v : Verdict) :
  run_all_checks series_sum self = Ok (r, v) -> v = print_summary r.
Proof.
  unfold run_all_checks, check_missing_values.
  destruct (check_isin_format _) as [s2|e]; cbn [bind]; [|discriminate].
  destruct (check_numeric_ranges _) as [s3|e]; cbn [bind]; [|discriminate].
  destruct (check_portfolio_percentages _ _) as [s4|e]; cbn [bind]; [|discriminate].
  destruct (check_duplicates _) as [s5|e]; cbn [bind]; [|discriminate].
  intros [= <- <-]. reflexivity.
Qed.

Lemma print_summary_passed (self : PortfolioDataValidator) :
  (print_summary self = PASSED <-> issues self = []) /\
  (print_summary self = NEEDS_REVIEW <-> issues self <> []).
Proof.
  unfold print_summary. destruct (issues self); simpl; split; split;
    congruence.
Qed.

(** A validator with no issue yet is the rebased fresh validator of its
    dataset. *)
Lemma fresh_rebase (self : PortfolioDataValidator) :
  issues self = [] ->
  self = rebase (csv_path self) [] (init "" (df self)).
Proof. destruct self as [p f i]. simpl. intros ->. reflexivity. Qed.

(** C9. Two validators built on the same dataset, each with an empty
    issue list, behave alike under [run_all_checks]: both raise the same
    exception, or both finish with the same issue list and the same
    verdict; and the verdict is PASSED exactly when that list is empty,
    NEEDS_REVIEW otherwise. *)
Theorem run_all_checks_deterministic (series_sum : Summation)
        (v1 v2 : PortfolioDataValidator) :
  df v1 = df v2 ->
  issues v1 = [] ->
  issues v2 = [] ->
  match run_all_checks series_sum v1, run_all_checks series_sum v2 with
  | Ok (r1, verdict1), Ok (r2, verdict2) =>
      issues r1 = issues r2 /\
      verdict1 = verdict2 /\
      (verdict1 = PASSED <-> issues r1 = []) /\
      (verdict1 = NEEDS_REVIEW <-> issues r1 <> [])
  | Raise e1, Raise e2 => e1 = e2
  | _, _ => False
  end.
Proof.
  intros Hdf H1 H2.
  assert (E1 : checks series_sum v1
               = map_result (rebase (csv_path v1) []) (checks series_sum (init "" (df v1)))).
  { rewrite <- checks_rebase. f_equal. apply fresh_rebase. exact H1. }
  assert (E2 : checks series_sum v2
               = map_result (rebase (csv_path v2) []) (checks series_sum (init "" (df v1)))).
  { rewrite <- checks_rebase. f_equal. rewrite Hdf. apply fresh_rebase.
    exact H2. }
  rewrite !run_all_checks_checks, E1, E2.
  destruct (checks series_sum (init "" (df v1))) as [r|e]; cbn [map_result];
    [|reflexivity].
  split; [reflexivity|]. split; [reflexivity|].
  apply print_summary_passed.
Qed.

Lemma run_all_checks_deterministic_witness :
  match run_all_checks Samples.plain_sum (init "consolidated.csv" Samples.flawed),
        run_all_checks Samples.plain_sum (init "copy.csv" Samples.flawed) with
  | Ok (r1, verdict1), Ok (r2, verdict2) =>
      issues r1 = issues r2 /\
      verdict1 = verdict2 /\
      (verdict1 = PASSED <-> issues r1 = []) /\
      (verdict1 = NEEDS_REVIEW <-> issues r1 <> [])
  | Raise e1, Raise e2 => e1 = e2
  | _, _ => False
  end.
Proof.
  apply (run_all_checks_deterministic
           Samples.plain_sum
           (init "consolidated.csv" Samples.flawed)
           (init "copy.csv" Samples.flawed));
    reflexivity.
Defined.

Example flawed_run :
  map_result (fun r => (issues (fst r), snd r))
             (run_all_checks Samples.plain_sum (init "consolidated.csv" Samples.flawed))
  = Ok ([MissingRequiredColumns ["amc_name"; "reporting_date"];
         InvalidIsinCodes 1; UnusualPortfolioSum 1; DuplicateHoldings 2],
        NEEDS_REVIEW).
Proof. vm_compute. reflexivity. Qed.

Example two_schemes_run :
  run_all_checks Samples.plain_sum (init "consolidated.csv" Samples.two_schemes) = Raise KeyError.
Proof. vm_compute. reflexivity. Qed.

(** The checks leave the dataset and the path as they are. *)
Lemma report_frame (n : nat) (issue : nat -> Issue)
      (self : PortfolioDataValidator) :
  df (report n issue self) = df self /\
  csv_path (report n issue self) = csv_path self.
Proof. unfold report. destruct (0 <? n); split; reflexivity. Qed.

Lemma checks_frame (series_sum : Summation) (self r : PortfolioDataValidator) :
  checks series_sum self = Ok r -> df r = df self /\ csv_path r = csv_path self.
Proof.
  unfold checks.
  assert (H0 : df (check_required_fields self) = df self /\
               csv_path (check_required_fields self) = csv_path self).
  { unfold check_required_fields. destruct (missing_fields _); split;
      reflexivity. }
  revert H0. generalize (check_required_fields self). intros s1 [D1 P1].
  assert (Hisin : forall s2, check_isin_format s1 = Ok s2 ->
                             df s2 = df s1 /\ csv_path s2 = csv_path s1).
  { intros s2. unfold check_isin_format. destruct (negb _).
    - intros [= <-]. split; reflexivity.
    - destruct (getitem _ _) as [[cells|cells]|e]; cbn [bind];
        try discriminate.
      intros [= <-]. apply report_frame. }
  assert (Hpct : forall s s', check_percentage_range s = Ok s' ->
                              df s' = df s /\ csv_path s' = csv_path s).
  { intros s s'. unfold check_percentage_range.
    destruct (has_column _ _); [|intros [= <-]; split; reflexivity].
    destruct (getitem _ _) as [col|e]; cbn [bind]; [|discriminate].
    destruct (numeric col) as [cells|e]; cbn [bind]; [|discriminate].
    intros [= <-]. apply report_frame. }
  assert (Hmv : forall s s', check_market_value s = Ok s' ->
                             df s' = df s /\ csv_path s' = csv_path s).
  { intros s s'. unfold check_market_value.
    destruct (has_column _ _); [|intros [= <-]; split; reflexivity].
    destruct (getitem _ _) as [col|e]; cbn [bind]; [|discriminate].
    destruct (numeric col) as [cells|e]; cbn [bind]; [|discriminate].
    intros [= <-]. apply report_frame. }
  assert (Hsum : forall s s', check_portfolio_percentages series_sum s = Ok s' ->
                              df s' = df s /\ csv_path s' = csv_path s).
  { intros s s'. unfold check_portfolio_percentages.
    destruct (negb _); [intros [= <-]; split; reflexivity|].
    destruct (scheme_sums _ _) as [sums|e]; cbn [bind]; [|discriminate].
    intros [= <-]. apply report_frame. }
  assert (Hdup : forall s s', check_duplicates s = Ok s' ->
                              df s' = df s /\ csv_path s' = csv_path s).
  { intros s s'. unfold check_duplicates.
    destruct (getitem _ "scheme_name") as [a|e]; cbn [bind]; [|discriminate].
    destruct (getitem _ "instrument_name") as [b|e]; cbn [bind];
      [|discriminate].
    intros [= <-]. apply report_frame. }
  destruct (check_isin_format s1) as [s2|e] eqn:E2; cbn [bind]; [|discriminate].
  unfold check_numeric_ranges.
  destruct (check_percentage_range s2) as [s3|e] eqn:E3; cbn [bind];
    [|discriminate].
  destruct (check_market_value s3) as [s3'|e] eqn:E3'; cbn [bind];
    [|discriminate].
  destruct (check_portfolio_percentages series_sum s3') as [s4|e] eqn:E4; cbn [bind];
    [|discriminate].
  intros E5.
  destruct (Hisin _ eq_refl), (Hpct _ _ E3), (Hmv _ _ E3'), (Hsum _ _ E4),
    (Hdup _ _ E5).
  split; congruence.
Qed.

(** X20. A second run on the same validator object does not start from an
    empty list: the issues of the first run are still there, and the second
    run finds them again, so every issue is listed twice. *)
Lemma run_all_checks_twice (series_sum : Summation)
      (self r : PortfolioDataValidator) (v : Verdict) :
  issues self = [] ->
  run_all_checks series_sum self = Ok (r, v) ->
  exists r', map_result fst (run_all_checks series_sum r) = Ok r' /\
             issues r' = issues r ++ issues r.
Proof.
  intros Hfresh Hrun. rewrite run_all_checks_checks in Hrun.
  destruct (checks series_sum self) as [r0|e] eqn:E; cbn [map_result] in Hrun;
    [|discriminate].
  injection Hrun as <- _.
  destruct (checks_frame _ _ _ E) as [Hd Hp].
  assert (Er : r0 = rebase (csv_path self) (issues r0) self).
  { destruct r0 as [p f i], self as [p' f' i']. simpl in *. subst.
    unfold rebase. simpl. rewrite app_nil_r. reflexivity. }
  exists (rebase (csv_path self) (issues r0) r0). split.
  - rewrite Er at 1. rewrite run_all_checks_rebase, run_all_checks_checks, E.
    reflexivity.
  - reflexivity.
Qed.

(** *** Optional columns *)

Lemma report_issues (n : nat) (issue : nat -> Issue)
      (self : PortfolioDataValidator) (i : Issue) :
  In i (issues (report n issue self)) -> In i (issues self) \/ i = issue n.
Proof.
  unfold report. destruct (0 <? n); [|auto].
  cbn [append_issue issues]. intros H. apply in_app_or in H.
  destruct H as [H|[H|[]]]; auto.
Qed.

Lemma check_required_fields_issue (self : PortfolioDataValidator) :
  (missing_fields (df self) = [] -> check_required_fields self = self) /\
  (missing_fields (df self) <> [] ->
   check_required_fields self
   = append_issue (MissingRequiredColumns (missing_fields (df self))) self) /\
  (forall f, In f (missing_fields (df self)) <->
             In f required_fields /\ has_column (df self) f = false).
Proof.
  unfold check_required_fields. split; [|split].
  - intros ->. reflexivity.
  - destruct (missing_fields (df self)); [congruence | reflexivity].
  - intros f. unfold missing_fields. rewrite filter_In, negb_true_iff.
    reflexivity.
Qed.

(** C10. A dataset without the [isin] column gets no issue from the ISIN
    check; without [percentage_of_portfolio], none from the percentage
    range block and none from the portfolio sum check; without
    [market_value_lakhs], none from the market value block. The
    missing-column issue lists required fields only, and a dataset with the
    five required columns alone finishes PASSED. *)
Theorem optional_columns_not_required (series_sum : Summation) :
  (forall self,
      has_column (df self) "isin" = false ->
      check_isin_format self = Ok self) /\
  (forall self,
      has_column (df self) "percentage_of_portfolio" = false ->
      check_percentage_range self = Ok self /\
      check_numeric_ranges self = check_market_value self /\
      (forall r n, check_numeric_ranges self = Ok r ->
                   In (InvalidPercentage n) (issues r) ->
                   In (InvalidPercentage n) (issues self)) /\
      check_portfolio_percentages series_sum self = Ok self) /\
  (forall self,
      has_column (df self) "market_value_lakhs" = false ->
      check_market_value self = Ok self /\
      check_numeric_ranges self = check_percentage_range self /\
      (forall r n, check_numeric_ranges self = Ok r ->
                   In (NegativeValue n) (issues r) ->
                   In (NegativeValue n) (issues self))) /\
  (forall self missing,
      In (MissingRequiredColumns missing)
         (issues (check_required_fields self)) ->
      In (MissingRequiredColumns missing) (issues self) \/
      (missing <> [] /\
       forall f, In f missing <->
                 In f required_fields /\ has_column (df self) f = false)) /\
  (columns Samples.five_columns = required_fields /\
   exists r, run_all_checks series_sum (init "consolidated.csv" Samples.five_columns)
             = Ok (r, PASSED) /\ issues r = []).
Proof.
  split; [|split; [|split; [|split]]].
  - intros self H. unfold check_isin_format. rewrite H. reflexivity.
  - intros self H.
    assert (Hp : check_percentage_range self = Ok self).
    { unfold check_percentage_range. rewrite H. reflexivity. }
    assert (Hn : check_numeric_ranges self = check_market_value self).
    { unfold check_numeric_ranges. rewrite Hp. reflexivity. }
    split; [exact Hp|]. split; [exact Hn|]. split.
    + intros r n Hr Hin. rewrite Hn in Hr. unfold check_market_value in Hr.
      destruct (has_column (df self) "market_value_lakhs");
        [|injection Hr as <-; exact Hin].
      destruct (getitem _ _) as [col|e]; cbn [bind] in Hr; [|discriminate].
      destruct (numeric col) as [cells|e]; cbn [bind] in Hr; [|discriminate].
      injection Hr as <-. apply report_issues in Hin.
      destruct Hin as [Hin|Hin]; [exact Hin | discriminate].
    + unfold check_portfolio_percentages. rewrite H. reflexivity.
  - intros self H.
    assert (Hm : forall s, df s = df self -> check_market_value s = Ok s).
    { intros s Hs. unfold check_market_value. rewrite Hs, H. reflexivity. }
    assert (Hn : check_numeric_ranges self = check_percentage_range self).
    { unfold check_numeric_ranges.
      destruct (check_percentage_range self) as [s|e] eqn:E; cbn [bind];
        [|reflexivity].
      apply Hm. unfold check_percentage_range in E.
      destruct (has_column (df self) "percentage_of_portfolio");
        [|injection E as <-; reflexivity].
      destruct (getitem _ _) as [col|e]; cbn [bind] in E; [|discriminate].
      destruct (numeric col) as [cells|e]; cbn [bind] in E; [|discriminate].
      injection E as <-. apply report_frame. }
    split; [apply Hm; reflexivity|]. split; [exact Hn|].
    intros r n Hr Hin. rewrite Hn in Hr. unfold check_percentage_range in Hr.
    destruct (has_column (df self) "percentage_of_portfolio");
      [|injection Hr as <-; exact Hin].
    destruct (getitem _ _) as [col|e]; cbn [bind] in Hr; [|discriminate].
    destruct (numeric col) as [cells|e]; cbn [bind] in Hr; [|discriminate].
    injection Hr as <-. apply report_issues in Hin.
    destruct Hin as [Hin|Hin]; [exact Hin | discriminate].
  - intros self missing Hin.
    destruct (check_required_fields_issue self) as (Hnone & Hsome & Hlist).
    destruct (missing_fields (df self)) as [|f0 rest] eqn:E.
    + rewrite Hnone in Hin by reflexivity. left. exact Hin.
    + rewrite Hsome in Hin by discriminate.
      cbn [append_issue issues] in Hin. apply in_app_or in Hin.
      destruct Hin as [Hin|[Hin|[]]]; [left; exact Hin|].
      injection Hin as <-. right. split; [discriminate | exact Hlist].
  - split; [reflexivity|]. eexists. split; vm_compute; reflexivity.
Qed.

Lemma optional_columns_not_required_witness :
  check_isin_format (init "consolidated.csv" Samples.five_columns)
  = Ok (init "consolidated.csv" Samples.five_columns) /\
  check_portfolio_percentages Samples.plain_sum (init "consolidated.csv" Samples.five_columns)
  = Ok (init "consolidated.csv" Samples.five_columns) /\
  check_market_value (init "consolidated.csv" Samples.five_columns)
  = Ok (init "consolidated.csv" Samples.five_columns).
Proof.
  destruct (optional_columns_not_required Samples.plain_sum) as (Hisin & Hpct & Hmv & _).
  split; [apply Hisin; reflexivity|]. split.
  - apply (Hpct (init "consolidated.csv" Samples.five_columns)). reflexivity.
  - apply (Hmv (init "consolidated.csv" Samples.five_columns)). reflexivity.
Defined.

End ValidatorProofs.

(* ================================================================== *)
(** ** Further properties of the row extractor and the sheet processor *)

Module ExtractorExtras.

Import PyStr Scraper MoreStatements.

(** *** Repeated column labels *)

Lemma label_dec (a b : Label) : {a = b} + {a <> b}.
Proof. decide equality. apply string_dec. Defined.

Lemma label_eqb_eq (a b : Label) : label_eqb a b = true <-> a = b.
Proof.
  destruct a as [s|], b as [t|]; cbn [label_eqb];
    try (split; [discriminate | intros H; discriminate H]);
    [|split; reflexivity].
  rewrite String.eqb_eq. split; [intros ->; reflexivity | intros [= ->]; reflexivity].
Qed.

Lemma getitem_occurrences (row : Row) (col : Label) :
  match occurrences row col with
  | 0 => getitem row col = Raise KeyError
  | 1 => exists value, getitem row col = Ok value
  | _ => getitem row col = Raise ValueError
  end.
Proof.
  unfold occurrences, getitem.
  destruct (filter _ row) as [|[l v] [|e rest]]; cbn [length]; eauto.
Qed.

Lemma occurrences_index (row : Row) (col : Label) :
  occurrences row col = count_occ label_dec (index row) col.
Proof.
  unfold occurrences, index.
  induction row as [|[l v] rest IH]; cbn [filter map count_occ fst];
    [reflexivity|].
  destruct (label_dec l col) as [->|Hne].
  - rewrite (proj2 (label_eqb_eq col col) eq_refl). cbn [length].
    rewrite IH. reflexivity.
  - destruct (label_eqb l col) eqn:E; [|exact IH].
    apply label_eqb_eq in E. contradiction.
Qed.

Lemma repeated_label (l : list Label) :
  ~ NoDup l -> exists x, In x l /\ 2 <= count_occ label_dec l x.
Proof.
  induction l as [|a rest IH]; intros Hdup.
  - exfalso. apply Hdup. constructor.
  - destruct (in_dec label_dec a rest) as [Hin|Hout].
    + exists a. split; [left; reflexivity|].
      cbn [count_occ]. destruct (label_dec a a); [|congruence].
      apply (count_occ_In label_dec) in Hin. lia.
    + destruct IH as (x & Hx & Hc).
      { intros Hnd. apply Hdup. constructor; assumption. }
      exists x. split; [right; exact Hx|].
      cbn [count_occ]. destruct (label_dec a x); lia.
Qed.

Lemma fill_fields_distinct (row : Row) : forall labels h,
  NoDup (index row) -> incl labels (index row) ->
  exists h', fill_fields row labels h = Ok h'.
Proof.
  induction labels as [|col rest IH]; intros h Hnd Hincl; cbn [fill_fields].
  - eauto.
  - assert (Hin : In col (index row)) by (apply Hincl; left; reflexivity).
    assert (Hrest : incl rest (index row))
      by (intros x Hx; apply Hincl; right; exact Hx).
    pose proof (getitem_occurrences row col) as Hget.
    rewrite occurrences_index in Hget.
    pose proof (proj1 (NoDup_count_occ label_dec (index row)) Hnd col) as Hle.
    apply (count_occ_In label_dec) in Hin.
    destruct (count_occ label_dec (index row) col) as [|[|n]]; try lia.
    destruct Hget as [value ->]. cbn [bind].
    destruct (isna value); apply IH; assumption.
Qed.

Lemma fill_fields_repeated (row : Row) : forall labels h,
  incl labels (index row) ->
  (exists col, In col labels /\ 2 <= count_occ label_dec (index row) col) ->
  fill_fields row labels h = Raise ValueError.
Proof.
  induction labels as [|col rest IH]; intros h Hincl (bad & Hbad & Hcount).
  - destruct Hbad.
  - cbn [fill_fields].
    assert (Hin : In col (index row)) by (apply Hincl; left; reflexivity).
    assert (Hrest : incl rest (index row))
      by (intros x Hx; apply Hincl; right; exact Hx).
    pose proof (getitem_occurrences row col) as Hget.
    rewrite occurrences_index in Hget.
    apply (count_occ_In label_dec) in Hin.
    destruct (count_occ label_dec (index row) col) as [|[|n]] eqn:E;
      try lia.
    + destruct Hget as [value ->]. cbn [bind].
      assert (Hnext : exists col', In col' rest /\
                        2 <= count_occ label_dec (index row) col').
      { exists bad. split; [|exact Hcount].
        destruct Hbad as [<-|Hbad]; [lia | exact Hbad]. }
      destruct (isna value); apply IH; assumption.
    + rewrite Hget. reflexivity.
Qed.

Lemma extract_holding_from_row_repeated
      (amc : string) (row : Row) (scheme : string) (type : InstrumentType)
      (date : string) :
  has_value row = true -> ~ NoDup (index row) ->
  extract_holding_from_row amc row scheme type date = Raise ValueError.
Proof.
  unfold extract_holding_from_row, has_value. intros Hvalue Hdup.
  apply negb_true_iff in Hvalue. rewrite Hvalue.
  rewrite (fill_fields_repeated row (index row)
             (new_holding amc scheme type date) (incl_refl _)
             (repeated_label _ Hdup)).
  reflexivity.
Qed.

(** X1. [extract_holding_from_row] raises exactly on a row that has a
    value and a label that occurs more than once, and what it raises is
    [ValueError]; on every other row it returns a record or [None]. *)
Theorem extract_holding_from_row_raises
        (amc : string) (row : Row) (scheme : string) (type : InstrumentType)
        (date : string) :
  (extract_holding_from_row amc row scheme type date = Raise ValueError <->
   has_value row = true /\ ~ NoDup (index row)) /\
  (forall e, extract_holding_from_row amc row scheme type date = Raise e ->
             e = ValueError) /\
  (has_value row = false \/ NoDup (index row) ->
   exists outcome,
     extract_holding_from_row amc row scheme type date = Ok outcome).
Proof.
  unfold extract_holding_from_row, has_value.
  destruct (forallb isna (values row)) eqn:Hna; cbn [negb].
  - split; [|split].
    + split; [discriminate | intros [H _]; discriminate].
    + discriminate.
    + intros _. eauto.
  - destruct (ListDec.NoDup_dec label_dec (index row)) as [Hnd|Hdup].
    + destruct (fill_fields_distinct row (index row)
                  (new_holding amc scheme type date) Hnd (incl_refl _))
        as [h' ->].
      cbn [bind]. split; [|split].
      * split; [discriminate | intros [_ H]; contradiction].
      * discriminate.
      * intros _. eauto.
    + rewrite (fill_fields_repeated row (index row)
                 (new_holding amc scheme type date) (incl_refl _)
                 (repeated_label _ Hdup)).
      cbn [bind]. split; [|split].
      * split; [intros _; split; [reflexivity | exact Hdup] | reflexivity].
      * intros e [= <-]. reflexivity.
      * intros [H|H]; [discriminate | contradiction].
Qed.

Lemma extract_holding_from_row_raises_witness :
  exists outcome,
    extract_holding_from_row "Axis Mutual Fund"
      [(Some "name", Value "Infosys Ltd" None); (Some "isin", NaN)]
      "Axis Bluechip Fund" Equity "2025-12-31" = Ok outcome.
Proof.
  apply (proj2 (proj2 (extract_holding_from_row_raises "Axis Mutual Fund"
           [(Some "name", Value "Infosys Ltd" None); (Some "isin", NaN)]
           "Axis Bluechip Fund" Equity "2025-12-31"))).
  right. repeat constructor; simpl; intuition discriminate.
Defined.

Example repeated_name_column :
  extract_holding_from_row "Axis Mutual Fund"
    (clean_columns [(Some "Name", Value "Infosys Ltd" None);
                    (Some "name ", Value "Infosys" None)])
    "Axis Bluechip Fund" Equity "2025-12-31" = Raise ValueError.
Proof. vm_compute. reflexivity. Qed.

(** A label that is not text is NaN once cleaned: alone it gives no field,
    and two of them are one label twice. *)
Example one_number_column :
  extract_holding_from_row "Axis Mutual Fund"
    (clean_columns [(Some "Name", Value "Infosys Ltd" None);
                    (None, Value "2025" (Some (2025 # 1)))])
    "Axis Bluechip Fund" Equity "2025-12-31"
  = Ok (Some (set_instrument_name "Infosys Ltd"
                (new_holding "Axis Mutual Fund" "Axis Bluechip Fund" Equity
                             "2025-12-31"))).
Proof. vm_compute. reflexivity. Qed.

Example two_number_columns :
  extract_holding_from_row "Axis Mutual Fund"
    (clean_columns [(Some "Name", Value "Infosys Ltd" None);
                    (None, Value "2024" (Some (2024 # 1)));
                    (None, Value "2025" (Some (2025 # 1)))])
    "Axis Bluechip Fund" Equity "2025-12-31" = Raise ValueError.
Proof. vm_compute. reflexivity. Qed.

(** *** Invariants of the loops *)

Section Invariants.

Variables (amc sheet_name date : string).

(** A property of the running section [Q] and a property of records [P]:
    when every classification gives a section with [Q], and every record
    extracted under a section with [Q] has [P], the records of
    [stream_rows] have [P]. *)
Lemma stream_rows_invariant
      (Q : InstrumentType -> Prop) (P : Holding -> Prop) :
  (forall row type, classify_instrument_type (values row) = Ok type -> Q type) ->
  (forall row type h,
      Q type ->
      extract_holding_from_row amc row sheet_name type date = Ok (Some h) ->
      P h) ->
  forall rows type acc hs,
    Q type -> Forall P acc ->
    stream_rows amc sheet_name date rows type acc = Ok hs ->
    Forall P hs.
Proof.
  intros Hclass Hextract.
  induction rows as [|row rest IH]; intros type acc hs Hq Hacc;
    cbn [stream_rows].
  - intros [= <-]. exact Hacc.
  - destruct (is_section_header (values row)) as [[|]|e]; cbn [bind];
      [| |discriminate].
    + destruct (classify_instrument_type (values row)) as [type'|e] eqn:C;
        cbn [bind]; [|discriminate].
      apply IH; [apply (Hclass row); exact C | exact Hacc].
    + destruct (extract_holding_from_row _ _ _ _ _) as [[h|]|e] eqn:E;
        cbn [bind]; [| |discriminate].
      * apply IH; [exact Hq|]. apply Forall_app. split; [exact Hacc|].
        constructor; [|constructor]. apply (Hextract row type h Hq E).
      * apply IH; assumption.
Qed.

End Invariants.

Lemma fill_fields_invariant (P : Holding -> Prop) (row : Row) :
  (forall col value h, P h -> P (assign_field col value h)) ->
  forall labels h h',
    P h -> fill_fields row labels h = Ok h' -> P h'.
Proof.
  intros Hstep.
  induction labels as [|col rest IH]; intros h h' Hp; cbn [fill_fields].
  - intros [= <-]. exact Hp.
  - destruct (getitem row col) as [value|e]; cbn [bind]; [|discriminate].
    destruct (isna value); apply IH; [exact Hp | apply Hstep; exact Hp].
Qed.

Lemma extract_holding_from_row_invariant
      (P : Holding -> Prop) (amc : string) (row : Row) (scheme : string)
      (type : InstrumentType) (date : string) (h : Holding) :
  (forall col value h, P h -> P (assign_field col value h)) ->
  P (new_holding amc scheme type date) ->
  extract_holding_from_row amc row scheme type date = Ok (Some h) ->
  P h.
Proof.
  intros Hstep Hnew. unfold extract_holding_from_row.
  destruct (forallb isna (values row)); [discriminate|].
  destruct (fill_fields _ _ _) as [h0|e] eqn:F; cbn [bind]; [|discriminate].
  intros [= K]. apply ExtractorProofs.keep_holding_some in K.
  destruct K as [-> _].
  apply (fill_fields_invariant P row Hstep _ _ _ Hnew F).
Qed.

Lemma assign_field_in_context
      (amc scheme : string) (type : InstrumentType) (date : string)
      (col : string) (value : Cell) (h : Holding) :
  in_context amc scheme type date h ->
  in_context amc scheme type date (assign_field col value h).
Proof.
  unfold in_context, assign_field. intros H. repeat case_if; exact H.
Qed.

Lemma extract_holding_from_row_in_context
      (amc : string) (row : Row) (scheme : string) (type : InstrumentType)
      (date : string) (h : Holding) :
  extract_holding_from_row amc row scheme type date = Ok (Some h) ->
  in_context amc scheme type date h.
Proof.
  apply extract_holding_from_row_invariant.
  - intros col value h0. apply assign_field_in_context.
  - repeat split.
Qed.

(** A property that every extracted record of the sheet has, whatever the
    section, holds for the records of the sheet. *)
Lemma extract_holdings_from_sheet_Forall
      (P : Holding -> Prop) (amc : string) (xl : ExcelFile)
      (sheet_name : string) :
  (forall row type h,
      extract_holding_from_row amc row sheet_name type "2025-12-31"
      = Ok (Some h) -> P h) ->
  Forall P (extract_holdings_from_sheet amc xl sheet_name).
Proof.
  intros Hextract. unfold extract_holdings_from_sheet, sheet_body.
  destruct (read_raw xl sheet_name) as [df|e]; cbn [bind]; [|constructor].
  destruct (find_header_row df) as [idx|]; [|constructor].
  destruct (read_header xl sheet_name idx) as [table|e]; cbn [bind];
    [|constructor].
  assert (Hdate : find_reporting_date df = "2025-12-31").
  { unfold find_reporting_date.
    destruct (scan_date_rows _) as [d|] eqn:E; [|reflexivity].
    apply (ClassifierProofs.scan_date_rows_some _ _ E). }
  rewrite Hdate.
  destruct (stream_rows _ _ _ _ _ _) as [hs|e] eqn:S; [|constructor].
  apply (stream_rows_invariant amc sheet_name "2025-12-31"
           (fun _ => True) P (fun _ _ _ => I)
           (fun row type h _ => Hextract row type h)
           _ _ _ _ I (Forall_nil _) S).
Qed.

Lemma dataset_member (amc : string) (excel : result ExcelFile)
      (dataset : list Holding) (h : Holding) :
  parse_excel_portfolios amc excel = Some dataset ->
  In h dataset ->
  exists xl sheet,
    excel = Ok xl /\ In sheet (scheme_sheets xl) /\
    In h (extract_holdings_from_sheet amc xl sheet).
Proof.
  destruct excel as [xl|e]; [|discriminate].
  rewrite ExtractorProofs.parse_excel_portfolios_flat. intros [= <-] Hin.
  apply in_flat_map in Hin. destruct Hin as (sheet & Hsheet & Hin).
  exists xl, sheet. auto.
Qed.

(** X2. Every record of the dataset carries the name of the fund house
    given to the scraper and the reporting date "2025-12-31". *)
Theorem dataset_context
        (amc : string) (excel : result ExcelFile) (dataset : list Holding)
        (h : Holding) :
  parse_excel_portfolios amc excel = Some dataset ->
  In h dataset ->
  amc_name h = amc /\ reporting_date h = "2025-12-31".
Proof.
  intros Hparse Hin.
  destruct (dataset_member _ _ _ _ Hparse Hin) as (xl & sheet & _ & _ & Hh).
  pose proof (extract_holdings_from_sheet_Forall
                (fun h => amc_name h = amc /\ reporting_date h = "2025-12-31")
                amc xl sheet) as Hall.
  rewrite Forall_forall in Hall. apply Hall; [|exact Hh].
  intros row type h0 E.
  apply extract_holding_from_row_in_context in E.
  destruct E as (Ha & _ & _ & Hd). auto.
Qed.

Lemma dataset_context_witness :
  amc_name (Samples.reliance "Axis Midcap Fund") = "Axis Mutual Fund" /\
  reporting_date (Samples.reliance "Axis Midcap Fund") = "2025-12-31".
Proof.
  apply (dataset_context "Axis Mutual Fund" (Ok Samples.sample_workbook)
           [Samples.reliance "Axis Bluechip Fund";
            Samples.reliance "Axis Midcap Fund"]).
  - vm_compute. reflexivity.
  - right. left. reflexivity.
Defined.

(** X3. No record of the dataset comes from a sheet whose lower-cased name
    holds "index", "summary", "contents", "note" or "disclaimer": such a
    sheet is left out whatever it holds. *)
Theorem skipped_sheets_excluded
        (amc : string) (excel : result ExcelFile) (dataset : list Holding)
        (h : Holding) :
  parse_excel_portfolios amc excel = Some dataset ->
  In h dataset ->
  forall keyword, In keyword sheet_skip_keywords ->
                  contains keyword (lower (scheme_name h)) = false.
Proof.
  intros Hparse Hin.
  destruct (dataset_member _ _ _ _ Hparse Hin) as (xl & sheet & _ & Hs & Hh).
  pose proof (ExtractorProofs.extract_holdings_from_sheet_valid amc xl sheet)
    as Hall.
  rewrite Forall_forall in Hall. destruct (Hall h Hh) as [-> _].
  unfold scheme_sheets in Hs. apply filter_In in Hs. destruct Hs as [_ Hs].
  apply negb_true_iff in Hs. unfold any_in in Hs.
  apply (proj1 (ClassifierProofs.existsb_false _ _) Hs).
Qed.

Lemma skipped_sheets_excluded_witness :
  contains "index"
    (lower (scheme_name (Samples.reliance "Axis Bluechip Fund"))) = false.
Proof.
  apply (skipped_sheets_excluded "Axis Mutual Fund"
           (Ok Samples.sample_workbook)
           [Samples.reliance "Axis Bluechip Fund";
            Samples.reliance "Axis Midcap Fund"]
           (Samples.reliance "Axis Bluechip Fund")).
  - vm_compute. reflexivity.
  - left. reflexivity.
  - left. reflexivity.
Defined.

(** X4. Consolidation goes sheet by sheet: when the sheet list of a
    workbook is split in two, the dataset of the workbook is the dataset of
    the first part followed by the dataset of the second part. *)
Theorem consolidation_splits
        (amc : string) (xl : ExcelFile) (first second : list string) :
  sheet_names xl = first ++ second ->
  exists d1 d2,
    parse_excel_portfolios amc (Ok (with_sheets xl first)) = Some d1 /\
    parse_excel_portfolios amc (Ok (with_sheets xl second)) = Some d2 /\
    parse_excel_portfolios amc (Ok xl) = Some (d1 ++ d2).
Proof.
  intros Hnames.
  rewrite !ExtractorProofs.parse_excel_portfolios_flat.
  do 2 eexists. split; [reflexivity|]. split; [reflexivity|].
  unfold scheme_sheets. rewrite Hnames. cbn [with_sheets sheet_names].
  rewrite filter_app, flat_map_app. reflexivity.
Qed.

Lemma consolidation_splits_witness :
  exists d1 d2,
    parse_excel_portfolios "Axis Mutual Fund"
      (Ok (with_sheets Samples.sample_workbook ["Index"; "Axis Bluechip Fund"]))
    = Some d1 /\
    parse_excel_portfolios "Axis Mutual Fund"
      (Ok (with_sheets Samples.sample_workbook ["Broken"; "Axis Midcap Fund"]))
    = Some d2 /\
    parse_excel_portfolios "Axis Mutual Fund" (Ok Samples.sample_workbook)
    = Some (d1 ++ d2).
Proof.
  apply (consolidation_splits "Axis Mutual Fund" Samples.sample_workbook
           ["Index"; "Axis Bluechip Fund"] ["Broken"; "Axis Midcap Fund"]).
  reflexivity.
Defined.

(** *** A sheet with a repeated column name *)

Lemma values_clean_columns (row : Row) : values (clean_columns row) = values row.
Proof.
  unfold values, clean_columns. rewrite map_map. reflexivity.
Qed.

Lemma stream_rows_repeated_label (amc sheet_name date : string) (bad : Row) :
  has_value bad = true ->
  ~ NoDup (index bad) ->
  is_section_header (values bad) <> Ok true ->
  forall rows type acc,
    In bad rows ->
    exists e, stream_rows amc sheet_name date rows type acc = Raise e.
Proof.
  intros Hvalue Hdup Hbanner.
  induction rows as [|row rest IH]; intros type acc Hin; [destruct Hin|].
  cbn [stream_rows].
  destruct Hin as [->|Hin].
  - destruct (is_section_header (values bad)) as [[|]|e]; cbn [bind];
      [congruence | | eauto].
    rewrite (extract_holding_from_row_repeated amc bad sheet_name type date
               Hvalue Hdup).
    cbn [bind]. eauto.
  - destruct (is_section_header (values row)) as [[|]|e]; cbn [bind];
      [| |eauto].
    + destruct (classify_instrument_type (values row)) as [type'|e];
        cbn [bind]; [apply IH; exact Hin | eauto].
    + destruct (extract_holding_from_row _ _ _ _ _) as [[h|]|e];
        cbn [bind]; [apply IH; exact Hin | apply IH; exact Hin | eauto].
Qed.

(** X5. When a row of a sheet has a value, is not a banner, and carries the
    same cleaned column name twice, the sheet yields no record at all: the
    row raises, and the records collected before it are dropped with it. *)
Theorem repeated_column_empties_sheet
        (amc : string) (xl : ExcelFile) (sheet_name : string)
        (df : Grid) (idx : nat) (table : list Row) (row : Row) :
  read_raw xl sheet_name = Ok df ->
  find_header_row df = Some idx ->
  read_header xl sheet_name idx = Ok table ->
  In row table ->
  has_value row = true ->
  ~ NoDup (index (clean_columns row)) ->
  is_section_header (values row) <> Ok true ->
  extract_holdings_from_sheet amc xl sheet_name = [].
Proof.
  intros Hraw Hidx Htable Hin Hvalue Hdup Hbanner.
  unfold extract_holdings_from_sheet, sheet_body.
  rewrite Hraw. cbn [bind]. rewrite Hidx, Htable. cbn [bind].
  destruct (stream_rows_repeated_label amc sheet_name
              (find_reporting_date df) (clean_columns row)) with
    (rows := map clean_columns table) (type := Unknown)
    (acc := @nil Holding) as [e ->].
  - unfold has_value. rewrite values_clean_columns. exact Hvalue.
  - exact Hdup.
  - rewrite values_clean_columns. exact Hbanner.
  - apply in_map. exact Hin.
  - reflexivity.
Qed.

Lemma repeated_column_empties_sheet_witness :
  extract_holdings_from_sheet "Axis Mutual Fund" Samples.repeated_workbook
    "Axis Bluechip Fund" = [].
Proof.
  apply (repeated_column_empties_sheet "Axis Mutual Fund"
           Samples.repeated_workbook "Axis Bluechip Fund"
           Samples.repeated_grid 0
           (Samples.repeated_rows 0)
           [(Some "Name", Samples.text "Infosys Ltd");
            (Some "ISIN", Samples.text "INE009A01021");
            (Some "name ", Samples.text "Infosys")]).
  - reflexivity.
  - vm_compute. reflexivity.
  - reflexivity.
  - right. left. reflexivity.
  - reflexivity.
  - intros H. inversion H as [|? ? Hnot _]; subst. apply Hnot.
    vm_compute. right. left. reflexivity.
  - vm_compute. discriminate.
Defined.

(** *** The section of a record *)

(** X6. Once the running section is not Unknown it never becomes Unknown
    again: from such a section on, [stream_rows] adds no record of type
    Unknown. Unknown is the type of the records met before the first
    banner only. *)
Theorem unknown_only_before_first_banner
        (amc sheet_name date : string) (rows : list Row)
        (type : InstrumentType) (acc hs : list Holding) :
  type <> Unknown ->
  Forall (fun h => instrument_type h <> Unknown) acc ->
  stream_rows amc sheet_name date rows type acc = Ok hs ->
  Forall (fun h => instrument_type h <> Unknown) hs.
Proof.
  intros Htype Hacc.
  apply (stream_rows_invariant amc sheet_name date
           (fun t => t <> Unknown)
           (fun h => instrument_type h <> Unknown)); [| |exact Htype|exact Hacc].
  - intros row t. unfold classify_instrument_type.
    destruct (combined (values row)) as [text|e]; cbn [bind]; [|discriminate].
    repeat case_if; intros [= <-]; discriminate.
  - intros row t h Ht E.
    apply extract_holding_from_row_in_context in E.
    destruct E as (_ & _ & -> & _). exact Ht.
Qed.

Lemma unknown_only_before_first_banner_witness :
  Forall (fun h => instrument_type h <> Unknown)
         [Samples.reliance "Axis Bluechip Fund"].
Proof.
  apply (unknown_only_before_first_banner "Axis Mutual Fund"
           "Axis Bluechip Fund" "2025-12-31"
           (map clean_columns (skipn 1 (Samples.sample_rows 1)))
           Equity [] [Samples.reliance "Axis Bluechip Fund"]).
  - discriminate.
  - constructor.
  - vm_compute. reflexivity.
Defined.

Example unknown_before_banner :
  map instrument_type
      (match stream_rows "Axis Mutual Fund" "Axis Bluechip Fund" "2025-12-31"
               (map clean_columns (skipn 1 (Samples.sample_rows 1)))
               Unknown [] with
       | Ok hs => hs
       | Raise _ => []
       end)
  = [Unknown].
Proof. vm_compute. reflexivity. Qed.

(** *** Stripped text *)

Lemma lstrip_starts_clean (s : string) : starts_clean (lstrip s) = true.
Proof.
  induction s as [|c s IH]; cbn [lstrip]; [reflexivity|].
  destruct (is_space c) eqn:E; [exact IH|]. cbn [starts_clean]. rewrite E.
  reflexivity.
Qed.

Lemma starts_clean_lstrip (s : string) :
  starts_clean s = true -> lstrip s = s.
Proof.
  destruct s as [|c s]; cbn [starts_clean lstrip]; [reflexivity|].
  intros H. apply negb_true_iff in H. rewrite H. reflexivity.
Qed.

Lemma rstrip_starts_clean (s : string) :
  starts_clean s = true -> starts_clean (rstrip s) = true.
Proof.
  destruct s as [|c s]; cbn [starts_clean rstrip]; [reflexivity|].
  intros H. destruct (rstrip s).
  - apply negb_true_iff in H. rewrite H. cbn [starts_clean]. rewrite H.
    reflexivity.
  - cbn [starts_clean]. exact H.
Qed.

Lemma rstrip_idempotent (s : string) : rstrip (rstrip s) = rstrip s.
Proof.
  induction s as [|c s IH]; cbn [rstrip]; [reflexivity|].
  destruct (rstrip s) as [|a t] eqn:E.
  - destruct (is_space c) eqn:Hc; cbn [rstrip]; [reflexivity|].
    rewrite Hc. reflexivity.
  - change (rstrip (String c (String a t)))
      with (match rstrip (String a t) with
            | EmptyString =>
                if is_space c then EmptyString else String c EmptyString
            | String x y => String c (String x y)
            end).
    rewrite IH. reflexivity.
Qed.

Lemma strip_idempotent (s : string) : strip (strip s) = strip s.
Proof.
  unfold strip.
  rewrite (starts_clean_lstrip (rstrip (lstrip s))).
  - apply rstrip_idempotent.
  - apply rstrip_starts_clean. apply lstrip_starts_clean.
Qed.

Lemma assign_field_stripped (col : string) (value : Cell) (h : Holding) :
  stripped_record h -> stripped_record (assign_field col value h).
Proof.
  unfold stripped_record, stripped, assign_field.
  intros (Hn & Hi & Hr).
  repeat case_if; cbn;
    (split; [|split]); intros s Hs;
    try (injection Hs as <-; apply strip_idempotent); auto.
Qed.

(** X7. The text fields of every record of the dataset are stripped: the
    instrument name, the ISIN and the industry or rating have no white space
    at either end; so the instrument name itself has more than 3
    characters. *)
Theorem dataset_text_stripped
        (amc : string) (excel : result ExcelFile) (dataset : list Holding)
        (h : Holding) :
  parse_excel_portfolios amc excel = Some dataset ->
  In h dataset ->
  stripped_record h /\
  exists name, instrument_name h = Some name /\ 3 < String.length name.
Proof.
  intros Hparse Hin.
  destruct (dataset_member _ _ _ _ Hparse Hin) as (xl & sheet & _ & _ & Hh).
  assert (Hs : stripped_record h).
  { pose proof (extract_holdings_from_sheet_Forall stripped_record
                  amc xl sheet) as Hall.
    rewrite Forall_forall in Hall. apply Hall; [|exact Hh].
    intros row type h0.
    apply extract_holding_from_row_invariant.
    - apply assign_field_stripped.
    - repeat split; intros s0 Hs0; discriminate Hs0. }
  split; [exact Hs|].
  pose proof (ExtractorProofs.extract_holdings_from_sheet_valid amc xl sheet)
    as Hall.
  rewrite Forall_forall in Hall.
  destruct (Hall h Hh) as [_ (name & Hname & _ & Hlen & _)].
  exists name. split; [exact Hname|].
  destruct Hs as (Hn & _). rewrite <- (Hn name Hname). exact Hlen.
Qed.

Lemma dataset_text_stripped_witness :
  stripped_record (Samples.reliance "Axis Bluechip Fund") /\
  exists name,
    instrument_name (Samples.reliance "Axis Bluechip Fund") = Some name /\
    3 < String.length name.
Proof.
  apply (dataset_text_stripped "Axis Mutual Fund"
           (Ok Samples.sample_workbook)
           [Samples.reliance "Axis Bluechip Fund";
            Samples.reliance "Axis Midcap Fund"]).
  - vm_compute. reflexivity.
  - left. reflexivity.
Defined.

(** *** How many records a sheet yields *)

Lemma stream_rows_length (amc sheet_name date : string) :
  forall rows type acc hs,
    stream_rows amc sheet_name date rows type acc = Ok hs ->
    length hs <= length acc + length (filter has_value rows).
Proof.
  induction rows as [|row rest IH]; intros type acc hs;
    cbn [stream_rows filter].
  - intros [= <-]. cbn [length]. lia.
  - destruct (is_section_header (values row)) as [[|]|e]; cbn [bind];
      [| |discriminate].
    + destruct (classify_instrument_type (values row)) as [type'|e];
        cbn [bind]; [|discriminate].
      intros H. apply IH in H. destruct (has_value row); cbn [length]; lia.
    + unfold extract_holding_from_row at 1, has_value at 1.
      destruct (forallb isna (values row)); cbn [negb bind].
      * apply IH.
      * destruct (fill_fields _ _ _) as [h0|e]; cbn [bind]; [|discriminate].
        destruct (keep_holding h0); intros H; apply IH in H;
          rewrite ?length_app in H; cbn [length] in *; lia.
Qed.

Lemma filter_has_value_clean (table : list Row) :
  length (filter has_value (map clean_columns table))
  = length (filter has_value table).
Proof.
  induction table as [|row rest IH]; cbn [map filter]; [reflexivity|].
  assert (H : has_value (clean_columns row) = has_value row)
    by (unfold has_value; rewrite values_clean_columns; reflexivity).
  rewrite H. destruct (has_value row); cbn [length]; rewrite IH; reflexivity.
Qed.

(** X8. A sheet yields at most one record for each row of the table that
    has a value; a row that is entirely empty yields none. *)
Theorem sheet_record_bound
        (amc : string) (xl : ExcelFile) (sheet_name : string)
        (df : Grid) (idx : nat) (table : list Row) :
  read_raw xl sheet_name = Ok df ->
  find_header_row df = Some idx ->
  read_header xl sheet_name idx = Ok table ->
  length (extract_holdings_from_sheet amc xl sheet_name)
  <= length (filter has_value table).
Proof.
  intros Hraw Hidx Htable. unfold extract_holdings_from_sheet, sheet_body.
  rewrite Hraw. cbn [bind]. rewrite Hidx, Htable. cbn [bind].
  destruct (stream_rows _ _ _ _ _ _) as [hs|e] eqn:S; [|cbn [length]; lia].
  apply stream_rows_length in S. rewrite filter_has_value_clean in S.
  exact S.
Qed.

Lemma sheet_record_bound_witness :
  length (extract_holdings_from_sheet "Axis Mutual Fund"
            Samples.sample_workbook "Axis Bluechip Fund")
  <= length (filter has_value (Samples.sample_rows 1)).
Proof.
  apply (sheet_record_bound "Axis Mutual Fund" Samples.sample_workbook
           "Axis Bluechip Fund" Samples.sample_grid 1).
  - reflexivity.
  - vm_compute. reflexivity.
  - reflexivity.
Defined.

End ExtractorExtras.

(* ================================================================== *)
(** ** Properties of the search for the workbook and of the download *)

Module DiscoveryProofs.

Import PyStr Discovery MoreStatements.

(** *** The first link that qualifies *)

Lemma scan_links_some (self : Self) (web : Web) (month year : string) :
  forall links url,
    scan_links self web (search_patterns month year) links = Some url ->
    exists before link after,
      links = before ++ link :: after /\
      qualifies month year link = true /\
      Forall (fun l => qualifies month year l = false) before /\
      url = urljoin web (base_url self) (href link).
Proof.
  induction links as [|l rest IH]; intros url; cbn [scan_links];
    [discriminate|].
  fold (qualifies month year l).
  destruct (qualifies month year l) eqn:Q.
  - intros [= <-]. exists [], l, rest. repeat split; [exact Q | constructor].
  - intros H. destruct (IH url H) as (before & link & after & -> & Hq & Hb & ->).
    exists (l :: before), link, after.
    repeat split; [exact Hq | constructor; assumption].
Qed.

Lemma scan_links_none (self : Self) (web : Web) (month year : string) :
  forall links,
    scan_links self web (search_patterns month year) links = None <->
    Forall (fun l => qualifies month year l = false) links.
Proof.
  induction links as [|l rest IH]; cbn [scan_links].
  - split; [constructor | reflexivity].
  - fold (qualifies month year l).
    destruct (qualifies month year l) eqn:Q.
    + split; [discriminate|]. intros H. inversion H; congruence.
    + rewrite IH. split.
      * intros H. constructor; assumption.
      * intros H. inversion H; assumption.
Qed.

(** X9. For a month and a year that are plain text (letters and digits),
    [find_portfolio_file_url] returns the URL of the first link, in
    document order, whose [href] holds an Excel extension and whose text
    and [href] match one of the four patterns, joined to the base URL; it
    returns [None] exactly when the page cannot be fetched, is empty, or
    has no such link. *)
Theorem find_portfolio_file_url_first
        (self : Self) (web : Web) (month year : string) :
  plain_text month = true ->
  plain_text year = true ->
  (forall url,
      find_portfolio_file_url self web month year = Some url ->
      exists html before link after,
        page web (statutory_url self) = Ok html /\
        html <> "" /\
        anchors web html = before ++ link :: after /\
        qualifies month year link = true /\
        Forall (fun l => qualifies month year l = false) before /\
        url = urljoin web (base_url self) (href link)) /\
  (find_portfolio_file_url self web month year = None <->
   (exists e, page web (statutory_url self) = Raise e) \/
   page web (statutory_url self) = Ok "" \/
   (exists html,
       page web (statutory_url self) = Ok html /\
       Forall (fun l => qualifies month year l = false) (anchors web html))).
Proof.
  intros _ _.
  unfold find_portfolio_file_url, fetch_page_content.
  destruct (page web (statutory_url self)) as [html|e].
  - destruct html as [|c html']; cbn [truthy].
    + split; [discriminate|]. split; [auto | reflexivity].
    + split.
      * intros url H.
        destruct (scan_links_some self web month year _ _ H)
          as (before & link & after & Ha & Hq & Hb & Hu).
        exists (String c html'), before, link, after.
        repeat split; try assumption. discriminate.
      * rewrite scan_links_none. split.
        -- intros H. right. right. eauto.
        -- intros [[e He]|[He|(html & [= <-] & H)]];
             [discriminate | discriminate | exact H].
  - split; [discriminate|]. split; [eauto | reflexivity].
Qed.

Lemma find_portfolio_file_url_first_witness :
  exists html before link after,
    page MoreSamples.sample_web (statutory_url (init "Axis Mutual Fund"))
    = Ok html /\
    html <> "" /\
    anchors MoreSamples.sample_web html = before ++ link :: after /\
    qualifies "December" "2025" link = true /\
    Forall (fun l => qualifies "December" "2025" l = false) before /\
    "https://www.axismf.com/docs/Consolidated_Dec.xlsx"
    = urljoin MoreSamples.sample_web (base_url (init "Axis Mutual Fund"))
              (href link).
Proof.
  apply (proj1 (find_portfolio_file_url_first (init "Axis Mutual Fund")
                  MoreSamples.sample_web "December" "2025"
                  eq_refl eq_refl)).
  vm_compute. reflexivity.
Defined.

(** *** The name of the downloaded file *)






Example download_dot_dot :
  download_file (init "Axis Mutual Fund") MoreSamples.sample_web
                MoreSamples.no_directory
                (Some "https://www.axismf.com/docs/portfolio.xlsx?next=/..")
                None
  = ([], Raise OSError).
Proof. vm_compute. reflexivity. Qed.

Lemma until_quote_app (name rest : string) :
  contains quote_text name = false ->
  until_quote (name ++ String quote rest) = name.
Proof.
  induction name as [|c name IH]; cbn [append until_quote contains startswith].
  - intros _. rewrite Ascii.eqb_refl. reflexivity.
  - unfold quote_text at 1. cbn [startswith]. intros H.
    apply orb_false_iff in H. destruct H as [Hc Hrest].
    rewrite andb_true_r in Hc. rewrite Ascii.eqb_sym, Hc.
    rewrite (IH Hrest). reflexivity.
Qed.

Lemma first_filename_attachment (name : string) :
  truthy name = true ->
  contains quote_text name = false ->
  first_filename (attachment name) = Some name.
Proof.
  intros Hname Hquote.
  assert (Hhere : forall s,
             filename_here ("filename=" ++ String quote s)%string
             = if truthy (until_quote s) then Some (until_quote s) else None).
  { intros s. unfold filename_here. cbn [startswith append drop].
    rewrite !Ascii.eqb_refl. cbn [andb]. reflexivity. }
  unfold attachment, quote_text.
  change ("attachment; filename=" ++ String quote "" ++ name ++ String quote "")%string
    with ("attachment; " ++ ("filename=" ++ String quote (name ++ String quote "")))%string.
  assert (Hfound : first_filename
                     ("filename=" ++ String quote (name ++ String quote ""))%string
                   = Some name).
  { destruct ("filename=" ++ String quote (name ++ String quote ""))%string
      as [|c0 s0] eqn:E; [discriminate E|].
    cbn [first_filename]. rewrite <- E, Hhere, until_quote_app, Hname
      by exact Hquote.
    reflexivity. }
  revert Hfound.
  generalize ("filename=" ++ String quote (name ++ String quote ""))%string.
  intros s Hs.
  assert (Hskip : forall c t, Ascii.eqb "f" c = false ->
                              first_filename (String c t) = first_filename t).
  { intros c t Hc. cbn [first_filename]. unfold filename_here.
    cbn [startswith]. rewrite Hc. reflexivity. }
  cbn [append]. rewrite !Hskip by reflexivity. exact Hs.
Qed.

(** X11. The name in a [content-disposition] header is used as it is: when
    the header is [attachment; filename=] followed by an absolute path
    between double quotes, the download goes to that path, outside the
    download folder: it is written there when the file system takes the
    path, and the exception of the file system leaves [download_file] when
    it does not. *)
Theorem download_header_escapes
        (amc : string) (web : Web) (disk : Disk) (url name body : string) :
  truthy url = true ->
  startswith "/" name = true ->
  contains quote_text name = false ->
  download web url
  = Ok {| content_disposition := Some (attachment name); content := body |} ->
  (forall u,
      disk name = Ok u ->
      download_file (init amc) web disk (Some url) None
      = ([(name, Bytes body)], Ok (Some name))) /\
  (forall e,
      disk name = Raise e ->
      download_file (init amc) web disk (Some url) None = ([], Raise e)).
Proof.
  intros Hurl Hstart Hquote Hget.
  assert (Hpath : path_join (download_folder (init amc))
                    (download_name url None
                       {| content_disposition := Some (attachment name);
                          content := body |})
                  = name).
  { unfold download_name, response_name. cbn [content_disposition].
    rewrite first_filename_attachment;
      [|destruct name; [discriminate Hstart | reflexivity]|exact Hquote].
    unfold path_join. rewrite Hstart. reflexivity. }
  split; intros x Hdisk; unfold download_file;
    rewrite Hurl, Hget, Hpath, Hdisk; reflexivity.
Qed.

Lemma download_header_escapes_witness :
  download_file (init "Axis Mutual Fund") MoreSamples.hostile_web
                MoreSamples.no_directory
                (Some "https://www.axismf.com/docs/Consolidated_Dec.xlsx") None
  = ([("/home/claude/.profile", Bytes "x")], Ok (Some "/home/claude/.profile")).
Proof.
  apply (proj1 (download_header_escapes "Axis Mutual Fund"
                  MoreSamples.hostile_web MoreSamples.no_directory
                  "https://www.axismf.com/docs/Consolidated_Dec.xlsx"
                  "/home/claude/.profile" "x"
                  eq_refl eq_refl eq_refl eq_refl) tt).
  reflexivity.
Defined.

End DiscoveryProofs.

(* ================================================================== *)
(** ** Properties of the files written by a run *)

Module OutputProofs.

Import PyStr Scraper Discovery Output MoreStatements.

Lemma type_eqb_eq (a b : InstrumentType) : type_eqb a b = true <-> a = b.
Proof.
  destruct a, b; vm_compute; split; intros H; try reflexivity;
    discriminate H.
Qed.

Lemma unique_from_In (t : InstrumentType) : forall l seen,
  In t (unique_from seen l) <-> In t l /\ ~ In t seen.
Proof.
  induction l as [|x rest IH]; intros seen; cbn [unique_from].
  - split; [intros [] | intros [[] _]].
  - destruct (existsb (type_eqb x) seen) eqn:E.
    + rewrite IH. apply existsb_exists in E. destruct E as (y & Hy & Hxy).
      apply type_eqb_eq in Hxy. subst y. split.
      * intros [H1 H2]. split; [right; exact H1 | exact H2].
      * intros [[<-|H1] H2]; [contradiction | split; assumption].
    + assert (Hx : ~ In x seen).
      { intros Hin. rewrite (proj2 (existsb_exists _ _)) in E;
          [discriminate|]. exists x. split; [exact Hin|].
        apply type_eqb_eq. reflexivity. }
      cbn [In]. rewrite IH. cbn [In]. split.
      * intros [<-|[H1 H2]]; [split; [left; reflexivity | exact Hx]|].
        split; [right; exact H1 | intros H; apply H2; right; exact H].
      * intros [[<-|H1] H2]; [left; reflexivity|].
        destruct (type_eqb x t) eqn:Ext.
        -- apply type_eqb_eq in Ext. left. exact Ext.
        -- right. split; [exact H1|]. intros [<-|H]; [|contradiction].
           rewrite (proj2 (type_eqb_eq x x) eq_refl) in Ext. discriminate.
Qed.

Lemma unique_from_NoDup : forall l seen, NoDup (unique_from seen l).
Proof.
  induction l as [|x rest IH]; intros seen; cbn [unique_from];
    [constructor|].
  destruct (existsb (type_eqb x) seen); [apply IH|].
  constructor; [|apply IH].
  rewrite unique_from_In. intros [_ H]. apply H. left. reflexivity.
Qed.

Lemma existsb_filter_mem (keep : string -> bool) (l : list string) (c : string) :
  existsb (String.eqb c) (filter keep l) = true <-> In c l /\ keep c = true.
Proof.
  rewrite existsb_exists. split.
  - intros (x & Hx & E). apply String.eqb_eq in E. subst x.
    apply filter_In. exact Hx.
  - intros H. exists c. split; [apply filter_In; exact H|].
    apply String.eqb_refl.
Qed.

Lemma filter_mem_filter (keep : string -> bool) (l : list string) :
  filter (fun c => existsb (String.eqb c) (filter keep l)) l = filter keep l.
Proof.
  apply filter_ext_in. intros c Hc. apply eq_iff_eq_true.
  rewrite existsb_filter_mem. tauto.
Qed.

Lemma header_has_context (hs : list Holding) (col : string) :
  hs <> [] ->
  In col ["amc_name"; "scheme_name"; "instrument_type"; "reporting_date"] ->
  existsb (String.eqb col) (header hs) = true.
Proof.
  intros Hhs Hcol. unfold header, DataFrame. cbn [columns].
  apply existsb_filter_mem.
  destruct hs as [|h rest]; [congruence|].
  cbn [In] in Hcol.
  destruct Hcol as [<-|[<-|[<-|[<-|[]]]]];
    (split; [cbn; tauto | reflexivity]).
Qed.

(** A frame with the columns of the dataset [hs] and the records [rows] is
    saved in one file when the file system takes it, and the summary does
    not raise. *)
Lemma save_to_csv_frame (self : Self) (disk : Disk) (hs rows : list Holding)
      (filename : string) :
  hs <> [] -> rows <> [] ->
  save_to_csv self disk (Some {| columns := header hs; records := rows |})
              filename
  = match disk (path_join (output_folder self) filename) with
    | Ok _ =>
        ([(path_join (output_folder self) filename, Csv (header hs) rows)],
         Ok (Some (path_join (output_folder self) filename)))
    | Raise e => ([], Raise e)
    end.
Proof.
  intros Hhs Hrows. unfold save_to_csv, empty, in_columns. cbn [columns records].
  assert (Hcols : filter (fun c => existsb (String.eqb c) (header hs))
                         column_order = header hs).
  { unfold header, DataFrame. cbn [columns]. apply filter_mem_filter. }
  rewrite Hcols.
  pose proof (header_has_context hs "scheme_name" Hhs) as H1.
  pose proof (header_has_context hs "instrument_type" Hhs) as H2.
  assert (E1 : existsb (String.eqb "scheme_name") (header hs) = true)
    by (apply H1; cbn; tauto).
  assert (E2 : existsb (String.eqb "instrument_type") (header hs) = true)
    by (apply H2; cbn; tauto).
  rewrite E1, E2.
  destruct (header hs) as [|c cols] eqn:Eh; [discriminate E1|].
  destruct rows; [congruence | reflexivity].
Qed.

Lemma of_type_nonempty (hs : list Holding) (t : InstrumentType) :
  In t (map instrument_type hs) -> of_type t hs <> [].
Proof.
  intros Hin. apply in_map_iff in Hin. destruct Hin as (h & Ht & Hh).
  assert (Hf : In h (of_type t hs)).
  { apply filter_In. split; [exact Hh|]. apply type_eqb_eq. exact Ht. }
  intros E. rewrite E in Hf. destruct Hf.
Qed.

Lemma save_types_shape (self : Self) (disk : Disk) (hs : list Holding) :
  hs <> [] ->
  forall types,
    incl types (map instrument_type hs) ->
    save_types self disk (DataFrame hs) types
    = attempt disk (map (type_write self hs) (filter known types)).
Proof.
  intros Hhs.
  induction types as [|t rest IH]; intros Hincl; cbn [save_types filter map];
    [reflexivity|].
  assert (Hrest : incl rest (map instrument_type hs))
    by (intros x Hx; apply Hincl; right; exact Hx).
  fold (known t). destruct (known t) eqn:K; [|apply IH; exact Hrest].
  change (select (DataFrame hs) t)
    with {| columns := header hs; records := of_type t hs |}.
  rewrite save_to_csv_frame;
    [|exact Hhs | apply of_type_nonempty; apply Hincl; left; reflexivity].
  rewrite (IH Hrest). cbn [map attempt type_write fst].
  unfold type_path.
  destruct (disk (path_join (output_folder self) (type_filename t)));
    [|reflexivity].
  destruct (attempt disk _); reflexivity.
Qed.

Lemma save_all_shape (self : Self) (disk : Disk) (hs : list Holding) :
  hs <> [] ->
  save_all self disk (DataFrame hs) = saved self disk hs.
Proof.
  intros Hhs. unfold save_all, saved, outputs.
  change (Some (DataFrame hs))
    with (Some {| columns := header hs; records := hs |}).
  rewrite save_to_csv_frame by exact Hhs.
  change (records (DataFrame hs)) with hs.
  rewrite save_types_shape;
    [|exact Hhs | intros t Ht; apply unique_from_In in Ht; tauto].
  cbn [attempt fst]. unfold consolidated_path, file_types.
  destruct (disk (path_join (output_folder self) "consolidated_portfolio.csv"));
    [|reflexivity].
  destruct (attempt disk _) as [written [u|e]]; reflexivity.
Qed.

(** *** Files that the file system refuses *)

Lemma attempt_prefix (disk : Disk) : forall files,
  exists rest, files = fst (attempt disk files) ++ rest.
Proof.
  induction files as [|file files IH]; cbn [attempt].
  - exists []. reflexivity.
  - destruct (disk (fst file)).
    + destruct IH as [rest IH]. exists rest. cbn [fst app].
      rewrite <- IH. reflexivity.
    + exists (file :: files). reflexivity.
Qed.

Lemma attempt_ok (disk : Disk) : forall files u,
  snd (attempt disk files) = Ok u -> fst (attempt disk files) = files.
Proof.
  induction files as [|file files IH]; intros u; cbn [attempt];
    [reflexivity|].
  destruct (disk (fst file)); cbn [fst snd]; [|discriminate].
  intros H. rewrite (IH u H). reflexivity.
Qed.


Lemma saved_member (self : Self) (disk : Disk) (hs : list Holding)
      (write : Write) :
  In write (fst (saved self disk hs)) -> In write (outputs self hs).
Proof.
  cbn [saved fst]. intros Hin.
  destruct (attempt_prefix disk (outputs self hs)) as [rest E].
  rewrite E. apply in_or_app. left. exact Hin.
Qed.

Lemma empty_DataFrame (hs : list Holding) :
  empty (DataFrame hs) = match hs with [] => true | _ => false end.
Proof.
  destruct hs as [|h rest]; [reflexivity|].
  unfold empty.
  pose proof (header_has_context (h :: rest) "amc_name") as H.
  unfold header in H.
  destruct (columns (DataFrame (h :: rest))) as [|c cols].
  - discriminate H; [discriminate | cbn; tauto].
  - reflexivity.
Qed.

Lemma process_shape (self : Self) (w : World) (path : string)
      (writes : list Write) :
  run_result self (write_file w) writes
             (ExcelFile w path (written_at writes path))
             (process self w (Some path) writes).
Proof.
  unfold process, run_result.
  destruct (truthy path && exists_now w writes path); [|left; reflexivity].
  destruct (parse_excel_portfolios _ _) as [hs|] eqn:P; [|left; reflexivity].
  rewrite empty_DataFrame. destruct hs as [|h rest]; [left; reflexivity|].
  right. exists (h :: rest).
  split; [reflexivity|]. split; [discriminate|].
  rewrite save_all_shape by discriminate. reflexivity.
Qed.

(** How a run goes: it stops with [None] before any workbook is at hand;
    or the file system refuses the download; or a workbook is at hand, from
    the source [workbook_source] describes, and the run ends as
    [run_result] says. *)
Lemma run_cases (self : Self) (w : World) (manual_file_path : option string) :
  run_full_automation self w manual_file_path = ([], Ok None) \/
  (exists e path,
      write_file w path = Raise e /\
      run_full_automation self w manual_file_path = ([], Raise e)) \/
  exists excel_path downloads,
    workbook_source self w manual_file_path excel_path downloads /\
    run_result self (write_file w) downloads
               (ExcelFile w excel_path (written_at downloads excel_path))
               (run_full_automation self w manual_file_path).
Proof.
  unfold run_full_automation.
  destruct manual_file_path as [manual|].
  - destruct (truthy manual && path_exists w manual) eqn:M.
    + right. right. exists manual, [].
      apply andb_true_iff in M. destruct M as [M1 M2].
      split; [left; repeat split; assumption | apply process_shape].
    + assert (Hno : ~ (exists path, Some manual = Some path /\
                                    truthy path = true /\
                                    path_exists w path = true)).
      { intros (path & [= <-] & H1 & H2). rewrite H1, H2 in M. discriminate. }
      revert Hno. generalize (Some manual). intros manual_file_path Hno.
      destruct (find_portfolio_file_url _ _ _ _) as [file_url|] eqn:F;
        [|left; reflexivity].
      destruct (truthy file_url) eqn:T; [|left; reflexivity].
      unfold download_file. rewrite T.
      destruct (download (web w) file_url) as [response|e] eqn:D;
        [|left; reflexivity].
      destruct (write_file w _) as [u|e] eqn:W.
      * right. right. eexists. eexists. split; [|apply process_shape].
        right. split; [exact Hno|]. exists file_url, response.
        split; [exact F|]. split; [exact D|]. split; reflexivity.
      * right. left. exists e. eexists. split; [exact W | reflexivity].
  - assert (Hno : ~ (exists path, @None string = Some path /\
                                  truthy path = true /\
                                  path_exists w path = true)).
    { intros (path & H & _). discriminate H. }
    destruct (find_portfolio_file_url _ _ _ _) as [file_url|] eqn:F;
      [|left; reflexivity].
    destruct (truthy file_url) eqn:T; [|left; reflexivity].
    unfold download_file. rewrite T.
    destruct (download (web w) file_url) as [response|e] eqn:D;
      [|left; reflexivity].
    destruct (write_file w _) as [u|e] eqn:W.
    + right. right. eexists. eexists. split; [|apply process_shape].
      right. split; [exact Hno|]. exists file_url, response.
      split; [exact F|]. split; [exact D|]. split; reflexivity.
    + right. left. exists e. eexists. split; [exact W | reflexivity].
Qed.

Lemma workbook_source_downloads (self : Self) (w : World)
      (manual_file_path : option string) (excel_path : string)
      (downloads : list Write) :
  workbook_source self w manual_file_path excel_path downloads ->
  Forall (fun write => is_csv write = false) downloads.
Proof.
  intros [(_ & _ & _ & ->)|(_ & url & response & _ & _ & _ & ->)].
  - constructor.
  - constructor; [reflexivity | constructor].
Qed.

(** A run downloads at most one file; it writes no table, or the tables of
    a dataset that is not empty, up to the first that the file system
    refuses. *)
Lemma run_shape (self : Self) (w : World) (manual_file_path : option string) :
  exists downloads,
    Forall (fun write => is_csv write = false) downloads /\
    ((exists outcome,
         run_full_automation self w manual_file_path = (downloads, outcome) /\
         (outcome = Ok None \/
          exists e path, write_file w path = Raise e /\ outcome = Raise e)) \/
     exists excel hs,
       parse_excel_portfolios (amc_name self) excel = Some hs /\
       hs <> [] /\
       run_full_automation self w manual_file_path
       = (downloads ++ fst (saved self (write_file w) hs),
          snd (saved self (write_file w) hs))).
Proof.
  destruct (run_cases self w manual_file_path)
    as [H|[(e & path & Hw & H)|(excel_path & downloads & Hsrc & H)]].
  - exists []. split; [constructor|]. left. exists (Ok None).
    split; [exact H | left; reflexivity].
  - exists []. split; [constructor|]. left. exists (Raise e).
    split; [exact H | right; eauto].
  - exists downloads.
    split; [apply (workbook_source_downloads _ _ _ _ _ Hsrc)|].
    destruct H as [H|(hs & Hparse & Hhs & H)].
    + left. exists (Ok None). split; [exact H | left; reflexivity].
    + right. eauto.
Qed.

Lemma filter_is_csv_downloads (downloads : list Write) :
  Forall (fun write => is_csv write = false) downloads ->
  filter is_csv downloads = [].
Proof.
  induction 1 as [|write rest Hw _ IH]; cbn [filter]; [reflexivity|].
  rewrite Hw. exact IH.
Qed.

Lemma filter_is_csv_outputs (self : Self) (hs : list Holding) :
  filter is_csv (outputs self hs) = outputs self hs.
Proof.
  unfold outputs. cbn [filter is_csv snd]. f_equal.
  induction (file_types hs) as [|t rest IH]; cbn [map filter is_csv snd];
    [reflexivity|].
  unfold type_write at 1. cbn [snd]. rewrite IH. reflexivity.
Qed.

Lemma csv_in_downloads (downloads : list Write) (path : string)
      (head : list string) (rows : list Holding) :
  Forall (fun write => is_csv write = false) downloads ->
  ~ In (path, Csv head rows) downloads.
Proof.
  intros Hall Hin. rewrite Forall_forall in Hall.
  specialize (Hall _ Hin). discriminate Hall.
Qed.

Lemma file_types_spec (hs : list Holding) (t : InstrumentType) :
  In t (file_types hs) <-> In t (map instrument_type hs) /\ t <> Unknown.
Proof.
  unfold file_types, known, unique. rewrite filter_In, unique_from_In.
  rewrite negb_true_iff. split.
  - intros [[H _] K]. split; [exact H|]. intros ->.
    rewrite (proj2 (type_eqb_eq Unknown Unknown) eq_refl) in K. discriminate.
  - intros [H K]. split; [split; [exact H | intros []]|].
    destruct (type_eqb t Unknown) eqn:E; [|reflexivity].
    apply type_eqb_eq in E. contradiction.
Qed.

(** Where a table written for the dataset [hs] comes from. *)
Lemma outputs_member (self : Self) (hs : list Holding) (path : string)
      (head : list string) (rows : list Holding) :
  In (path, Csv head rows) (outputs self hs) <->
  head = header hs /\
  ((path = consolidated_path self /\ rows = hs) \/
   exists t, In t (map instrument_type hs) /\ t <> Unknown /\
             path = type_path self t /\ rows = of_type t hs).
Proof.
  unfold outputs. cbn [In]. rewrite in_map_iff. split.
  - intros [[= <- <- <-]|(t & [= <- <- <-] & Ht)].
    + split; [reflexivity|]. left. split; reflexivity.
    + apply file_types_spec in Ht. destruct Ht as [H1 H2].
      split; [reflexivity|]. right. exists t. repeat split; assumption.
  - intros [-> [[-> ->]|(t & H1 & H2 & -> & ->)]]; [left; reflexivity|].
    right. exists t. split; [reflexivity|]. apply file_types_spec. tauto.
Qed.

Lemma filter_is_csv_saved (self : Self) (disk : Disk) (hs : list Holding) :
  filter is_csv (fst (saved self disk hs)) = fst (saved self disk hs).
Proof.
  apply forallb_filter_id. apply forallb_forall. intros write Hin.
  apply saved_member in Hin. rewrite <- filter_is_csv_outputs in Hin.
  apply filter_In in Hin. tauto.
Qed.


Example sample_run :
  run_full_automation (init "Axis Mutual Fund") MoreSamples.sample_world
                      (Some "/data/portfolio.xlsx")
  = ([("/home/claude/output/consolidated_portfolio.csv",
       Csv ["amc_name"; "scheme_name"; "instrument_name"; "instrument_type";
            "isin"; "quantity"; "market_value_lakhs";
            "percentage_of_portfolio"; "reporting_date"]
           [Samples.reliance "Axis Bluechip Fund";
            Samples.reliance "Axis Midcap Fund"]);
      ("/home/claude/output/portfolio_equity.csv",
       Csv ["amc_name"; "scheme_name"; "instrument_name"; "instrument_type";
            "isin"; "quantity"; "market_value_lakhs";
            "percentage_of_portfolio"; "reporting_date"]
           [Samples.reliance "Axis Bluechip Fund";
            Samples.reliance "Axis Midcap Fund"])],
     Ok (Some "/home/claude/output/consolidated_portfolio.csv")).
Proof. vm_compute. reflexivity. Qed.

(** A link that ends in [/..] makes the download open a directory. *)
Example dot_dot_run :
  run_full_automation (init "Axis Mutual Fund") MoreSamples.dot_dot_world None
  = ([], Raise OSError).
Proof. vm_compute. reflexivity. Qed.

(** The consolidated file is written, the file of the first type is
    refused. *)
Example read_only_run :
  run_full_automation (init "Axis Mutual Fund") MoreSamples.read_only_world
                      (Some "/data/portfolio.xlsx")
  = ([("/home/claude/output/consolidated_portfolio.csv",
       Csv ["amc_name"; "scheme_name"; "instrument_name"; "instrument_type";
            "isin"; "quantity"; "market_value_lakhs";
            "percentage_of_portfolio"; "reporting_date"]
           [Samples.reliance "Axis Bluechip Fund";
            Samples.reliance "Axis Midcap Fund"])],
     Raise OSError).
Proof. vm_compute. reflexivity. Qed.

(** X13. When a run returns a path, a workbook was at hand: the manual
    file, or the download. The dataset is what [parse_excel_portfolios]
    extracts from that workbook; the path returned is that of the
    consolidated file; and the files written are the download, if any,
    then the consolidated file, which holds the whole dataset in extraction
    order, then one file for each type other than Unknown, in the order of
    the first record of the type. So every record whose type is not
    Unknown is in the file of its type, and a file of a type holds the
    records of that type and no other, in dataset order. *)
Theorem type_files_hold_their_records
        (self : Self) (w : World) (manual_file_path : option string)
        (writes : list Write) (path : string) :
  run_full_automation self w manual_file_path = (writes, Ok (Some path)) ->
  exists excel_path downloads hs,
    workbook_source self w manual_file_path excel_path downloads /\
    parse_excel_portfolios
      (amc_name self)
      (ExcelFile w excel_path (written_at downloads excel_path))
    = Some hs /\
    path = consolidated_path self /\
    writes
    = downloads
        ++ (consolidated_path self, Csv (header hs) hs)
        :: map (fun t => (type_path self t, Csv (header hs) (of_type t hs)))
               (file_types hs) /\
    (forall h, In h hs -> instrument_type h <> Unknown ->
               In (type_path self (instrument_type h),
                   Csv (header hs) (of_type (instrument_type h) hs)) writes) /\
    (forall p head rows,
        In (p, Csv head rows) writes ->
        (p = path /\ rows = hs) \/
        exists t, t <> Unknown /\ p = type_path self t /\
                  forall h, In h rows <-> In h hs /\ instrument_type h = t).
Proof.
  intros Hrun.
  destruct (run_cases self w manual_file_path)
    as [H|[(e & p & _ & H)|(excel_path & downloads & Hsrc & H)]];
    [rewrite Hrun in H; discriminate H | rewrite Hrun in H; discriminate H |].
  rewrite Hrun in H.
  destruct H as [H|(hs & Hparse & Hhs & H)]; [discriminate H|].
  cbn [saved fst snd] in H.
  destruct (snd (attempt (write_file w) (outputs self hs))) as [u|e] eqn:E;
    [|discriminate H].
  rewrite (attempt_ok _ _ _ E) in H. injection H as -> ->.
  pose proof (workbook_source_downloads _ _ _ _ _ Hsrc) as Hd.
  exists excel_path, downloads, hs.
  split; [exact Hsrc|]. split; [exact Hparse|]. split; [reflexivity|].
  split; [reflexivity|]. split.
  - intros h Hh Ht. apply in_or_app. right. apply outputs_member.
    split; [reflexivity|]. right. exists (instrument_type h).
    repeat split; [apply in_map; exact Hh | exact Ht].
  - intros p head rows Hin. apply in_app_or in Hin.
    destruct Hin as [Hin|Hin];
      [exfalso; apply (csv_in_downloads _ _ _ _ Hd Hin)|].
    apply outputs_member in Hin.
    destruct Hin as [_ [[-> ->]|(t & _ & Ht & -> & ->)]];
      [left; split; reflexivity|].
    right. exists t. split; [exact Ht|]. split; [reflexivity|].
    intros h. unfold of_type. rewrite filter_In, type_eqb_eq. reflexivity.
Qed.

Lemma type_files_hold_their_records_witness :
  exists excel_path downloads hs,
    workbook_source (init "Axis Mutual Fund") MoreSamples.sample_world
                    (Some "/data/portfolio.xlsx") excel_path downloads /\
    parse_excel_portfolios
      "Axis Mutual Fund"
      (ExcelFile MoreSamples.sample_world excel_path
                 (written_at downloads excel_path))
    = Some hs /\
    fst (run_full_automation (init "Axis Mutual Fund")
           MoreSamples.sample_world (Some "/data/portfolio.xlsx"))
    = downloads
        ++ (consolidated_path (init "Axis Mutual Fund"), Csv (header hs) hs)
        :: map (fun t => (type_path (init "Axis Mutual Fund") t,
                          Csv (header hs) (of_type t hs)))
               (file_types hs).
Proof.
  destruct (type_files_hold_their_records (init "Axis Mutual Fund")
              MoreSamples.sample_world (Some "/data/portfolio.xlsx")
              (fst (run_full_automation (init "Axis Mutual Fund")
                      MoreSamples.sample_world (Some "/data/portfolio.xlsx")))
              "/home/claude/output/consolidated_portfolio.csv")
    as (excel_path & downloads & hs & Hsrc & Hparse & _ & Hwrites & _).
  - vm_compute. reflexivity.
  - exists excel_path, downloads, hs. repeat split; assumption.
Defined.

(** *** Paths of the tables *)

Lemma append_cancel (a x y : string) :
  (a ++ x)%string = (a ++ y)%string -> x = y.
Proof.
  induction a as [|c a IH]; cbn [append]; [auto|].
  intros [= H]. apply IH. exact H.
Qed.

Lemma path_join_relative_inj (a x y : string) :
  startswith "/" x = false -> startswith "/" y = false ->
  path_join a x = path_join a y -> x = y.
Proof.
  unfold path_join. intros -> ->.
  destruct (negb (truthy a) || _); intros H.
  - apply (append_cancel a). exact H.
  - apply append_cancel in H. apply (append_cancel "/"). exact H.
Qed.

Lemma type_filename_relative (t : InstrumentType) :
  startswith "/" (type_filename t) = false.
Proof. destruct t; reflexivity. Qed.

Lemma type_filename_inj (a b : InstrumentType) :
  type_filename a = type_filename b -> a = b.
Proof. destruct a, b; vm_compute; intros H; try reflexivity; discriminate H. Qed.

Lemma type_filename_other (t : InstrumentType) :
  type_filename t <> "consolidated_portfolio.csv".
Proof. destruct t; vm_compute; discriminate. Qed.

Lemma type_path_inj (self : Self) (a b : InstrumentType) :
  type_path self a = type_path self b -> a = b.
Proof.
  intros H. apply type_filename_inj.
  apply (path_join_relative_inj (output_folder self));
    [apply type_filename_relative | apply type_filename_relative | exact H].
Qed.

Lemma file_types_NoDup (hs : list Holding) : NoDup (file_types hs).
Proof. apply NoDup_filter. apply unique_from_NoDup. Qed.

Lemma outputs_paths_NoDup (self : Self) (hs : list Holding) :
  NoDup (map fst (outputs self hs)).
Proof.
  unfold outputs. cbn [map fst]. rewrite map_map. cbn [type_write fst].
  constructor.
  - rewrite in_map_iff. intros (t & Ht & _).
    apply (type_filename_other t).
    apply (path_join_relative_inj (output_folder self));
      [apply type_filename_relative | reflexivity | exact Ht].
  - generalize (file_types_NoDup hs).
    induction 1 as [|t rest Hnot _ IH]; cbn [map]; constructor; [|exact IH].
    rewrite in_map_iff. intros (t' & Ht' & Hin).
    apply type_path_inj in Ht'. subst t'. contradiction.
Qed.

(** X14. The tables written by a run have pairwise different paths: no
    file of a type overwrites the consolidated file or the file of another
    type. *)
Theorem csv_paths_distinct
        (self : Self) (w : World) (manual_file_path : option string) :
  NoDup (map fst (filter is_csv
                    (fst (run_full_automation self w manual_file_path)))).
Proof.
  destruct (run_shape self w manual_file_path) as (downloads & Hd & Hrun).
  destruct Hrun as [(outcome & -> & _)|(excel & hs & _ & _ & ->)]; cbn [fst].
  - rewrite (filter_is_csv_downloads _ Hd). constructor.
  - rewrite filter_app, (filter_is_csv_downloads _ Hd), filter_is_csv_saved.
    cbn [app saved fst].
    destruct (attempt_prefix (write_file w) (outputs self hs)) as [rest E].
    pose proof (outputs_paths_NoDup self hs) as Hnd.
    rewrite E, map_app in Hnd. apply NoDup_app_remove_r in Hnd. exact Hnd.
Qed.

(** *** The header of the tables *)

Lemma header_has_instrument_name (hs : list Holding) (h : Holding) :
  In h hs -> instrument_name h <> None ->
  existsb (String.eqb "instrument_name") (header hs) = true.
Proof.
  intros Hin Hname. unfold header, DataFrame. cbn [columns].
  apply existsb_filter_mem. split; [cbn; tauto|].
  apply existsb_exists. exists h. split; [exact Hin|].
  destruct (instrument_name h) eqn:E; [|congruence].
  unfold has_key. cbn. rewrite E. reflexivity.
Qed.

Lemma dataset_has_names (amc : string) (excel : result Scraper.ExcelFile)
      (hs : list Holding) (h : Holding) :
  parse_excel_portfolios amc excel = Some hs -> In h hs ->
  instrument_name h <> None.
Proof.
  intros Hparse Hin.
  destruct (ExtractorExtras.dataset_member _ _ _ _ Hparse Hin)
    as (xl & sheet & _ & _ & Hh).
  pose proof (ExtractorProofs.extract_holdings_from_sheet_valid amc xl sheet)
    as Hall.
  rewrite Forall_forall in Hall.
  destruct (Hall h Hh) as [_ (name & -> & _)]. discriminate.
Qed.

(** X15. Every table written by a run has the five columns the validator
    requires in its header, so the required-fields check finds nothing
    missing in a dataset read back with that header. *)
Theorem written_tables_have_required_fields
        (self : Self) (w : World) (manual_file_path : option string)
        (path : string) (head : list string) (rows : list Holding) :
  In (path, Csv head rows)
     (fst (run_full_automation self w manual_file_path)) ->
  (forall field, In field Validator.required_fields -> In field head) /\
  (forall frame, Validator.columns frame = head ->
                 Validator.missing_fields frame = []).
Proof.
  intros Hin.
  assert (Hfields : forall field, In field Validator.required_fields ->
                                  existsb (String.eqb field) head = true).
  { destruct (run_shape self w manual_file_path) as (downloads & Hd & Hrun).
    destruct Hrun as [(outcome & Hrun & _)|(excel & hs & Hparse & Hhs & Hrun)];
      rewrite Hrun in Hin; cbn [fst] in Hin.
    - exfalso. apply (csv_in_downloads _ _ _ _ Hd Hin).
    - apply in_app_or in Hin.
      destruct Hin as [Hin|Hin];
        [exfalso; apply (csv_in_downloads _ _ _ _ Hd Hin)|].
      apply (saved_member self (write_file w) hs) in Hin.
      apply outputs_member in Hin. destruct Hin as [-> _].
      intros field Hfield. cbn [Validator.required_fields In] in Hfield.
      destruct hs as [|h rest] eqn:E; [congruence|]. rewrite <- E in *.
      assert (Hh : In h hs) by (rewrite E; left; reflexivity).
      destruct Hfield as [<-|[<-|[<-|[<-|[<-|[]]]]]];
        try (apply header_has_context; [exact Hhs | cbn; tauto]).
      apply (header_has_instrument_name hs h Hh).
      apply (dataset_has_names _ _ _ _ Hparse Hh). }
  split.
  - intros field Hfield. specialize (Hfields field Hfield).
    apply existsb_exists in Hfields. destruct Hfields as (x & Hx & E).
    apply String.eqb_eq in E. subst x. exact Hx.
  - intros frame Hcols. unfold Validator.missing_fields.
    assert (Hall : forall field, In field Validator.required_fields ->
                     negb (Validator.has_column frame field) = false).
    { intros field Hfield. unfold Validator.has_column. rewrite Hcols.
      rewrite (Hfields field Hfield). reflexivity. }
    clear Hfields. revert Hall.
    induction Validator.required_fields as [|f rest IH]; intros Hall;
      [reflexivity|].
    cbn [filter]. rewrite (Hall f) by (left; reflexivity).
    apply IH. intros field Hfield. apply Hall. right. exact Hfield.
Qed.

Lemma written_tables_have_required_fields_witness :
  In "instrument_name"
     ["amc_name"; "scheme_name"; "instrument_name"; "instrument_type";
      "isin"; "quantity"; "market_value_lakhs";
      "percentage_of_portfolio"; "reporting_date"].
Proof.
  apply (proj1 (written_tables_have_required_fields (init "Axis Mutual Fund")
           MoreSamples.sample_world (Some "/data/portfolio.xlsx")
           "/home/claude/output/portfolio_equity.csv"
           ["amc_name"; "scheme_name"; "instrument_name"; "instrument_type";
            "isin"; "quantity"; "market_value_lakhs";
            "percentage_of_portfolio"; "reporting_date"]
           [Samples.reliance "Axis Bluechip Fund";
            Samples.reliance "Axis Midcap Fund"]
           ltac:(vm_compute; right; left; reflexivity))).
  right. right. left. reflexivity.
Defined.

End OutputProofs.

(* ================================================================== *)
(** ** Further properties of the validator *)

Module ValidatorExtras.

Import PyStr Validator Statements MoreStatements.

Lemma filter_length_zero {A : Type} (f : A -> bool) (l : list A) :
  length (filter f l) = 0 <-> forall x, In x l -> f x = false.
Proof.
  induction l as [|a l IH]; cbn [filter].
  - split; [intros _ x [] | reflexivity].
  - destruct (f a) eqn:E; cbn [length].
    + split; [discriminate|]. intros H. rewrite (H a) in E by (left; reflexivity).
      discriminate.
    + rewrite IH. split.
      * intros H x [<-|Hx]; [exact E | apply H; exact Hx].
      * intros H x Hx. apply H. right. exact Hx.
Qed.

Lemma report_issues_length (n : nat) (issue : nat -> Issue)
      (self : PortfolioDataValidator) :
  length (issues (report n issue self))
  = length (issues self) + (if 0 <? n then 1 else 0).
Proof.
  unfold report. destruct (0 <? n); cbn [append_issue issues].
  - rewrite length_app. reflexivity.
  - lia.
Qed.

Lemma report_unchanged (n : nat) (issue : nat -> Issue)
      (self : PortfolioDataValidator) :
  report n issue self = self <-> n = 0.
Proof.
  split.
  - intros H. pose proof (report_issues_length n issue self) as L.
    rewrite H in L. destruct (Nat.ltb_spec 0 n); lia.
  - intros ->. reflexivity.
Qed.

(** X16. On a text [isin] column, [check_isin_format] counts the cells
    that are not missing and are not an ISIN (two capital letters, nine
    capital letters or digits, one digit, and at most one line feed after
    them), and leaves the validator as it is exactly when there is none; on
    a numeric [isin] column it raises [AttributeError]. *)
Theorem check_isin_format_spec (self : PortfolioDataValidator) :
  (forall cells,
      getitem (df self) "isin" = Ok (ObjectCol cells) ->
      check_isin_format self
      = Ok (report (length (filter not_isin cells)) InvalidIsinCodes self) /\
      (check_isin_format self = Ok self <->
       forall s, In (Some s) cells -> isin_text s = true)) /\
  (forall cells,
      getitem (df self) "isin" = Ok (FloatCol cells) ->
      check_isin_format self = Raise AttributeError).
Proof.
  split.
  - intros cells Hget.
    assert (Hcheck : check_isin_format self
                     = Ok (report (length (filter not_isin cells))
                                  InvalidIsinCodes self)).
    { unfold check_isin_format.
      rewrite (ValidatorProofs.getitem_has_column _ _ _ Hget), Hget.
      cbn [negb bind]. do 3 f_equal. apply filter_ext.
      intros [s|]; [|reflexivity]. unfold invalid_isin, not_isin.
      rewrite TextProofs.isin_pattern_text. reflexivity. }
    split; [exact Hcheck|]. rewrite Hcheck. split.
    + intros [= H]. apply report_unchanged in H.
      intros s Hs. apply (proj1 (filter_length_zero _ _) H) in Hs.
      cbn [not_isin] in Hs. apply negb_false_iff in Hs. exact Hs.
    + intros H. f_equal. apply report_unchanged. apply filter_length_zero.
      intros [s|] Hin; [|reflexivity]. cbn [not_isin].
      rewrite (H s Hin). reflexivity.
  - intros cells Hget. unfold check_isin_format.
    rewrite (ValidatorProofs.getitem_has_column _ _ _ Hget), Hget.
    reflexivity.
Qed.

Lemma check_isin_format_spec_witness :
  check_isin_format (init "consolidated.csv" Samples.flawed)
  = Ok (report 1 InvalidIsinCodes (init "consolidated.csv" Samples.flawed)).
Proof.
  apply (proj1 (check_isin_format_spec
                  (init "consolidated.csv" Samples.flawed))
           [Some "INE002A01018"; Some "INVALIDISIN"; None]).
  reflexivity.
Defined.

(** *** Numeric ranges *)

Lemma Qltb_false (x y : Q) : Qltb x y = false <-> (y <= x)%Q.
Proof.
  unfold Qltb. rewrite negb_false_iff. apply Qle_bool_iff.
Qed.

Lemma report_frame_df (n : nat) (issue : nat -> Issue)
      (self : PortfolioDataValidator) :
  df (report n issue self) = df self.
Proof. apply ValidatorProofs.report_frame. Qed.

(** X17. With numeric [percentage_of_portfolio] and [market_value_lakhs]
    columns, [check_numeric_ranges] adds no issue exactly when every
    percentage that is not missing lies between 0 and 100, both included,
    and every market value that is not missing is at least 0. *)
Theorem check_numeric_ranges_spec
        (self : PortfolioDataValidator)
        (percentages values : list (option Q)) :
  getitem (df self) "percentage_of_portfolio" = Ok (FloatCol percentages) ->
  getitem (df self) "market_value_lakhs" = Ok (FloatCol values) ->
  (check_numeric_ranges self = Ok self <->
   (forall x, In (Some x) percentages -> (0 <= x /\ x <= 100)%Q) /\
   (forall x, In (Some x) values -> (0 <= x)%Q)).
Proof.
  intros Hp Hv.
  set (np := length (filter out_of_range percentages)).
  set (nv := length (filter negative values)).
  assert (Hcheck : check_numeric_ranges self
                   = Ok (report nv NegativeValue
                           (report np InvalidPercentage self))).
  { unfold check_numeric_ranges, check_percentage_range.
    rewrite (ValidatorProofs.getitem_has_column _ _ _ Hp), Hp.
    cbn [bind numeric]. unfold check_market_value.
    rewrite report_frame_df.
    rewrite (ValidatorProofs.getitem_has_column _ _ _ Hv), Hv.
    reflexivity. }
  assert (Hzero : np = 0 /\ nv = 0 <->
                  (forall x, In (Some x) percentages -> (0 <= x /\ x <= 100)%Q) /\
                  (forall x, In (Some x) values -> (0 <= x)%Q)).
  { unfold np, nv. rewrite !filter_length_zero. split.
    - intros [H1 H2]. split; intros x Hx.
      + specialize (H1 _ Hx). cbn [out_of_range] in H1.
        apply orb_false_iff in H1. rewrite !Qltb_false in H1. exact H1.
      + specialize (H2 _ Hx). cbn [negative] in H2.
        apply Qltb_false in H2. exact H2.
    - intros [H1 H2]. split; intros [x|] Hx; try reflexivity.
      + cbn [out_of_range]. apply orb_false_iff. rewrite !Qltb_false.
        apply H1. exact Hx.
      + cbn [negative]. apply Qltb_false. apply H2. exact Hx. }
  rewrite Hcheck, <- Hzero. split.
  - intros [= H].
    pose proof (report_issues_length nv NegativeValue
                  (report np InvalidPercentage self)) as L1.
    pose proof (report_issues_length np InvalidPercentage self) as L2.
    rewrite H in L1.
    destruct (Nat.ltb_spec 0 np), (Nat.ltb_spec 0 nv); lia.
  - intros [-> ->]. reflexivity.
Qed.

Lemma check_numeric_ranges_spec_witness :
  check_numeric_ranges (init "consolidated.csv" MoreSamples.bounds)
  = Ok (init "consolidated.csv" MoreSamples.bounds).
Proof.
  apply (check_numeric_ranges_spec
           (init "consolidated.csv" MoreSamples.bounds)
           [Some (0 # 1); Some (100 # 1); None]
           [Some (0 # 1); None; Some (5 # 2)]).
  - reflexivity.
  - reflexivity.
  - split; intros x Hx; cbn [In] in Hx;
      repeat match goal with
             | H : _ \/ _ |- _ => destruct H
             | H : Some _ = Some _ |- _ => injection H as <-
             | H : None = Some _ |- _ => discriminate H
             | H : False |- _ => destruct H
             end;
      try split; vm_compute; discriminate.
Defined.

(** *** Duplicates *)

Lemma cell_eqb_refl (a : option Key) : cell_eqb a a = true.
Proof. destruct a; [apply ValidatorProofs.key_eqb_refl | reflexivity]. Qed.

Lemma cell_eqb_sym (a b : option Key) : cell_eqb a b = cell_eqb b a.
Proof.
  destruct a, b; cbn [cell_eqb]; try reflexivity.
  apply ValidatorProofs.key_eqb_sym.
Qed.

Lemma cell_eqb_trans (a b c : option Key) :
  cell_eqb a b = true -> cell_eqb b c = true -> cell_eqb a c = true.
Proof.
  destruct a, b, c; cbn [cell_eqb]; try discriminate; try reflexivity.
  apply ValidatorProofs.key_eqb_trans.
Qed.

Lemma pair_eqb_refl (a : option Key * option Key) : pair_eqb a a = true.
Proof. unfold pair_eqb. rewrite !cell_eqb_refl. reflexivity. Qed.

Lemma pair_eqb_sym (a b : option Key * option Key) :
  pair_eqb a b = pair_eqb b a.
Proof.
  unfold pair_eqb. rewrite (cell_eqb_sym (fst a)), (cell_eqb_sym (snd a)).
  reflexivity.
Qed.

Lemma pair_eqb_trans (a b c : option Key * option Key) :
  pair_eqb a b = true -> pair_eqb b c = true -> pair_eqb a c = true.
Proof.
  unfold pair_eqb. rewrite !andb_true_iff. intros [H1 H2] [H3 H4].
  split; eapply cell_eqb_trans; eassumption.
Qed.

Lemma pair_eqb_congr (a b x : option Key * option Key) :
  pair_eqb a b = true -> pair_eqb a x = pair_eqb b x.
Proof.
  intros Hab.
  destruct (pair_eqb a x) eqn:Hax, (pair_eqb b x) eqn:Hbx; try reflexivity.
  - rewrite pair_eqb_sym in Hab.
    rewrite (pair_eqb_trans b a x Hab Hax) in Hbx. discriminate.
  - rewrite (pair_eqb_trans a b x Hab Hbx) in Hax. discriminate.
Qed.

Lemma filter_length_le {A : Type} (f g : A -> bool) (l : list A) :
  (forall x, In x l -> f x = true -> g x = true) ->
  length (filter f l) <= length (filter g l).
Proof.
  induction l as [|a l IH]; intros H; cbn [filter]; [lia|].
  assert (IH' : length (filter f l) <= length (filter g l))
    by (apply IH; intros x Hx; apply H; right; exact Hx).
  destruct (f a) eqn:Ef.
  - rewrite (H a (or_introl eq_refl) Ef). cbn [length]. lia.
  - destruct (g a); cbn [length]; lia.
Qed.

Lemma existsb_count (row : option Key * option Key)
      (rows : list (option Key * option Key)) :
  existsb (pair_eqb row) rows = false <->
  length (filter (pair_eqb row) rows) = 0.
Proof.
  rewrite filter_length_zero. apply ClassifierProofs.existsb_false.
Qed.

Lemma distinct_rows_count (rows : list (option Key * option Key)) :
  distinct_rows rows <->
  forall row, In row rows -> length (filter (pair_eqb row) rows) <= 1.
Proof.
  induction rows as [|a rest IH]; cbn [distinct_rows].
  - split; [intros _ row [] | auto].
  - rewrite IH, existsb_count. split.
    + intros [Ha Hrest] row [<-|Hin]; cbn [filter].
      * rewrite pair_eqb_refl. cbn [length]. lia.
      * assert (Hne : pair_eqb row a = false).
        { rewrite pair_eqb_sym.
          apply (proj1 (filter_length_zero _ _) Ha). exact Hin. }
        rewrite Hne. apply Hrest. exact Hin.
    + intros H. split.
      * specialize (H a (or_introl eq_refl)). cbn [filter] in H.
        rewrite pair_eqb_refl in H. cbn [length] in H. lia.
      * intros row Hin. specialize (H row (or_intror Hin)).
        cbn [filter] in H. destruct (pair_eqb row a); cbn [length] in H; lia.
Qed.

Lemma duplicated_zero (rows : list (option Key * option Key)) :
  length (duplicated rows) = 0 <-> distinct_rows rows.
Proof.
  unfold duplicated. rewrite filter_length_zero, distinct_rows_count.
  split; intros H row Hin; specialize (H row Hin).
  - apply Nat.ltb_ge in H. exact H.
  - apply Nat.ltb_ge. exact H.
Qed.

Lemma duplicated_not_one (rows : list (option Key * option Key)) :
  length (duplicated rows) <> 1.
Proof.
  unfold duplicated.
  destruct (filter (fun row => 1 <? length (filter (pair_eqb row) rows)) rows)
    as [|row rest] eqn:E; [discriminate|].
  assert (Hrow : In row (filter (fun row => 1 <? length (filter (pair_eqb row) rows)) rows))
    by (rewrite E; left; reflexivity).
  apply filter_In in Hrow. destruct Hrow as [_ Hcount].
  apply Nat.ltb_lt in Hcount.
  assert (Hle : length (filter (pair_eqb row) rows)
                <= length (filter (fun row => 1 <? length (filter (pair_eqb row) rows)) rows)).
  { apply filter_length_le. intros x _ Hx. apply Nat.ltb_lt.
    assert (Hsame : filter (pair_eqb x) rows = filter (pair_eqb row) rows).
    { apply filter_ext. intros y. symmetry. apply pair_eqb_congr. exact Hx. }
    rewrite Hsame. exact Hcount. }
  rewrite E in Hle. lia.
Qed.

(** X18. [check_duplicates] adds no issue exactly when no two rows have
    the same scheme and the same instrument (two missing values counting
    as the same); and the number it reports is never 1, since every row of
    a repeated pair is counted. *)
Theorem check_duplicates_spec
        (self : PortfolioDataValidator) (scheme instrument : Column) :
  getitem (df self) "scheme_name" = Ok scheme ->
  getitem (df self) "instrument_name" = Ok instrument ->
  exists n,
    check_duplicates self = Ok (report n DuplicateHoldings self) /\
    n <> 1 /\
    (check_duplicates self = Ok self <->
     distinct_rows (combine (keys scheme) (keys instrument))).
Proof.
  intros Hs Hi.
  exists (length (duplicated (combine (keys scheme) (keys instrument)))).
  assert (Hcheck : check_duplicates self
                   = Ok (report (length (duplicated
                                           (combine (keys scheme)
                                                    (keys instrument))))
                                DuplicateHoldings self)).
  { unfold check_duplicates. rewrite Hs, Hi. reflexivity. }
  split; [exact Hcheck|]. split; [apply duplicated_not_one|].
  rewrite Hcheck, <- duplicated_zero. split.
  - intros [= H]. apply report_unchanged in H. exact H.
  - intros H. f_equal. apply report_unchanged. exact H.
Qed.

Lemma check_duplicates_spec_witness :
  exists n,
    check_duplicates (init "consolidated.csv" Samples.flawed)
    = Ok (report n DuplicateHoldings (init "consolidated.csv" Samples.flawed))
    /\ n <> 1.
Proof.
  destruct (check_duplicates_spec (init "consolidated.csv" Samples.flawed)
              (ObjectCol [Some "Axis Midcap Fund"; Some "Axis Midcap Fund";
                          Some "Axis Midcap Fund"])
              (ObjectCol [Some "Reliance Industries Ltd"; Some "Infosys Ltd";
                          Some "Reliance Industries Ltd"]))
    as (n & Hn & Hone & _).
  - reflexivity.
  - reflexivity.
  - exists n. split; assumption.
Defined.

(** *** When a run ends with a verdict *)

Lemma has_column_spec (frame : DataFrame) (name : string) :
  has_column frame name = is_ok (getitem frame name).
Proof.
  unfold has_column, columns.
  induction frame as [|[label col] rest IH];
    cbn [getitem map existsb fst]; [reflexivity|].
  destruct (String.eqb name label); [reflexivity | exact IH].
Qed.

Lemma check_required_fields_df (self : PortfolioDataValidator) :
  df (check_required_fields self) = df self.
Proof.
  unfold check_required_fields. destruct (missing_fields _); reflexivity.
Qed.

Lemma check_isin_format_ok (self : PortfolioDataValidator) :
  is_ok (check_isin_format self) = text_or_absent (df self) "isin" /\
  forall r, check_isin_format self = Ok r -> df r = df self.
Proof.
  unfold check_isin_format, text_or_absent. rewrite has_column_spec.
  destruct (getitem (df self) "isin") as [[cells|cells]|e];
    cbn [is_ok negb bind]; split; try reflexivity; intros r [= <-];
    try reflexivity.
  apply report_frame_df.
Qed.

Lemma check_percentage_range_ok (self : PortfolioDataValidator) :
  is_ok (check_percentage_range self)
  = numeric_or_absent (df self) "percentage_of_portfolio" /\
  forall r, check_percentage_range self = Ok r -> df r = df self.
Proof.
  unfold check_percentage_range, numeric_or_absent. rewrite has_column_spec.
  destruct (getitem (df self) "percentage_of_portfolio") as [col|e];
    cbn [is_ok bind]; [|split; [reflexivity | intros r [= <-]; reflexivity]].
  destruct (numeric col) as [cells|e]; cbn [is_ok bind]; split;
    try reflexivity; intros r [= <-]. apply report_frame_df.
Qed.

Lemma check_market_value_ok (self : PortfolioDataValidator) :
  is_ok (check_market_value self)
  = numeric_or_absent (df self) "market_value_lakhs" /\
  forall r, check_market_value self = Ok r -> df r = df self.
Proof.
  unfold check_market_value, numeric_or_absent. rewrite has_column_spec.
  destruct (getitem (df self) "market_value_lakhs") as [col|e];
    cbn [is_ok bind]; [|split; [reflexivity | intros r [= <-]; reflexivity]].
  destruct (numeric col) as [cells|e]; cbn [is_ok bind]; split;
    try reflexivity; intros r [= <-]. apply report_frame_df.
Qed.

Lemma check_portfolio_percentages_ok (series_sum : Summation)
      (self : PortfolioDataValidator) :
  numeric_or_absent (df self) "percentage_of_portfolio" = true ->
  is_ok (check_portfolio_percentages series_sum self)
  = negb (has_column (df self) "percentage_of_portfolio")
    || has_column (df self) "scheme_name" /\
  forall r, check_portfolio_percentages series_sum self = Ok r -> df r = df self.
Proof.
  unfold check_portfolio_percentages, numeric_or_absent, scheme_sums.
  rewrite !has_column_spec.
  destruct (getitem (df self) "percentage_of_portfolio") as [col|e];
    cbn [is_ok negb orb bind];
    [|intros _; split; [reflexivity | intros r [= <-]; reflexivity]].
  destruct (getitem (df self) "scheme_name") as [scheme|e];
    cbn [is_ok bind]; [|intros _; split; [reflexivity | discriminate]].
  destruct (numeric col) as [cells|e]; cbn [is_ok bind]; [|discriminate].
  intros _. split; [reflexivity|]. intros r [= <-]. apply report_frame_df.
Qed.

Lemma check_duplicates_ok (self : PortfolioDataValidator) :
  is_ok (check_duplicates self)
  = has_column (df self) "scheme_name"
    && has_column (df self) "instrument_name".
Proof.
  unfold check_duplicates. rewrite !has_column_spec.
  destruct (getitem (df self) "scheme_name") as [scheme|e];
    cbn [is_ok bind andb]; [|reflexivity].
  destruct (getitem (df self) "instrument_name") as [instrument|e];
    reflexivity.
Qed.

Lemma checks_ok (series_sum : Summation) (self : PortfolioDataValidator) :
  is_ok (checks series_sum self) = checkable (df self).
Proof.
  unfold checks, checkable, check_numeric_ranges.
  rewrite <- (check_required_fields_df self).
  generalize (check_required_fields self). intros s1.
  destruct (check_isin_format_ok s1) as [O2 D2]. rewrite <- O2.
  destruct (check_isin_format s1) as [s2|e]; cbn [bind is_ok andb];
    [|reflexivity].
  rewrite <- (D2 s2 eq_refl).
  destruct (check_percentage_range_ok s2) as [O3 D3]. rewrite <- O3.
  destruct (check_percentage_range s2) as [s3|e] eqn:E3; cbn [bind is_ok andb];
    [|reflexivity].
  assert (N2 : numeric_or_absent (df s2) "percentage_of_portfolio" = true)
    by (rewrite <- O3; reflexivity).
  rewrite <- (D3 s3 eq_refl) in *.
  destruct (check_market_value_ok s3) as [O4 D4]. rewrite <- O4.
  destruct (check_market_value s3) as [s4|e]; cbn [bind is_ok andb];
    [|reflexivity].
  rewrite <- (D4 s4 eq_refl) in *.
  destruct (check_portfolio_percentages_ok series_sum s4 N2) as [O5 D5].
  rewrite <- (check_duplicates_ok s4).
  destruct (check_portfolio_percentages series_sum s4) as [s5|e]; cbn [bind is_ok] in *.
  - rewrite (check_duplicates_ok s5), (D5 s5 eq_refl).
    rewrite <- (check_duplicates_ok s4). reflexivity.
  - symmetry in O5. apply orb_false_iff in O5. destruct O5 as [_ O5].
    rewrite check_duplicates_ok, O5. reflexivity.
Qed.

(** X19. [run_all_checks] ends with a verdict exactly when the [isin]
    column is absent or text, the [percentage_of_portfolio] and
    [market_value_lakhs] columns are absent or numeric, and the
    [scheme_name] and [instrument_name] columns are present. When
    [scheme_name] or [instrument_name] is missing the run raises, although
    the missing column has been put on the issue list. *)
Theorem run_all_checks_completes (series_sum : Summation)
        (self : PortfolioDataValidator) :
  ((exists r verdict, run_all_checks series_sum self = Ok (r, verdict)) <->
   checkable (df self) = true) /\
  (has_column (df self) "scheme_name" = false \/
   has_column (df self) "instrument_name" = false ->
   exists e, run_all_checks series_sum self = Raise e).
Proof.
  pose proof (checks_ok series_sum self) as Hok.
  rewrite ValidatorProofs.run_all_checks_checks.
  destruct (checks series_sum self) as [r|e]; cbn [is_ok map_result] in *.
  - split.
    + split; [intros _; symmetry; exact Hok | eauto].
    + intros H. exfalso. symmetry in Hok. unfold checkable in Hok.
      rewrite !andb_true_iff in Hok.
      destruct H as [H|H]; rewrite H in Hok; intuition discriminate.
  - split.
    + split; [intros (r & v & H); discriminate H | congruence].
    + eauto.
Qed.

Lemma run_all_checks_completes_witness :
  exists e,
    run_all_checks Samples.plain_sum (init "consolidated.csv" Samples.two_schemes) = Raise e.
Proof.
  apply (proj2 (run_all_checks_completes
                  Samples.plain_sum
                  (init "consolidated.csv" Samples.two_schemes))).
  right. reflexivity.
Defined.

Lemma run_all_checks_twice_witness :
  exists r',
    map_result fst
      (run_all_checks Samples.plain_sum
         {| csv_path := "consolidated.csv"; df := Samples.flawed;
            issues := [MissingRequiredColumns ["amc_name"; "reporting_date"];
                       InvalidIsinCodes 1; UnusualPortfolioSum 1;
                       DuplicateHoldings 2] |})
    = Ok r' /\
    issues r'
    = [MissingRequiredColumns ["amc_name"; "reporting_date"];
       InvalidIsinCodes 1; UnusualPortfolioSum 1; DuplicateHoldings 2]
      ++ [MissingRequiredColumns ["amc_name"; "reporting_date"];
          InvalidIsinCodes 1; UnusualPortfolioSum 1; DuplicateHoldings 2].
Proof.
  apply (ValidatorProofs.run_all_checks_twice
           Samples.plain_sum
           (init "consolidated.csv" Samples.flawed)
           {| csv_path := "consolidated.csv"; df := Samples.flawed;
              issues := [MissingRequiredColumns ["amc_name"; "reporting_date"];
                         InvalidIsinCodes 1; UnusualPortfolioSum 1;
                         DuplicateHoldings 2] |}
           NEEDS_REVIEW).
  - reflexivity.
  - vm_compute. reflexivity.
Defined.

(** *** The data profile *)

Lemma has_column_getitem_ok (frame : DataFrame) (name : string) :
  has_column frame name = true -> exists col, getitem frame name = Ok col.
Proof.
  rewrite has_column_spec. destruct (getitem frame name); [eauto|discriminate].
Qed.

(** X21. [generate_data_profile] ends without exception exactly when the
    six columns it reads are present and [market_value_lakhs] is numeric:
    the five largest holdings are taken outside the test that guards the
    market value statistics. So on a dataset without [market_value_lakhs]
    the script ends with an exception, whatever the validator found. *)
Theorem generate_data_profile_needs (series_sum : Summation)
        (frame : DataFrame) :
  (Profile.generate_data_profile frame = Ok tt <->
   (forall col, In col profile_columns -> has_column frame col = true) /\
   exists cells, getitem frame "market_value_lakhs" = Ok (FloatCol cells)) /\
  (has_column frame "market_value_lakhs" = false ->
   forall csv_file, exists e, Profile.main series_sum csv_file frame = Raise e).
Proof.
  assert (Hiff : Profile.generate_data_profile frame = Ok tt <->
                 (forall col, In col profile_columns ->
                              has_column frame col = true) /\
                 exists cells,
                   getitem frame "market_value_lakhs" = Ok (FloatCol cells)).
  { split.
    - unfold Profile.generate_data_profile. rewrite has_column_spec.
      destruct (getitem frame "scheme_name") as [c1|e] eqn:E1; cbn [bind];
        [|discriminate].
      destruct (getitem frame "reporting_date") as [c2|e] eqn:E2; cbn [bind];
        [|discriminate].
      destruct (getitem frame "instrument_type") as [c3|e] eqn:E3; cbn [bind];
        [|discriminate].
      destruct (getitem frame "market_value_lakhs") as [[cells|cells]|e] eqn:E4;
        cbn [bind is_ok]; try discriminate;
        [cbn [Profile.statistics Profile.nlargest bind]
        |destruct (Profile.statistics (ObjectCol cells)) as [[]|e];
         cbn [bind Profile.nlargest]; discriminate].
      destruct (getitem frame "instrument_name") as [c5|e] eqn:E5; cbn [bind];
        [|discriminate].
      destruct (getitem frame "percentage_of_portfolio") as [c6|e] eqn:E6;
        cbn [bind]; [|discriminate].
      intros _. split; [|eauto].
      intros col Hcol. cbn [profile_columns In] in Hcol.
      rewrite has_column_spec.
      destruct Hcol as [<-|[<-|[<-|[<-|[<-|[<-|[]]]]]]];
        match goal with
        | H : getitem frame ?n = Ok _ |- is_ok (getitem frame ?n) = true =>
            rewrite H; reflexivity
        end.
    - intros [Hall [cells Hmv]].
      assert (Hget : forall col, In col profile_columns ->
                                 exists c, getitem frame col = Ok c)
        by (intros col Hcol; apply has_column_getitem_ok, Hall, Hcol).
      unfold Profile.generate_data_profile.
      destruct (Hget "scheme_name") as [c1 E1]; [cbn; tauto|].
      destruct (Hget "reporting_date") as [c2 E2]; [cbn; tauto|].
      destruct (Hget "instrument_type") as [c3 E3]; [cbn; tauto|].
      destruct (Hget "instrument_name") as [c5 E5]; [cbn; tauto|].
      destruct (Hget "percentage_of_portfolio") as [c6 E6]; [cbn; tauto|].
      rewrite has_column_spec, E1, E2, E3, Hmv, E5, E6. reflexivity. }
  split; [exact Hiff|].
  intros Hmv csv_file. unfold Profile.main.
  destruct (run_all_checks _ _) as [run|e]; cbn [bind]; [|eauto].
  destruct (Profile.generate_data_profile frame) as [[]|e] eqn:E;
    cbn [bind]; [|eauto].
  exfalso. destruct (proj1 Hiff eq_refl) as [Hall _].
  rewrite (Hall "market_value_lakhs") in Hmv by (cbn; tauto).
  discriminate.
Qed.

Lemma generate_data_profile_needs_witness :
  exists e, Profile.main Samples.plain_sum "consolidated.csv" Samples.five_columns = Raise e.
Proof.
  apply (proj2 (generate_data_profile_needs Samples.plain_sum
                                            Samples.five_columns)).
  reflexivity.
Defined.

Example five_columns_script :
  map_result snd
    (run_all_checks Samples.plain_sum (init "consolidated.csv" Samples.five_columns))
  = Ok PASSED /\
  Profile.main Samples.plain_sum "consolidated.csv" Samples.five_columns = Raise KeyError.
Proof. split; vm_compute; reflexivity. Qed.

End ValidatorExtras.
